(** * The back-test pipeline of learnapp-co/algo-trading, embedded in Rocq

    The development follows [src/helpers.js] and [src/backtest.js]:

    - JavaScript numbers are IEEE-754 binary64 values, modelled by Rocq's
      primitive [float]; [+], [-], [*], [/] and [<] are the primitive
      operations, whose meaning is given by [Stdlib.Floats.SpecFloat];
    - JavaScript objects used as dictionaries are association lists in
      insertion order, which is the order [Object.keys] enumerates string
      keys that are neither array indices nor inherited from
      [Object.prototype]; the keys of the source are dates in
      [DD-MM-YYYY] form and month labels;
    - [Array.prototype.sort] is the stable sort of ECMAScript 2019;
    - a promise is modelled by its eventual outcome;
    - dates are calendar days: [moment] is modelled at the granularity of
      a day, on the one format and the two patterns the source uses;
    - the file system, the instrument universe of [config.js] and the
      broker download are parameters of a run, gathered in [Env];
    - [helpers.log] only writes to the console and is left out.

    After the properties of the specification, the broker part of
    [src/helpers.js] and the routes of [src/index.js] are embedded over a
    state that holds the module variable [instruments] and the files of
    [data/], and further properties of the code are proved. *)

From Stdlib Require Import Floats ZArith Bool List Lia.
From Stdlib Require Import Ascii String Permutation Sorted.
Import ListNotations.

Set Warnings "-inexact-float".

Local Open Scope float_scope.

(* ================================================================== *)
(** * JavaScript values and built-ins *)
(* ================================================================== *)

Module JS.

(** The Number type. *)
Definition number := float.

(** [a > b] on numbers: false as soon as one side is [NaN]. *)
Definition gt (a b : number) : bool := b <? a.

(** [ToBoolean] on an optional number ([None] is [undefined]):
    [undefined], [+0], [-0] and [NaN] are falsy. *)
Definition truthy (v : option number) : bool :=
  match v with
  | None => false
  | Some x => negb (x =? 0) && negb (is_nan x)
  end.

(** The Number value of a mathematical integer: the nearest binary64
    value, ties to even. *)
Definition of_Z (n : Z) : number :=
  SF2Prim (binary_normalize prec emax n 0 false).

(** [Math.round]: the integral Number closest to [x], ties going
    towards +∞; [NaN], the infinities, the zeros and integral values
    are returned unchanged, and a result of zero keeps the sign of [x].
    A finite [x] is [±m·2^e]; for [e < 0] the result is
    [floor (x + 1/2)], computed exactly on integers. *)
Definition Math_round (x : number) : number :=
  match Prim2SF x with
  | S754_finite s m e =>
      if (0 <=? e)%Z then x
      else
        let v := if s then Zneg m else Zpos m in
        let n := Z.shiftr (2 * v + 2 ^ (- e)) (1 - e) in
        if (n =? 0)%Z then (if s then -0 else 0) else of_Z n
  | _ => x
  end.

(** Objects used as dictionaries with string keys that are not array
    indices: own properties in insertion order. *)
Definition object (V : Type) := list (string * V).

Section Object.
Context {V : Type}.

(** [o[k]]; [None] is [undefined]. *)
Fixpoint get (o : object V) (k : string) : option V :=
  match o with
  | [] => None
  | (k', v) :: o' => if String.eqb k k' then Some v else get o' k
  end.

(** [o[k] = v]: an existing property keeps its position, a new one
    is added last. *)
Fixpoint set (o : object V) (k : string) (v : V) : object V :=
  match o with
  | [] => [(k, v)]
  | (k', v') :: o' =>
      if String.eqb k k' then (k', v) :: o' else (k', v') :: set o' k v
  end.

(** [Object.keys(o)]. *)
Definition keys (o : object V) : list string := map fst o.
End Object.

(** [o[k].push(x)] for an object whose values are arrays; on a missing
    property the source would throw, and every call site creates the
    array first. *)
Definition push {A : Type} (o : object (list A)) (k : string) (x : A)
  : object (list A) :=
  match get o k with
  | Some a => set o k (a ++ [x])
  | None => o
  end.

(** [Array.prototype.sort(comparefn)].  ECMAScript's [SortCompare]
    reduces the Number returned by [comparefn] to its sign, a [NaN]
    counting as [+0]. *)
Definition SortCompare (v : number) : comparison :=
  if v <? 0 then Lt else if 0 <? v then Gt else Eq.

Section Sort.
Context {A : Type} (comparefn : A -> A -> comparison).

(** [x] comes from the left of every element of [l]: it stays in
    front of the elements it does not compare greater than. *)
Fixpoint insert (x : A) (l : list A) : list A :=
  match l with
  | [] => [x]
  | y :: l' =>
      match comparefn x y with
      | Gt => y :: insert x l'
      | _ => x :: l
      end
  end.

(** The stable sort: for a consistent [comparefn] the result does not
    depend on the algorithm. *)
Fixpoint sort (l : list A) : list A :=
  match l with
  | [] => []
  | x :: l' => insert x (sort l')
  end.
End Sort.

(** [a.slice(0, n)]. *)
Definition slice0 {A : Type} (n : nat) (a : list A) : list A := firstn n a.

(** Outcome of an asynchronous computation: the promise is fulfilled,
    it is rejected, or an exception escapes from a callback of the event
    loop and the promise never settles. *)
Inductive Error : Type :=
| FsError (path : string)
| SyntaxError
| TypeError
| OtherError (message : string).

Inductive Outcome (A : Type) : Type :=
| Resolved (a : A)
| Rejected (e : Error)
| Uncaught (e : Error).
Arguments Resolved {A} a.
Arguments Rejected {A} e.
Arguments Uncaught {A} e.

(** [await]. *)
Definition bind {A B : Type} (p : Outcome A) (k : A -> Outcome B)
  : Outcome B :=
  match p with
  | Resolved a => k a
  | Rejected e => Rejected e
  | Uncaught e => Uncaught e
  end.

(** [Promise.all]: fulfilled with every value when every promise is
    fulfilled.  Otherwise the first promise of the array that is not
    fulfilled decides; which rejection wins at run time depends on the
    scheduling, and no theorem below depends on that choice. *)
Fixpoint Promise_all {A : Type} (ps : list (Outcome A))
  : Outcome (list A) :=
  match ps with
  | [] => Resolved []
  | p :: ps' =>
      bind p (fun a => bind (Promise_all ps') (fun l => Resolved (a :: l)))
  end.

End JS.

Notation "x <- p ;; k" := (JS.bind p (fun x => k))
  (at level 61, p at next level, right associativity).

(* ================================================================== *)
(** * moment.js at day granularity *)
(* ================================================================== *)

Module Moment.

(** A calendar day, as [moment(...)] resolves a bar's time stamp in the
    local time zone. *)
Record t : Type := { year : Z; month : Z; day : Z }.

Definition leap (y : Z) : bool :=
  ((y mod 4 =? 0) && negb (y mod 100 =? 0) || (y mod 400 =? 0))%Z.

Definition daysInMonth (y m : Z) : Z :=
  match m with
  | 1 | 3 | 5 | 7 | 8 | 10 | 12 => 31
  | 4 | 6 | 9 | 11 => 30
  | 2 => if leap y then 29 else 28
  | _ => 0
  end%Z.

Definition isValid (d : t) : bool :=
  ((0 <=? year d) && (year d <=? 9999) && (1 <=? month d)
   && (month d <=? 12) && (1 <=? day d)
   && (day d <=? daysInMonth (year d) (month d)))%Z.

Definition digit (n : Z) : ascii := ascii_of_N (Z.to_N (48 + n mod 10)).

Definition digit_value (c : ascii) : option Z :=
  let n := Z.of_N (N_of_ascii c) in
  if ((48 <=? n) && (n <=? 57))%Z then Some (n - 48)%Z else None.

(** [.format('DD-MM-YYYY')]. *)
Definition format_DD_MM_YYYY (d : t) : string :=
  String (digit (day d / 10)) (String (digit (day d))
  (String "-"
  (String (digit (month d / 10)) (String (digit (month d))
  (String "-"
  (String (digit (year d / 1000)) (String (digit (year d / 100))
  (String (digit (year d / 10)) (String (digit (year d))
   EmptyString))))))))).

(** [moment(s, 'DD-MM-YYYY')] on the strings [format_DD_MM_YYYY]
    produces; [None] is an invalid moment. *)
Definition parse_DD_MM_YYYY (s : string) : option t :=
  match s with
  | String d1 (String d0 (String s1 (String m1 (String m0 (String s2
    (String y3 (String y2 (String y1 (String y0 EmptyString))))))))) =>
      match digit_value d1, digit_value d0, digit_value m1,
            digit_value m0, digit_value y3, digit_value y2,
            digit_value y1, digit_value y0 with
      | Some a, Some b, Some c, Some d, Some e, Some f, Some g, Some h =>
          let r := {| year := 1000 * e + 100 * f + 10 * g + h;
                      month := 10 * c + d;
                      day := 10 * a + b |}%Z in
          if Ascii.eqb s1 "-" && Ascii.eqb s2 "-" && isValid r
          then Some r else None
      | _, _, _, _, _, _, _, _ => None
      end
  | _ => None
  end.

(** [.format('MMM')]. *)
Definition format_MMM (d : option t) : string :=
  match d with
  | Some d =>
      nth (Z.to_nat (month d - 1))
        ["Jan"; "Feb"; "Mar"; "Apr"; "May"; "Jun";
         "Jul"; "Aug"; "Sep"; "Oct"; "Nov"; "Dec"]%string
        "Invalid date"%string
  | None => "Invalid date"%string
  end.

(** Chronological order of calendar days. *)
Definition compare (a b : t) : comparison :=
  match Z.compare (year a) (year b) with
  | Eq =>
      match Z.compare (month a) (month b) with
      | Eq => Z.compare (day a) (day b)
      | c => c
      end
  | c => c
  end.

(** A rank that grows with the calendar day. *)
Definition rank (d : t) : Z := (year d * 10000 + month d * 100 + day d)%Z.

(** Sign of [a.diff(b)], the number of milliseconds from [b] to [a];
    the difference is [NaN] when a moment is invalid, which a sort
    takes for [+0].  Only the sign reaches [Array.prototype.sort]. *)
Definition diff_sign (a b : option t) : comparison :=
  match a, b with
  | Some a, Some b => compare a b
  | _, _ => Eq
  end.

End Moment.

(* ================================================================== *)
(** * Data model *)
(* ================================================================== *)

(** One entry of [instrument.ohlc]; [high] and [low] are never read. *)
Module Bar.
Record t : Type := { date : Moment.t; open : JS.number; close : JS.number }.
End Bar.

(** The parsed content of [data/<year>/<symbol>.json]. *)
Module Instrument.
Record t : Type := { ohlc : list Bar.t }.
End Instrument.

(** The object literal pushed by [runTest]. *)
Module Trade.
Record t : Type :=
  { date : string;
    entry : JS.number;
    exit : JS.number;
    symbol : string;
    pnlPercent : JS.number;
    change : JS.number }.
End Trade.

(** The object [runBacktest] returns. *)
Module Results.
Record t : Type :=
  { yearlyPnl : JS.number;
    monthlyPnl : JS.object JS.number;
    trades : JS.object (list Trade.t) }.
End Results.

(** A line of the export: the header, or the template string made of a
    date, a comma and the decimal rendering of a Number, which stays
    symbolic. *)
Inductive CsvLine : Type :=
| CsvText (s : string)
| CsvRow (date : string) (pnl : JS.number).

Inductive FileData : Type :=
| JsonData (r : Results.t)
| TextData (lines : list CsvLine).

(** What [fs.readFile] followed by [JSON.parse] finds under a path. *)
Inductive FileRead : Type :=
| ReadError (e : JS.Error)
| Malformed
| Json (i : Instrument.t).

Record FileSystem : Type :=
  { fs_read : string -> FileRead;
    fs_write : string -> option JS.Error }.

(** The collaborators of a run: the universe [nfoStocks] of [config.js],
    the [data/] directory, and the broker download, which leaves a new
    [data/] directory behind or fails. *)
Record Env : Type :=
  { nfoStocks : list string;
    fs : FileSystem;
    downloadAllNfoStockHistoricalDataPerYear : string -> JS.Outcome FileSystem }.

(* ================================================================== *)
(** * helpers.js *)
(* ================================================================== *)

Module helpers.

(** [readFile]: the promise is rejected with the error of
    [fs.readFile]; [JSON.parse] runs in the callback of [fs.readFile],
    outside the promise executor, so its [SyntaxError] is not turned
    into a rejection. *)
Definition readFile (data : FileSystem) (filename : string)
  : JS.Outcome Instrument.t :=
  match fs_read data (filename ++ ".json")%string with
  | ReadError e => JS.Rejected e
  | Malformed => JS.Uncaught JS.SyntaxError
  | Json i => JS.Resolved i
  end.

(** [writeFile]: an object is serialised under [filename.json], a
    string is written under [filename]. *)
Definition writeFile (data : FileSystem) (filename : string) (d : FileData)
  : JS.Outcome (string * FileData) :=
  let fullname :=
    match d with
    | TextData _ => filename
    | JsonData _ => (filename ++ ".json")%string
    end in
  match fs_write data fullname with
  | Some e => JS.Rejected e
  | None => JS.Resolved (fullname, d)
  end.

(** [groupByDate]. *)
Definition groupByDate (array : list Trade.t) : JS.object (list Trade.t) :=
  fold_left
    (fun acc item =>
       let acc :=
         match JS.get acc (Trade.date item) with
         | None => JS.set acc (Trade.date item) []
         | Some _ => acc
         end in
       JS.push acc (Trade.date item) item)
    array [].

(** [round]. *)
Definition round (number : JS.number) : JS.number :=
  JS.Math_round (number * 100) / 100.

(** [percentChange]. *)
Definition percentChange (a b : JS.number) : JS.number :=
  round (((b - a) / a) * 100).

End helpers.

(* ================================================================== *)
(** * backtest.js *)
(* ================================================================== *)

Module backtest.
Import JS.

Definition DATE_FORMAT : Moment.t -> string := Moment.format_DD_MM_YYYY.
Definition slippage : number := 1 + 0.001.

(** The object literal of a trade entered on [d1] and left at the open
    of [d0]. *)
Definition trade (symbol : string) (d0 d1 : Bar.t) (d1inc : number)
  : Trade.t :=
  let date := DATE_FORMAT (Bar.date d1) in
  let entry := helpers.round (Bar.close d1 * slippage) in
  let exit := Bar.open d0 in
  let pnlPercent := helpers.percentChange entry exit in
  {| Trade.date := date; Trade.entry := entry; Trade.exit := exit;
     Trade.symbol := symbol; Trade.pnlPercent := pnlPercent;
     Trade.change := d1inc |}.

(** One turn of the loop of [runTest].  Reading a property of an array
    element that does not exist throws a [TypeError]; the elements are
    dereferenced in the order in which the conditions evaluate them. *)
Definition iteration (symbol : string) (ohlc : list Bar.t) (start : nat)
  (allTrades : list Trade.t) : Outcome (list Trade.t) :=
  let d0 := nth_error ohlc start in
  let d1 := nth_error ohlc (start + 1) in
  let d2 := nth_error ohlc (start + 2) in
  let d3 := nth_error ohlc (start + 3) in
  let d4 := nth_error ohlc (start + 4) in
  match d1, d2, d3 with
  | Some d1, Some d2, Some d3 =>
      if gt (Bar.close d1 - Bar.close d2) (Bar.close d2 - Bar.close d3)
      then
        match d4 with
        | Some d4 =>
            if gt (Bar.close d2 - Bar.close d3) (Bar.close d3 - Bar.close d4)
               && gt (Bar.close d1) (Bar.close d2)
               && gt (Bar.close d2) (Bar.close d3)
               && gt (Bar.close d3) (Bar.close d4)
            then
              let d1inc := helpers.percentChange (Bar.close d2) (Bar.close d1) in
              let d2inc := helpers.percentChange (Bar.close d3) (Bar.close d2) in
              let d3inc := helpers.percentChange (Bar.close d4) (Bar.close d4) in
              if gt d1inc d2inc && gt d2inc d3inc
              then
                match d0 with
                | Some d0 => Resolved (allTrades ++ [trade symbol d0 d1 d1inc])
                | None => Rejected TypeError
                end
              else Resolved allTrades
            else Resolved allTrades
        | None => Rejected TypeError
        end
      else Resolved allTrades
  | _, _, _ => Rejected TypeError
  end.

(** [for (let start = 0; start < maxIteration; start += 1)], with [n]
    turns left. *)
Fixpoint loop (symbol : string) (ohlc : list Bar.t) (n start : nat)
  (allTrades : list Trade.t) : Outcome (list Trade.t) :=
  match n with
  | O => Resolved allTrades
  | S n' =>
      allTrades' <- iteration symbol ohlc start allTrades ;;
      loop symbol ohlc n' (S start) allTrades'
  end.

(** [runTest]. *)
Definition runTest (data : FileSystem) (year symbol : string)
  : Outcome (list Trade.t) :=
  instrument <- helpers.readFile data (year ++ "/" ++ symbol)%string ;;
  let maxIteration := (Z.of_nat (List.length (Instrument.ohlc instrument)) - 4)%Z in
  loop symbol (Instrument.ohlc instrument) (Z.to_nat maxIteration) 0 [].

(** [(d1, d2) => moment(d1, DATE_FORMAT).diff(moment(d2, DATE_FORMAT))] *)
Definition byDate (d1 d2 : string) : comparison :=
  Moment.diff_sign (Moment.parse_DD_MM_YYYY d1) (Moment.parse_DD_MM_YYYY d2).

(** [(t1, t2) => t2.change - t1.change] *)
Definition byChange (t1 t2 : Trade.t) : comparison :=
  SortCompare (Trade.change t2 - Trade.change t1).

(** [monthlyPnl[month]] read as a Number: [undefined] becomes [NaN]. *)
Definition get_number (o : object number) (k : string) : number :=
  match get o k with
  | Some v => v
  | None => nan
  end.

(** [o[k]] for a key [k] enumerated from [o] itself. *)
Definition get_array {A : Type} (o : object (list A)) (k : string) : list A :=
  match get o k with
  | Some a => a
  | None => []
  end.

(** The top two trades of a date, by decreasing [change]. *)
Definition topTwo (allTradesByDates : object (list Trade.t)) (date : string)
  : list Trade.t :=
  slice0 2 (sort byChange (get_array allTradesByDates date)).

(** The callback of the [forEach] over the sorted dates; the state is
    the pair of the objects [monthlyPnl] and [trades]. *)
Definition forEachDate (allTradesByDates : object (list Trade.t))
  (st : object number * object (list Trade.t)) (date : string)
  : object number * object (list Trade.t) :=
  let '(monthlyPnl, trades) := st in
  let month := Moment.format_MMM (Moment.parse_DD_MM_YYYY date) in
  let totalPnl := 0 in
  let monthlyPnl :=
    if negb (truthy (get monthlyPnl month)) then set monthlyPnl month 0
    else monthlyPnl in
  let trades :=
    match get trades date with
    | None => set trades date []
    | Some _ => trades
    end in
  let '(totalPnl, trades) :=
    fold_left
      (fun '(totalPnl, trades) trade =>
         (totalPnl + Trade.pnlPercent trade, push trades date trade))
      (topTwo allTradesByDates date) (totalPnl, trades) in
  (set monthlyPnl month (helpers.round (get_number monthlyPnl month + totalPnl)),
   trades).

(** [Object.keys(allTradesByDates).sort(...).forEach(...)]. *)
Definition byDates (allTradesByDates : object (list Trade.t))
  : object number * object (list Trade.t) :=
  fold_left (forEachDate allTradesByDates)
    (sort byDate (keys allTradesByDates)) ([], []).

(** The lines of the CSV file. *)
Definition csvLines (trades : object (list Trade.t)) : list CsvLine :=
  fold_left
    (fun csvLines date =>
       let pnl :=
         fold_left
           (fun acc trade => helpers.round (acc + Trade.pnlPercent trade))
           (get_array trades date) 0 in
       csvLines ++ [CsvRow date pnl])
    (keys trades) [CsvText "Date,PnL%"].

(** [yearlyPnl]. *)
Definition yearlyPnl (monthlyPnl : object number) : number :=
  fold_left
    (fun acc month => helpers.round (acc + get_number monthlyPnl month))
    (keys monthlyPnl) 0.

(** The part of [runBacktest] between the scan and the file writes. *)
Definition computation (allTrades : list Trade.t) : Results.t * list CsvLine :=
  let allTradesByDates := helpers.groupByDate allTrades in
  let '(monthlyPnl, trades) := byDates allTradesByDates in
  ({| Results.yearlyPnl := yearlyPnl monthlyPnl;
      Results.monthlyPnl := monthlyPnl;
      Results.trades := trades |},
   csvLines trades).

(** What a run leaves behind: the outcome of the promise and the files
    written under [data/], in order. *)
Record Run : Type :=
  { outcome : Outcome Results.t;
    written : list (string * FileData) }.

(** [runBacktest]; an absent [year] defaults to ['2018']. *)
Definition runBacktest (env : Env) (year : option string)
  (shouldDownload : bool) : Run :=
  let year := match year with Some y => y | None => "2018"%string end in
  let downloaded :=
    if shouldDownload
    then downloadAllNfoStockHistoricalDataPerYear env year
    else Resolved (fs env) in
  match downloaded with
  | Resolved data =>
      let promises := map (fun symbol => runTest data year symbol) (nfoStocks env) in
      match Promise_all promises with
      | Resolved tradesPerStock =>
          let allTrades := List.concat tradesPerStock in
          let '(results, csv) := computation allTrades in
          match helpers.writeFile data (year ++ "/backtest-result")%string (JsonData results) with
          | Resolved w1 =>
              match helpers.writeFile data (year ++ "/backtest-result.csv")%string (TextData csv) with
              | Resolved w2 => {| outcome := Resolved results; written := [w1; w2] |}
              | Rejected e => {| outcome := Rejected e; written := [w1] |}
              | Uncaught e => {| outcome := Uncaught e; written := [w1] |}
              end
          | Rejected e => {| outcome := Rejected e; written := [] |}
          | Uncaught e => {| outcome := Uncaught e; written := [] |}
          end
      | Rejected e => {| outcome := Rejected e; written := [] |}
      | Uncaught e => {| outcome := Uncaught e; written := [] |}
      end
  | Rejected e => {| outcome := Rejected e; written := [] |}
  | Uncaught e => {| outcome := Uncaught e; written := [] |}
  end.

End backtest.

(* ================================================================== *)
(** * The specification's formulation of the pipeline *)
(* ================================================================== *)

Module Spec.
Import JS.

(** §4.1: [round2] and [pctChange(a, b) = round2((b − a) / a × 100)]. *)
Definition round2 : number -> number := helpers.round.

Definition pctChange (a b : number) : number := round2 ((b - a) / a * 100).

(** Half-up rounding of the exact value of [x] at two decimals: the
    integer [floor (100·x + 1/2)], divided by 100.  A finite [x] is
    [±m·2^e]. *)
Definition halfUpCents (x : number) : option Z :=
  match Prim2SF x with
  | S754_zero _ => Some 0%Z
  | S754_finite s m e =>
      let v := if s then Zneg m else Zpos m in
      Some (if (0 <=? e)%Z then 100 * v * 2 ^ e
            else (200 * v + 2 ^ (- e)) / 2 ^ (1 - e))%Z
  | _ => None
  end.

Definition halfUp2 (x : number) : number :=
  match halfUpCents x with
  | Some n => of_Z n / 100
  | None => x
  end.

(** §4.1: the three entry conditions on the closes of d1..d4. *)
Definition entryCondition (d1 d2 d3 d4 : Bar.t) : bool :=
  let inc1 := pctChange (Bar.close d2) (Bar.close d1) in
  let inc2 := pctChange (Bar.close d3) (Bar.close d2) in
  let inc3 := pctChange (Bar.close d4) (Bar.close d4) in
  (gt (Bar.close d1 - Bar.close d2) (Bar.close d2 - Bar.close d3)
   && gt (Bar.close d2 - Bar.close d3) (Bar.close d3 - Bar.close d4))
  && (gt (Bar.close d1) (Bar.close d2)
      && gt (Bar.close d2) (Bar.close d3)
      && gt (Bar.close d3) (Bar.close d4))
  && (gt inc1 inc2 && gt inc2 inc3).

(** §4.1: the CandidateTrade of a matching window. *)
Definition candidate (symbol : string) (d0 d1 d2 : Bar.t) : Trade.t :=
  let entry := round2 (Bar.close d1 * 1.001) in
  {| Trade.date := Moment.format_DD_MM_YYYY (Bar.date d1);
     Trade.entry := entry;
     Trade.exit := Bar.open d0;
     Trade.symbol := symbol;
     Trade.pnlPercent := pctChange entry (Bar.open d0);
     Trade.change := pctChange (Bar.close d2) (Bar.close d1) |}.

Definition window : Type := Bar.t * Bar.t * Bar.t * Bar.t * Bar.t.

(** The five-bar windows of a series, by increasing start index. *)
Fixpoint windows (ohlc : list Bar.t) : list window :=
  match ohlc with
  | d0 :: ((d1 :: d2 :: d3 :: d4 :: _) as rest) =>
      (d0, d1, d2, d3, d4) :: windows rest
  | _ => []
  end.

(** What the Pattern Detector emits for one window. *)
Definition emit (symbol : string) (w : window) : list Trade.t :=
  let '(d0, d1, d2, d3, d4) := w in
  if entryCondition d1 d2 d3 d4 then [candidate symbol d0 d1 d2] else [].

(** §4.1: the candidate sequence of a series. *)
Definition detector (symbol : string) (ohlc : list Bar.t) : list Trade.t :=
  flat_map (emit symbol) (windows ohlc).

(** §4.5: a total accumulated with a rounding after every addition. *)
Definition stepwise (totals : list number) : number :=
  fold_left (fun prev next => round2 (prev + next)) totals 0.

(** The totals a stepwise accumulation goes through. *)
Fixpoint running (prev : number) (totals : list number) : list number :=
  match totals with
  | [] => []
  | next :: totals' =>
      round2 (prev + next) :: running (round2 (prev + next)) totals'
  end.

(** A total rounded once, after all the additions. *)
Definition roundedOnce (totals : list number) : number :=
  round2 (fold_left (fun prev next => prev + next) totals 0).

(** §4.5: the month label of a date key. *)
Definition monthLabel (date : string) : string :=
  Moment.format_MMM (Moment.parse_DD_MM_YYYY date).

(** §4.5: the total of a date, the sum of the realized profit/loss of
    its selected trades. *)
Definition dateTotal (selected : list Trade.t) : number :=
  fold_left (fun sum trade => sum + Trade.pnlPercent trade) selected 0.

(** §4.5: the value of an export row, a reduction from zero that rounds
    after every addition. *)
Definition exportValue (selected : list Trade.t) : number :=
  fold_left (fun acc trade => round2 (acc + Trade.pnlPercent trade)) selected 0.

(** The calendar rank of a date key, for keys that are calendar days. *)
Definition calendarRank (date : string) : Z :=
  match Moment.parse_DD_MM_YYYY date with
  | Some d => Moment.rank d
  | None => 0%Z
  end.

End Spec.

(* ================================================================== *)
(** * Facts about numbers *)
(* ================================================================== *)

Module NumberFacts.
Import JS.

Lemma Prim2SF_100 : Prim2SF 100 = S754_finite false 7036874417766400 (-46).
Proof. vm_compute. reflexivity. Qed.

Lemma slippage_literal : backtest.slippage = 1.001.
Proof. vm_compute. reflexivity. Qed.

(** Strictly positive numbers, [+∞] included. *)
Definition positive (x : spec_float) : Prop :=
  x = S754_infinity false \/ exists m e, x = S754_finite false m e.

Lemma round_zero (y : number) (s : bool) :
  Prim2SF y = S754_zero s -> Prim2SF (helpers.round y) = S754_zero s.
Proof.
  intros Hy. unfold helpers.round.
  assert (Hm : Prim2SF (y * 100) = S754_zero s).
  { rewrite mul_spec, Hy, Prim2SF_100. simpl. now destruct s. }
  assert (Hr : Prim2SF (Math_round (y * 100)) = S754_zero s).
  { unfold Math_round. now rewrite Hm. }
  rewrite div_spec, Hr, Prim2SF_100. simpl. now destruct s.
Qed.

Lemma round_nan (y : number) :
  Prim2SF y = S754_nan -> Prim2SF (helpers.round y) = S754_nan.
Proof.
  intros Hy. unfold helpers.round.
  assert (Hm : Prim2SF (y * 100) = S754_nan).
  { rewrite mul_spec, Hy. reflexivity. }
  assert (Hr : Prim2SF (Math_round (y * 100)) = S754_nan).
  { unfold Math_round. now rewrite Hm. }
  rewrite div_spec, Hr. reflexivity.
Qed.

(** [percentChange(x, x)] is a zero, or [NaN] when [x] is zero, infinite
    or [NaN]. *)
Lemma percentChange_self (x : number) :
  match Prim2SF x with
  | S754_finite _ _ _ => exists s, Prim2SF (helpers.percentChange x x) = S754_zero s
  | _ => Prim2SF (helpers.percentChange x x) = S754_nan
  end.
Proof.
  unfold helpers.percentChange.
  destruct (Prim2SF x) as [s|s| |s m e] eqn:E.
  1-3: apply round_nan; rewrite mul_spec, div_spec, sub_spec, E;
       try destruct s; reflexivity.
  exists (xorb (xorb false s) false). apply round_zero.
  rewrite mul_spec, div_spec, sub_spec, E, Prim2SF_100.
  unfold SF64sub, SFsub. rewrite Z.sub_diag. reflexivity.
Qed.

Lemma gt_zero_positive (y : number) : gt y 0 = true <-> positive (Prim2SF y).
Proof.
  unfold gt, positive. rewrite ltb_spec.
  change (Prim2SF 0) with (S754_zero false).
  destruct (Prim2SF y) as [s|s| |s m e]; simpl; split; intros H;
    try discriminate; try destruct s; try discriminate; try reflexivity;
    try (destruct H as [H|(m' & e' & H)]; discriminate); eauto.
Qed.

Lemma gt_positive (x y : number) :
  gt x y = true -> positive (Prim2SF y) -> positive (Prim2SF x).
Proof.
  unfold gt, positive. rewrite ltb_spec. unfold SFltb.
  intros H [Hy|(m & e & Hy)]; rewrite Hy in H.
  - destruct (Prim2SF x) as [s|s| |s m e]; simpl in H;
      try discriminate; destruct s; discriminate.
  - destruct (Prim2SF x) as [s|s| |s m' e']; simpl in H;
      try discriminate; destruct s; try discriminate; eauto.
Qed.

(** A number above [percentChange(x, x)] is strictly positive. *)
Lemma gt_percentChange_self (y x : number) :
  gt y (helpers.percentChange x x) = true -> gt y 0 = true.
Proof.
  intros H. apply gt_zero_positive.
  pose proof (percentChange_self x) as Hx.
  unfold gt in H. rewrite ltb_spec in H. unfold SFltb, positive in *.
  destruct (Prim2SF x).
  1-3: rewrite Hx in H; discriminate.
  destruct Hx as [s0 Hx]. rewrite Hx in H.
  destruct (Prim2SF y) as [s1|s1| |s1 m1 e1]; simpl in H;
    try discriminate; destruct s1; try discriminate; eauto.
Qed.

End NumberFacts.

(* ================================================================== *)
(** * Facts about the Pattern Detector *)
(* ================================================================== *)

Module DetectorFacts.
Import JS.

Lemma windows_length (l : list Bar.t) :
  List.length (Spec.windows l) = (List.length l - 4)%nat.
Proof.
  induction l as [|d0 l IH]; [reflexivity|].
  destruct l as [|d1 [|d2 [|d3 [|d4 l]]]]; try reflexivity.
  change (Spec.windows (d0 :: d1 :: d2 :: d3 :: d4 :: l))
    with ((d0, d1, d2, d3, d4) :: Spec.windows (d1 :: d2 :: d3 :: d4 :: l)).
  cbn [List.length] in *. lia.
Qed.

(** The window of start index [i] is made of the bars [i .. i+4]. *)
Lemma windows_nth (l : list Bar.t) (i : nat) (d0 d1 d2 d3 d4 : Bar.t) :
  nth_error (Spec.windows l) i = Some (d0, d1, d2, d3, d4) <->
  nth_error l i = Some d0 /\ nth_error l (i + 1) = Some d1
  /\ nth_error l (i + 2) = Some d2 /\ nth_error l (i + 3) = Some d3
  /\ nth_error l (i + 4) = Some d4.
Proof.
  revert i. induction l as [|b0 l IH]; intros i.
  - destruct i; simpl; (split; [discriminate|intros [H _]; discriminate]).
  - destruct l as [|b1 [|b2 [|b3 [|b4 l]]]].
    1-4: split; [destruct i; discriminate|];
         intros (H0 & H1 & H2 & H3 & H4);
         replace (i + 4)%nat with (S (S (S (S i)))) in H4 by lia;
         simpl in H4; destruct i; discriminate.
    change (Spec.windows (b0 :: b1 :: b2 :: b3 :: b4 :: l))
      with ((b0, b1, b2, b3, b4) :: Spec.windows (b1 :: b2 :: b3 :: b4 :: l)).
    destruct i as [|i].
    + simpl. split.
      * intros H. injection H as -> -> -> -> ->. repeat split.
      * intros (H0 & H1 & H2 & H3 & H4).
        injection H0 as ->. injection H1 as ->. injection H2 as ->.
        injection H3 as ->. injection H4 as ->. reflexivity.
    + cbn [nth_error]. rewrite IH.
      replace (S i + 1)%nat with (S (i + 1)) by lia.
      replace (S i + 2)%nat with (S (i + 2)) by lia.
      replace (S i + 3)%nat with (S (i + 3)) by lia.
      replace (S i + 4)%nat with (S (i + 4)) by lia.
      cbn [nth_error]. reflexivity.
Qed.

Lemma trade_candidate (symbol : string) (d0 d1 d2 : Bar.t) :
  backtest.trade symbol d0 d1
    (helpers.percentChange (Bar.close d2) (Bar.close d1))
  = Spec.candidate symbol d0 d1 d2.
Proof.
  unfold backtest.trade, Spec.candidate. rewrite NumberFacts.slippage_literal.
  reflexivity.
Qed.

(** One turn of the loop on a complete window. *)
Lemma iteration_window (symbol : string) (ohlc : list Bar.t) (start : nat)
  (allTrades : list Trade.t) (d0 d1 d2 d3 d4 : Bar.t) :
  nth_error ohlc start = Some d0 ->
  nth_error ohlc (start + 1) = Some d1 ->
  nth_error ohlc (start + 2) = Some d2 ->
  nth_error ohlc (start + 3) = Some d3 ->
  nth_error ohlc (start + 4) = Some d4 ->
  backtest.iteration symbol ohlc start allTrades
  = Resolved (allTrades ++ Spec.emit symbol (d0, d1, d2, d3, d4)).
Proof.
  intros H0 H1 H2 H3 H4. unfold backtest.iteration.
  rewrite H0, H1, H2, H3, H4.
  unfold Spec.emit, Spec.entryCondition, Spec.pctChange, Spec.round2.
  fold (helpers.percentChange (Bar.close d2) (Bar.close d1)).
  fold (helpers.percentChange (Bar.close d3) (Bar.close d2)).
  fold (helpers.percentChange (Bar.close d4) (Bar.close d4)).
  rewrite <- trade_candidate.
  destruct (gt (Bar.close d1 - Bar.close d2) (Bar.close d2 - Bar.close d3));
    cbn [andb]; [|now rewrite app_nil_r].
  destruct (gt (Bar.close d2 - Bar.close d3) (Bar.close d3 - Bar.close d4));
    cbn [andb]; [|now rewrite app_nil_r].
  destruct (gt (Bar.close d1) (Bar.close d2));
    cbn [andb]; [|now rewrite app_nil_r].
  destruct (gt (Bar.close d2) (Bar.close d3));
    cbn [andb]; [|now rewrite app_nil_r].
  destruct (gt (Bar.close d3) (Bar.close d4));
    cbn [andb]; [|now rewrite app_nil_r].
  destruct (gt _ _ && gt _ _); [reflexivity|now rewrite app_nil_r].
Qed.

(** The loop, started behind the prefix [pre], scans the windows of the
    rest of the series. *)
Lemma loop_windows (symbol : string) (l pre : list Bar.t)
  (allTrades : list Trade.t) :
  backtest.loop symbol (pre ++ l) (List.length (Spec.windows l))
    (List.length pre) allTrades
  = Resolved (allTrades ++ Spec.detector symbol l).
Proof.
  revert pre allTrades. induction l as [|d0 l IH]; intros pre allTrades.
  - simpl. now rewrite app_nil_r.
  - destruct l as [|d1 [|d2 [|d3 [|d4 l]]]];
      try (simpl; now rewrite app_nil_r).
    unfold Spec.detector.
    change (Spec.windows (d0 :: d1 :: d2 :: d3 :: d4 :: l))
      with ((d0, d1, d2, d3, d4) :: Spec.windows (d1 :: d2 :: d3 :: d4 :: l)).
    cbn [List.length backtest.loop flat_map].
    rewrite (iteration_window symbol _ _ _ d0 d1 d2 d3 d4).
    + cbn [bind].
      specialize (IH (pre ++ [d0])
                    (allTrades ++ Spec.emit symbol (d0, d1, d2, d3, d4))).
      rewrite <- app_assoc in IH. cbn [app] in IH.
      rewrite length_app in IH. cbn [List.length] in IH.
      replace (List.length pre + 1)%nat with (S (List.length pre)) in IH by lia.
      rewrite IH. unfold Spec.detector. now rewrite app_assoc.
    + rewrite nth_error_app2 by lia. now rewrite Nat.sub_diag.
    + rewrite nth_error_app2 by lia.
      now replace (List.length pre + 1 - List.length pre)%nat with 1%nat by lia.
    + rewrite nth_error_app2 by lia.
      now replace (List.length pre + 2 - List.length pre)%nat with 2%nat by lia.
    + rewrite nth_error_app2 by lia.
      now replace (List.length pre + 3 - List.length pre)%nat with 3%nat by lia.
    + rewrite nth_error_app2 by lia.
      now replace (List.length pre + 4 - List.length pre)%nat with 4%nat by lia.
Qed.

(** [runTest] on a readable file computes the detector of the
    specification; in particular it never throws. *)
Lemma runTest_detector (data : FileSystem) (year symbol : string)
  (instrument : Instrument.t) :
  helpers.readFile data (year ++ "/" ++ symbol)%string = Resolved instrument ->
  backtest.runTest data year symbol
  = Resolved (Spec.detector symbol (Instrument.ohlc instrument)).
Proof.
  intros H. unfold backtest.runTest. rewrite H. cbn [bind].
  replace (Z.to_nat (Z.of_nat (List.length (Instrument.ohlc instrument)) - 4))
    with (List.length (Spec.windows (Instrument.ohlc instrument)))
    by (rewrite windows_length; lia).
  apply (loop_windows symbol (Instrument.ohlc instrument) [] []).
Qed.

(** A trade of the detector comes from a window that meets the entry
    conditions. *)
Lemma detector_In (symbol : string) (ohlc : list Bar.t) (t : Trade.t) :
  In t (Spec.detector symbol ohlc) <->
  exists d0 d1 d2 d3 d4,
    In (d0, d1, d2, d3, d4) (Spec.windows ohlc)
    /\ Spec.entryCondition d1 d2 d3 d4 = true
    /\ t = Spec.candidate symbol d0 d1 d2.
Proof.
  unfold Spec.detector. rewrite in_flat_map. split.
  - intros ([[[[d0 d1] d2] d3] d4] & Hw & Ht). unfold Spec.emit in Ht.
    destruct (Spec.entryCondition d1 d2 d3 d4) eqn:E; [|contradiction].
    destruct Ht as [<-|[]]. now exists d0, d1, d2, d3, d4.
  - intros (d0 & d1 & d2 & d3 & d4 & Hw & E & ->).
    exists (d0, d1, d2, d3, d4). split; [assumption|].
    unfold Spec.emit. rewrite E. now left.
Qed.

End DetectorFacts.

(* ================================================================== *)
(** * The order of binary64 values *)
(* ================================================================== *)

(** The comparison and the subtraction of [SpecFloat] are related to the
    order of the integers: a valid finite value [±m·2^e] is the integer
    [±m·2^(e+1074)] in units of the least subnormal. *)
Module FloatOrder.
Local Open Scope Z_scope.

Lemma digits2_pos_bounds (p : positive) :
  2 ^ (Zpos (digits2_pos p) - 1) <= Zpos p < 2 ^ Zpos (digits2_pos p).
Proof.
  induction p as [p IH|p IH|]; cbn [digits2_pos].
  - rewrite Pos2Z.inj_succ.
    replace (Z.succ (Zpos (digits2_pos p)) - 1) with (Z.succ (Zpos (digits2_pos p) - 1)) by lia.
    rewrite !Z.pow_succ_r by lia. lia.
  - rewrite Pos2Z.inj_succ.
    replace (Z.succ (Zpos (digits2_pos p)) - 1) with (Z.succ (Zpos (digits2_pos p) - 1)) by lia.
    rewrite !Z.pow_succ_r by lia. lia.
  - cbn. lia.
Qed.

Lemma shr_1_m (r : shr_record) :
  0 <= shr_m r -> shr_m (shr_1 r) = shr_m r / 2.
Proof.
  destruct r as [m r s]. cbn [shr_m]. intros Hm.
  rewrite <- Z.div2_div.
  destruct m as [|[p|p|]|p]; try reflexivity; lia.
Qed.

Lemma iter_shr_1_m (p : positive) (r : shr_record) :
  0 <= shr_m r -> shr_m (SpecFloat.iter_pos shr_1 p r) = shr_m r / 2 ^ Zpos p.
Proof.
  revert r. induction p as [p IH|p IH|]; intros r Hr; cbn [SpecFloat.iter_pos].
  - assert (H1 : 0 <= shr_m (shr_1 r)) by (rewrite shr_1_m by lia; apply Z.div_pos; lia).
    assert (H2 : 0 <= shr_m (SpecFloat.iter_pos shr_1 p (shr_1 r)))
      by (rewrite IH by lia; apply Z.div_pos; lia).
    rewrite IH, IH, shr_1_m by lia.
    rewrite !Z.div_div by lia.
    f_equal.
    replace (Zpos p~1) with (1 + Zpos p + Zpos p) by lia.
    rewrite !Z.pow_add_r by lia. lia.
  - assert (H2 : 0 <= shr_m (SpecFloat.iter_pos shr_1 p r))
      by (rewrite IH by lia; apply Z.div_pos; lia).
    rewrite IH, IH by lia.
    rewrite !Z.div_div by lia.
    f_equal.
    replace (Zpos p~0) with (Zpos p + Zpos p) by lia.
    rewrite !Z.pow_add_r by lia. lia.
  - now rewrite shr_1_m.
Qed.

Lemma shr_record_of_loc_m (m : Z) (l : location) : shr_m (shr_record_of_loc m l) = m.
Proof. destruct l as [|[]]; reflexivity. Qed.

(** Shifting a positive mantissa to its canonical exponent leaves a
    positive mantissa when the exponent is not below [emin]. *)
Lemma shr_fexp_pos (m : positive) (e : Z) (l : location) :
  -1074 <= e ->
  exists m' e', shr_m (fst (shr_fexp prec emax (Zpos m) e l)) = Zpos m'
             /\ snd (shr_fexp prec emax (Zpos m) e l) = e' /\ -1074 <= e'.
Proof.
  intros He. unfold shr_fexp, shr, fexp, emin, prec, emax.
  cbn [Zdigits2].
  pose proof (digits2_pos_bounds m) as Hd.
  destruct (Z.max (Zpos (digits2_pos m) + e - 53) (3 - 1024 - 53) - e) as [|p|p] eqn:En.
  - exists m, e. cbn [fst snd]. now rewrite shr_record_of_loc_m.
  - cbn [fst snd].
    rewrite iter_shr_1_m by (rewrite shr_record_of_loc_m; lia).
    rewrite shr_record_of_loc_m.
    assert (Hp : Zpos p <= Zpos (digits2_pos m) - 1) by lia.
    assert (H2 : 2 ^ Zpos p <= Zpos m).
    { apply Z.le_trans with (2 ^ (Zpos (digits2_pos m) - 1)); [|lia].
      apply Z.pow_le_mono_r; lia. }
    assert (H3 : 1 <= Zpos m / 2 ^ Zpos p).
    { apply Z.div_le_lower_bound; lia. }
    destruct (Zpos m / 2 ^ Zpos p) as [|q|q] eqn:Eq; try lia.
    exists q, (e + Zpos p). repeat split. lia.
  - exists m, e. cbn [fst snd]. now rewrite shr_record_of_loc_m.
Qed.

(** Non-zero values of sign [s], the infinity included. *)
Definition signed (s : bool) (x : spec_float) : Prop :=
  x = S754_infinity s \/ exists m e, x = S754_finite s m e.

Lemma round_nearest_even_pos (m : positive) (l : location) :
  exists m', round_nearest_even (Zpos m) l = Zpos m'.
Proof.
  destruct l as [|[]]; cbn [round_nearest_even]; eauto.
  - destruct (Z.even (Zpos m)); eauto. exists (m + 1)%positive. reflexivity.
  - exists (m + 1)%positive. reflexivity.
Qed.

Lemma binary_round_aux_signed (s : bool) (m : positive) (e : Z) (l : location) :
  -1074 <= e -> signed s (binary_round_aux prec emax s (Zpos m) e l).
Proof.
  intros He. unfold binary_round_aux.
  destruct (shr_fexp_pos m e l He) as (m1 & e1 & Hm1 & He1 & Hb1).
  destruct (shr_fexp prec emax (Zpos m) e l) as [mrs1 e1'].
  cbn [fst snd] in Hm1, He1. subst e1'.
  rewrite Hm1.
  destruct (round_nearest_even_pos m1 (loc_of_shr_record mrs1)) as (m2 & Hm2).
  rewrite Hm2.
  destruct (shr_fexp_pos m2 e1 loc_Exact Hb1) as (m3 & e3 & Hm3 & He3 & Hb3).
  destruct (shr_fexp prec emax (Zpos m2) e1 loc_Exact) as [mrs3 e3'].
  cbn [fst snd] in Hm3, He3. subst e3'.
  rewrite Hm3.
  destruct (e3 <=? emax - prec); [right; eauto|now left].
Qed.

Lemma binary_round_signed (s : bool) (m : positive) (e : Z) :
  -1074 <= e -> signed s (binary_round prec emax s m e).
Proof.
  intros He. unfold binary_round, shl_align.
  destruct (fexp prec emax (Zpos (digits2_pos m) + e) - e) as [|p|p] eqn:En.
  - now apply binary_round_aux_signed.
  - now apply binary_round_aux_signed.
  - apply binary_round_aux_signed. unfold fexp, emin, prec, emax. lia.
Qed.

(** The order key of a value: a finite [±m·2^e] is [±m·2^(e+1074)], and
    the infinities lie beyond every finite value. *)
Definition big : Z := 2 ^ 2200.

Definition ord (x : spec_float) : Z :=
  match x with
  | S754_zero _ => 0
  | S754_infinity s => cond_Zopp s big
  | S754_nan => 0
  | S754_finite s m e => cond_Zopp s (Zpos m * 2 ^ (e + 1074))
  end.

Lemma bounded_inv (m : positive) (e : Z) :
  bounded prec emax m e = true ->
  Zpos (digits2_pos m) <= 53 /\ -1074 <= e <= 971
  /\ (-1074 < e -> Zpos (digits2_pos m) = 53).
Proof.
  unfold bounded, canonical_mantissa, fexp, emin, prec, emax.
  rewrite andb_true_iff, Z.eqb_eq, Z.leb_le. lia.
Qed.

Lemma finite_lt_big (m : positive) (e : Z) :
  bounded prec emax m e = true -> 0 < Zpos m * 2 ^ (e + 1074) < big.
Proof.
  intros H. apply bounded_inv in H. destruct H as (Hd & He & _).
  pose proof (digits2_pos_bounds m) as Hm.
  assert (H1 : 0 < 2 ^ (e + 1074)) by (apply Z.pow_pos_nonneg; lia).
  split; [apply Z.mul_pos_pos; lia|].
  assert (H2 : Zpos m < 2 ^ 53).
  { apply Z.lt_le_trans with (2 ^ Zpos (digits2_pos m)); [lia|].
    apply Z.pow_le_mono_r; lia. }
  assert (H3 : 2 ^ (e + 1074) <= 2 ^ 2045) by (apply Z.pow_le_mono_r; lia).
  unfold big. replace 2200 with (53 + 2045 + 102) by lia.
  rewrite (Z.pow_add_r 2 (53 + 2045) 102), (Z.pow_add_r 2 53 2045) by lia.
  assert (H4 : 0 < 2 ^ 102) by (apply Z.pow_pos_nonneg; lia).
  assert (H5 : 0 < 2 ^ 2045) by (apply Z.pow_pos_nonneg; lia).
  revert H1 H2 H3 H4 H5.
  generalize (2 ^ (e + 1074)) (2 ^ 53) (2 ^ 2045) (2 ^ 102).
  intros A B C D H1 H2 H3 H4 H5.
  apply Z.le_lt_trans with (Zpos m * C).
  - apply Z.mul_le_mono_nonneg_l; lia.
  - apply Z.lt_le_trans with (B * C).
    + apply Z.mul_lt_mono_pos_r; lia.
    + rewrite <- (Z.mul_1_r (B * C)) at 1.
      apply Z.mul_le_mono_nonneg_l; nia.
Qed.

Lemma scaled_lt (m1 m2 : positive) (e1 e2 : Z) :
  bounded prec emax m1 e1 = true -> bounded prec emax m2 e2 = true ->
  e1 < e2 -> Zpos m1 * 2 ^ (e1 + 1074) < Zpos m2 * 2 ^ (e2 + 1074).
Proof.
  intros H1 H2 He.
  apply bounded_inv in H1. apply bounded_inv in H2.
  destruct H1 as (Hd1 & Hb1 & _). destruct H2 as (_ & Hb2 & Hd2).
  pose proof (digits2_pos_bounds m1) as Hm1.
  pose proof (digits2_pos_bounds m2) as Hm2.
  rewrite Hd2 in Hm2 by lia.
  assert (H53 : Zpos m1 < 2 ^ 53).
  { apply Z.lt_le_trans with (2 ^ Zpos (digits2_pos m1)); [lia|].
    apply Z.pow_le_mono_r; lia. }
  replace (e2 + 1074) with ((e2 - e1) + (e1 + 1074)) by lia.
  rewrite (Z.pow_add_r 2 (e2 - e1) (e1 + 1074)) by lia.
  assert (HK : 2 ^ 1 <= 2 ^ (e2 - e1)) by (apply Z.pow_le_mono_r; lia).
  assert (HA : 0 < 2 ^ (e1 + 1074)) by (apply Z.pow_pos_nonneg; lia).
  change (2 ^ 1) with 2 in HK. change (2 ^ 53) with 9007199254740992 in H53.
  change (2 ^ (53 - 1)) with 4503599627370496 in Hm2.
  revert HK HA. generalize (2 ^ (e2 - e1)) (2 ^ (e1 + 1074)). intros K A HK HA.
  rewrite Z.mul_assoc. apply Z.mul_lt_mono_pos_r; [lia|]. nia.
Qed.

Lemma scaled_compare (m1 m2 : positive) (e1 e2 : Z) :
  bounded prec emax m1 e1 = true -> bounded prec emax m2 e2 = true ->
  match e1 ?= e2 with
  | Lt => Lt
  | Gt => Gt
  | Eq => PosDef.Pos.compare_cont Eq m1 m2
  end = (Zpos m1 * 2 ^ (e1 + 1074) ?= Zpos m2 * 2 ^ (e2 + 1074)).
Proof.
  intros H1 H2. destruct (Z.compare_spec e1 e2) as [->|He|He].
  - pose proof (bounded_inv _ _ H2) as (_ & Hb & _).
    assert (HA : 0 < 2 ^ (e2 + 1074)) by (apply Z.pow_pos_nonneg; lia).
    change (PosDef.Pos.compare_cont Eq m1 m2) with (m1 ?= m2)%positive.
    symmetry. destruct (Pos.compare_spec m1 m2) as [->|Hm|Hm].
    + apply Z.compare_refl.
    + apply Z.compare_lt_iff. apply Z.mul_lt_mono_pos_r; lia.
    + apply Z.compare_gt_iff. apply Z.mul_lt_mono_pos_r; lia.
  - symmetry. apply Z.compare_lt_iff. now apply scaled_lt.
  - symmetry. apply Z.compare_gt_iff. now apply scaled_lt.
Qed.

Lemma SFcompare_ord (x y : spec_float) :
  SpecFloat.valid_binary prec emax x = true ->
  SpecFloat.valid_binary prec emax y = true ->
  x <> S754_nan -> y <> S754_nan ->
  SFcompare x y = Some (ord x ?= ord y).
Proof.
  intros Vx Vy Nx Ny.
  destruct x as [sx|sx| |sx mx ex]; [| | congruence |];
    (destruct y as [sy|sy| |sy my ey]; [| | congruence |]);
    cbn [SFcompare ord SpecFloat.valid_binary] in *;
    try pose proof (finite_lt_big _ _ Vx) as Bx;
    try pose proof (finite_lt_big _ _ Vy) as By;
    assert (Hbig : 0 < big) by (unfold big; apply Z.pow_pos_nonneg; lia);
    try (destruct sx); try (destruct sy); cbn [cond_Zopp];
    f_equal; symmetry;
    try (apply Z.compare_eq_iff; lia);
    try (apply Z.compare_lt_iff; lia);
    try (apply Z.compare_gt_iff; lia).
  - rewrite Z.compare_opp, <- (scaled_compare _ _ _ _ Vy Vx).
    rewrite (Z.compare_antisym ex ey).
    destruct (ex ?= ey); cbn [CompOpp]; try reflexivity.
    change (PosDef.Pos.compare_cont Eq my mx) with (my ?= mx)%positive.
    change (PosDef.Pos.compare_cont Eq mx my) with (mx ?= my)%positive.
    apply Pos.compare_antisym.
  - now rewrite <- (scaled_compare _ _ _ _ Vx Vy).
Qed.

Lemma shl_align_fst (m : positive) (e ez : Z) :
  ez <= e -> Zpos (fst (shl_align m e ez)) = Zpos m * 2 ^ (e - ez).
Proof.
  intros H. unfold shl_align.
  destruct (ez - e) as [|p|p] eqn:E; cbn [fst].
  - replace (e - ez) with 0 by lia. lia.
  - lia.
  - change (Pos.iter xO m p) with (shift_pos p m).
    rewrite shift_pos_correct.
    replace (e - ez) with (Zpos p) by lia.
    change (Zpower_pos 2 p) with (2 ^ Zpos p). apply Z.mul_comm.
Qed.

(** The sign of a difference of valid numbers is the comparison of their
    order keys. *)
Lemma SF64sub_ord (x y : spec_float) :
  SpecFloat.valid_binary prec emax x = true ->
  SpecFloat.valid_binary prec emax y = true ->
  x <> S754_nan -> y <> S754_nan ->
  match ord x ?= ord y with
  | Lt => signed true (SF64sub x y)
  | Gt => signed false (SF64sub x y)
  | Eq => SF64sub x y = S754_nan \/ exists s, SF64sub x y = S754_zero s
  end.
Proof.
  intros Vx Vy Nx Ny.
  assert (Hbig : 0 < big) by (unfold big; apply Z.pow_pos_nonneg; lia).
  destruct x as [sx|sx| |sx mx ex]; [| | congruence |];
    (destruct y as [sy|sy| |sy my ey]; [| | congruence |]);
    cbn [ord SpecFloat.valid_binary] in *;
    try pose proof (finite_lt_big _ _ Vx) as Bx;
    try pose proof (finite_lt_big _ _ Vy) as By.
  - (* zero, zero *) cbn. right. destruct sx, sy; eauto.
  - (* zero, infinity *)
    destruct sy; cbn [cond_Zopp].
    + replace (0 ?= - big) with Gt by (symmetry; apply Z.compare_gt_iff; lia).
      now left.
    + replace (0 ?= big) with Lt by (symmetry; apply Z.compare_lt_iff; lia).
      now left.
  - (* zero, finite *)
    destruct sy; cbn [cond_Zopp].
    + replace (0 ?= - _) with Gt by (symmetry; apply Z.compare_gt_iff; lia).
      right. cbn. eauto.
    + replace (0 ?= _) with Lt by (symmetry; apply Z.compare_lt_iff; lia).
      right. cbn. eauto.
  - (* infinity, zero *)
    destruct sx; cbn [cond_Zopp].
    + replace (- big ?= 0) with Lt by (symmetry; apply Z.compare_lt_iff; lia).
      now left.
    + replace (big ?= 0) with Gt by (symmetry; apply Z.compare_gt_iff; lia).
      now left.
  - (* infinity, infinity *)
    destruct sx, sy; cbn [cond_Zopp].
    + rewrite Z.compare_refl. now left.
    + replace (- big ?= big) with Lt by (symmetry; apply Z.compare_lt_iff; lia).
      now left.
    + replace (big ?= - big) with Gt by (symmetry; apply Z.compare_gt_iff; lia).
      now left.
    + rewrite Z.compare_refl. now left.
  - (* infinity, finite *)
    destruct sx, sy; cbn [cond_Zopp].
    + replace (- big ?= - _) with Lt by (symmetry; apply Z.compare_lt_iff; lia). now left.
    + replace (- big ?= _) with Lt by (symmetry; apply Z.compare_lt_iff; lia). now left.
    + replace (big ?= - _) with Gt by (symmetry; apply Z.compare_gt_iff; lia). now left.
    + replace (big ?= _) with Gt by (symmetry; apply Z.compare_gt_iff; lia). now left.
  - (* finite, zero *)
    destruct sx; cbn [cond_Zopp].
    + replace (- _ ?= 0) with Lt by (symmetry; apply Z.compare_lt_iff; lia).
      right. cbn. eauto.
    + replace (_ ?= 0) with Gt by (symmetry; apply Z.compare_gt_iff; lia).
      right. cbn. eauto.
  - (* finite, infinity *)
    destruct sx, sy; cbn [cond_Zopp].
    + replace (- _ ?= - big) with Gt by (symmetry; apply Z.compare_gt_iff; lia). now left.
    + replace (- _ ?= big) with Lt by (symmetry; apply Z.compare_lt_iff; lia). now left.
    + replace (_ ?= - big) with Gt by (symmetry; apply Z.compare_gt_iff; lia). now left.
    + replace (_ ?= big) with Lt by (symmetry; apply Z.compare_lt_iff; lia). now left.
  - (* finite, finite *)
    pose proof (bounded_inv _ _ Vx) as (_ & Hex & _).
    pose proof (bounded_inv _ _ Vy) as (_ & Hey & _).
    unfold SF64sub, SFsub.
    set (ez := Z.min ex ey).
    assert (Hez : -1074 <= ez /\ ez <= ex /\ ez <= ey) by (unfold ez; lia).
    rewrite !shl_align_fst by lia.
    set (P := 2 ^ (ez + 1074)).
    assert (HP : 0 < P) by (apply Z.pow_pos_nonneg; lia).
    assert (Hx : Zpos mx * 2 ^ (ex + 1074) = Zpos mx * 2 ^ (ex - ez) * P).
    { unfold P. rewrite <- Z.mul_assoc, <- Z.pow_add_r by lia. do 2 f_equal. lia. }
    assert (Hy : Zpos my * 2 ^ (ey + 1074) = Zpos my * 2 ^ (ey - ez) * P).
    { unfold P. rewrite <- Z.mul_assoc, <- Z.pow_add_r by lia. do 2 f_equal. lia. }
    rewrite Hx, Hy.
    set (A := Zpos mx * 2 ^ (ex - ez)). set (B := Zpos my * 2 ^ (ey - ez)).
    set (D := cond_Zopp sx A - cond_Zopp sy B).
    assert (HD : cond_Zopp sx (A * P) - cond_Zopp sy (B * P) = D * P).
    { unfold D. destruct sx, sy; cbn [cond_Zopp]; ring. }
    destruct (Z.compare_spec (cond_Zopp sx (A * P)) (cond_Zopp sy (B * P))) as [H|H|H].
    + assert (D = 0) by nia. right. exists false. now replace D with 0.
    + assert (HD0 : D < 0) by nia.
      destruct D as [|d|d]; try lia.
      cbn [binary_normalize]. apply binary_round_signed. lia.
    + assert (HD0 : 0 < D) by nia.
      destruct D as [|d|d]; try lia.
      cbn [binary_normalize]. apply binary_round_signed. lia.
Qed.

End FloatOrder.

(* ================================================================== *)
(** * Comparing numbers *)
(* ================================================================== *)

Module NumberOrder.
Import JS FloatOrder.

(** The order key of a number. *)
Definition key (x : number) : Z := ord (Prim2SF x).

Lemma is_nan_false (x : number) :
  is_nan x = false <-> Prim2SF x <> S754_nan.
Proof.
  unfold is_nan. rewrite FloatAxioms.eqb_spec. unfold SFeqb. split.
  - intros H E. rewrite E in H. discriminate.
  - intros H. rewrite SFcompare_ord by (auto using Prim2SF_valid).
    now rewrite Z.compare_refl.
Qed.

Lemma ltb_key (a b : number) :
  is_nan a = false -> is_nan b = false -> (a <? b) = (key a <? key b)%Z.
Proof.
  rewrite !is_nan_false. intros Ha Hb.
  rewrite FloatAxioms.ltb_spec. unfold SFltb, key.
  rewrite SFcompare_ord by (auto using Prim2SF_valid).
  unfold Z.ltb. now destruct (_ ?= _)%Z.
Qed.

Lemma leb_key (a b : number) :
  is_nan a = false -> is_nan b = false -> (a <=? b) = (key a <=? key b)%Z.
Proof.
  rewrite !is_nan_false. intros Ha Hb.
  rewrite FloatAxioms.leb_spec. unfold SFleb, key.
  rewrite SFcompare_ord by (auto using Prim2SF_valid).
  unfold Z.leb. now destruct (_ ?= _)%Z.
Qed.

Lemma SortCompare_signed_true (v : number) :
  signed true (Prim2SF v) -> SortCompare v = Lt.
Proof.
  unfold SortCompare. rewrite FloatAxioms.ltb_spec.
  change (Prim2SF 0) with (S754_zero false).
  intros [H|(m & e & H)]; now rewrite H.
Qed.

Lemma SortCompare_signed_false (v : number) :
  signed false (Prim2SF v) -> SortCompare v = Gt.
Proof.
  unfold SortCompare. rewrite !FloatAxioms.ltb_spec.
  change (Prim2SF 0) with (S754_zero false).
  intros [H|(m & e & H)]; now rewrite H.
Qed.

(** The sign [Array.prototype.sort] sees in [a - b]. *)
Lemma SortCompare_sub (a b : number) :
  is_nan a = false -> is_nan b = false ->
  SortCompare (a - b) = (key a ?= key b)%Z.
Proof.
  rewrite !is_nan_false. intros Ha Hb.
  pose proof (SF64sub_ord (Prim2SF a) (Prim2SF b)
                (Prim2SF_valid a) (Prim2SF_valid b) Ha Hb) as H.
  rewrite <- sub_spec in H. unfold key.
  destruct (ord (Prim2SF a) ?= ord (Prim2SF b))%Z.
  - unfold SortCompare. rewrite !FloatAxioms.ltb_spec.
    change (Prim2SF 0) with (S754_zero false).
    destruct H as [H|[s H]]; now rewrite H.
  - now apply SortCompare_signed_true.
  - now apply SortCompare_signed_false.
Qed.

End NumberOrder.

(* ================================================================== *)
(** * Facts about [Array.prototype.sort] *)
(* ================================================================== *)

Module SortFacts.
Import JS.

Section Any.
Context {A : Type} (comparefn : A -> A -> comparison).

Lemma insert_Permutation (x : A) (l : list A) :
  Permutation (insert comparefn x l) (x :: l).
Proof.
  induction l as [|y l IH]; cbn [insert]; [reflexivity|].
  destruct (comparefn x y); try reflexivity.
  rewrite IH. apply perm_swap.
Qed.

Lemma sort_Permutation (l : list A) : Permutation (sort comparefn l) l.
Proof.
  induction l as [|x l IH]; cbn [sort]; [reflexivity|].
  rewrite insert_Permutation. now constructor.
Qed.

Lemma sort_length (l : list A) : List.length (sort comparefn l) = List.length l.
Proof. apply Permutation_length, sort_Permutation. Qed.

Lemma sort_In (l : list A) (x : A) : In x (sort comparefn l) <-> In x l.
Proof.
  split; apply Permutation_in;
    [apply sort_Permutation|symmetry; apply sort_Permutation].
Qed.
End Any.

(** A comparison function that is the order of an integer key on the
    elements of [l]. *)
Section Keyed.
Context {A : Type} (comparefn : A -> A -> comparison) (key : A -> Z).

Definition consistent (l : list A) : Prop :=
  forall x y, In x l -> In y l -> comparefn x y = (key x ?= key y)%Z.

Definition ascending : list A -> Prop :=
  StronglySorted (fun x y => (key x <= key y)%Z).

Lemma consistent_cons (x : A) (l : list A) :
  consistent (x :: l) -> consistent l.
Proof. intros H a b Ha Hb. apply H; now right. Qed.

Lemma insert_ascending (x : A) (l : list A) :
  consistent (x :: l) -> ascending l -> ascending (insert comparefn x l).
Proof.
  intros Hc Hs. induction Hs as [|y l Hs IH Hy]; cbn [insert].
  - repeat constructor.
  - assert (Hxy : comparefn x y = (key x ?= key y)%Z)
      by (apply Hc; [now left|right; now left]).
    rewrite Hxy. destruct (Z.compare_spec (key x) (key y)) as [E|E|E].
    + constructor; [now constructor|].
      constructor; [lia|].
      rewrite Forall_forall in Hy |- *. intros z Hz.
      specialize (Hy z Hz). lia.
    + constructor; [now constructor|].
      constructor; [lia|].
      rewrite Forall_forall in Hy |- *. intros z Hz.
      specialize (Hy z Hz). lia.
    + constructor.
      * apply IH. intros a b Ha Hb. apply Hc.
        -- destruct Ha as [<-|Ha]; [now left|right; now right].
        -- destruct Hb as [<-|Hb]; [now left|right; now right].
      * rewrite Forall_forall in Hy |- *. intros z Hz.
        apply (Permutation_in _ (insert_Permutation comparefn x l)) in Hz.
        destruct Hz as [<-|Hz]; [lia|now apply Hy].
Qed.

Lemma sort_ascending (l : list A) :
  consistent l -> ascending (sort comparefn l).
Proof.
  induction l as [|x l IH]; intros Hc; cbn [sort]; [constructor|].
  apply insert_ascending.
  - intros a b Ha Hb. apply Hc.
    + destruct Ha as [<-|Ha]; [now left|right; now apply (sort_In comparefn l)].
    + destruct Hb as [<-|Hb]; [now left|right; now apply (sort_In comparefn l)].
  - apply IH. now apply consistent_cons in Hc.
Qed.

(** Stability: the elements of one key keep their order. *)
Lemma insert_stable (k : Z) (x : A) (l : list A) :
  consistent (x :: l) ->
  filter (fun a => (key a =? k)%Z) (insert comparefn x l)
  = filter (fun a => (key a =? k)%Z) (x :: l).
Proof.
  intros Hc. induction l as [|y l IH]; cbn [insert]; [reflexivity|].
  assert (Hxy : comparefn x y = (key x ?= key y)%Z)
    by (apply Hc; [now left|right; now left]).
  rewrite Hxy. destruct (Z.compare_spec (key x) (key y)) as [E|E|E];
    try reflexivity.
  cbn [filter]. rewrite IH.
  - cbn [filter].
    destruct (Z.eqb_spec (key x) k), (Z.eqb_spec (key y) k);
      try reflexivity; lia.
  - intros a b Ha Hb. apply Hc.
    + destruct Ha as [<-|Ha]; [now left|right; now right].
    + destruct Hb as [<-|Hb]; [now left|right; now right].
Qed.

Lemma sort_stable (k : Z) (l : list A) :
  consistent l ->
  filter (fun a => (key a =? k)%Z) (sort comparefn l)
  = filter (fun a => (key a =? k)%Z) l.
Proof.
  induction l as [|x l IH]; intros Hc; cbn [sort]; [reflexivity|].
  rewrite insert_stable.
  - cbn [filter]. rewrite IH by now apply consistent_cons in Hc.
    reflexivity.
  - intros a b Ha Hb. apply Hc.
    + destruct Ha as [<-|Ha]; [now left|right; now apply (sort_In comparefn l)].
    + destruct Hb as [<-|Hb]; [now left|right; now apply (sort_In comparefn l)].
Qed.

(** In an ascending list a prefix is below the rest. *)
Lemma ascending_firstn_skipn (n : nat) (l : list A) (x y : A) :
  ascending l -> In x (firstn n l) -> In y (skipn n l) ->
  (key x <= key y)%Z.
Proof.
  intros Hs. revert n. induction Hs as [|z l Hs IH Hz]; intros n Hx Hy.
  - destruct n; contradiction.
  - destruct n as [|n]; [contradiction|].
    cbn [firstn skipn] in Hx, Hy. destruct Hx as [<-|Hx].
    + rewrite Forall_forall in Hz. apply Hz.
      rewrite <- (firstn_skipn n l). apply in_or_app. now right.
    + now apply (IH n).
Qed.
End Keyed.
End SortFacts.

(* ================================================================== *)
(** * Facts about objects *)
(* ================================================================== *)

Module ObjectFacts.
Import JS.

Section Object.
Context {V : Type}.
Implicit Types (o : object V) (k : string) (v : V).

Lemma get_set_same o k v : get (set o k v) k = Some v.
Proof.
  induction o as [|[k' v'] o IH]; cbn [set get].
  - now rewrite String.eqb_refl.
  - destruct (String.eqb k k') eqn:E; cbn [get]; rewrite E; auto.
Qed.

Lemma get_set_other o k k' v : k' <> k -> get (set o k v) k' = get o k'.
Proof.
  intros Hk. induction o as [|[k0 v0] o IH]; cbn [set get].
  - apply String.eqb_neq in Hk. now rewrite Hk.
  - destruct (String.eqb k k0) eqn:E; cbn [get].
    + apply String.eqb_eq in E. subst k0.
      apply String.eqb_neq in Hk. now rewrite Hk.
    + now rewrite IH.
Qed.

Lemma get_None o k : get o k = None <-> ~ In k (keys o).
Proof.
  induction o as [|[k' v'] o IH]; cbn [get keys map fst In].
  - tauto.
  - destruct (String.eqb_spec k k') as [->|Hk].
    + split; [discriminate|intros H; exfalso; apply H; now left].
    + unfold keys in IH. rewrite IH. split.
      * intros H [E|H']; [congruence|tauto].
      * tauto.
Qed.

Lemma get_In o k v : get o k = Some v -> In (k, v) o.
Proof.
  induction o as [|[k' v'] o IH]; cbn [get]; [discriminate|].
  destruct (String.eqb_spec k k') as [->|Hk].
  - intros [= ->]. now left.
  - intros H. right. auto.
Qed.

Lemma In_get o k v : NoDup (keys o) -> In (k, v) o -> get o k = Some v.
Proof.
  induction o as [|[k' v'] o IH]; cbn [get keys map fst]; [contradiction|].
  intros Hnd [E|H]; inversion Hnd as [|? ? Hk Hnd']; subst.
  - injection E as -> ->. now rewrite String.eqb_refl.
  - destruct (String.eqb_spec k k') as [->|Hne]; [|now apply IH].
    exfalso. apply Hk. change k' with (fst (k', v)). now apply in_map.
Qed.

Lemma set_new o k v : get o k = None -> set o k v = o ++ [(k, v)].
Proof.
  induction o as [|[k' v'] o IH]; cbn [get set app]; [reflexivity|].
  destruct (String.eqb k k'); [discriminate|].
  intros H. now rewrite IH.
Qed.

Lemma set_last o k v v' : get o k = None -> set (o ++ [(k, v)]) k v' = o ++ [(k, v')].
Proof.
  induction o as [|[k0 v0] o IH]; cbn [get set app].
  - now rewrite String.eqb_refl.
  - destruct (String.eqb k k0); [discriminate|].
    intros H. now rewrite IH.
Qed.

Lemma get_last o k v : get o k = None -> get (o ++ [(k, v)]) k = Some v.
Proof.
  intros H. rewrite <- (set_new o k v H). apply get_set_same.
Qed.

Lemma keys_set_old o k v :
  get o k <> None -> keys (set o k v) = keys o.
Proof.
  induction o as [|[k' v'] o IH]; cbn [get set keys map fst]; [congruence|].
  destruct (String.eqb_spec k k') as [->|Hk]; cbn [map fst]; [reflexivity|].
  intros H. f_equal. now apply IH.
Qed.

Lemma keys_app o o' : keys (o ++ o') = (keys o ++ keys o')%list.
Proof. apply map_app. Qed.

End Object.

(** [push] on the property added last. *)
Lemma push_last {A : Type} (o : object (list A)) (k : string) (a : list A) (x : A) :
  get o k = None -> push (o ++ [(k, a)]) k x = o ++ [(k, (a ++ [x])%list)].
Proof.
  intros H. unfold push. rewrite (get_last o k a H). now apply set_last.
Qed.

End ObjectFacts.

(* ================================================================== *)
(** * Facts about [groupByDate] *)
(* ================================================================== *)

Module GroupFacts.
Import JS ObjectFacts.

Definition step (acc : object (list Trade.t)) (item : Trade.t) :=
  let acc :=
    match get acc (Trade.date item) with
    | None => set acc (Trade.date item) []
    | Some _ => acc
    end in
  push acc (Trade.date item) item.

Lemma step_eq (acc : object (list Trade.t)) (item : Trade.t) :
  step acc item =
  match get acc (Trade.date item) with
  | None => acc ++ [(Trade.date item, [item])]
  | Some b => set acc (Trade.date item) (b ++ [item])
  end.
Proof.
  unfold step. destruct (get acc (Trade.date item)) as [b|] eqn:E.
  - unfold push. now rewrite E.
  - rewrite (set_new _ _ _ E). now rewrite push_last.
Qed.

Lemma step_get (acc : object (list Trade.t)) (item : Trade.t) (d : string) :
  backtest.get_array (step acc item) d
  = (backtest.get_array acc d
     ++ if String.eqb (Trade.date item) d then [item] else [])%list.
Proof.
  rewrite step_eq. unfold backtest.get_array.
  destruct (String.eqb_spec (Trade.date item) d) as [<-|Hd].
  - destruct (get acc (Trade.date item)) as [b|] eqn:E.
    + now rewrite get_set_same.
    + now rewrite get_last.
  - rewrite app_nil_r. destruct (get acc (Trade.date item)) as [b|] eqn:E.
    + rewrite get_set_other by congruence. reflexivity.
    + rewrite <- (set_new _ _ _ E). rewrite get_set_other by congruence.
      reflexivity.
Qed.

Lemma step_keys (acc : object (list Trade.t)) (item : Trade.t) :
  keys (step acc item)
  = (keys acc ++ if in_dec string_dec (Trade.date item) (keys acc)
                 then [] else [Trade.date item])%list.
Proof.
  rewrite step_eq. destruct (get acc (Trade.date item)) as [b|] eqn:E.
  - rewrite keys_set_old by congruence.
    destruct (in_dec _ _ _) as [H|H]; [now rewrite app_nil_r|].
    apply get_None in H. congruence.
  - rewrite keys_app. destruct (in_dec _ _ _) as [H|H]; [|reflexivity].
    apply get_None in E. contradiction.
Qed.

Lemma step_NoDup (acc : object (list Trade.t)) (item : Trade.t) :
  NoDup (keys acc) -> NoDup (keys (step acc item)).
Proof.
  intros H. rewrite step_keys. destruct (in_dec _ _ _) as [Hi|Hi].
  - now rewrite app_nil_r.
  - apply NoDup_app; auto.
    + repeat constructor. intros [].
    + intros x Hx [<-|[]]. contradiction.
Qed.

Lemma step_nonempty (acc : object (list Trade.t)) (item : Trade.t) :
  Forall (fun kv => snd kv <> []) acc ->
  Forall (fun kv => snd kv <> []) (step acc item).
Proof.
  intros H. rewrite step_eq. destruct (get acc (Trade.date item)) as [b|] eqn:E.
  - clear E. induction acc as [|[k v] acc IH]; cbn [set].
    + repeat constructor. cbn. now destruct b.
    + inversion H; subst. destruct (String.eqb _ _).
      * constructor; auto. cbn. now destruct b.
      * constructor; auto.
  - apply Forall_app. split; auto. repeat constructor. discriminate.
Qed.

Lemma fold_step_get (array : list Trade.t) (acc : object (list Trade.t)) (d : string) :
  backtest.get_array (fold_left step array acc) d
  = (backtest.get_array acc d
     ++ filter (fun item => String.eqb (Trade.date item) d) array)%list.
Proof.
  revert acc. induction array as [|item array IH]; intros acc; cbn [fold_left filter].
  - now rewrite app_nil_r.
  - rewrite IH, step_get. rewrite <- app_assoc. f_equal.
    now destruct (String.eqb _ _).
Qed.

Lemma fold_step_keys (array : list Trade.t) (acc : object (list Trade.t)) (d : string) :
  In d (keys (fold_left step array acc)) <->
  In d (keys acc) \/ exists item, In item array /\ Trade.date item = d.
Proof.
  revert acc. induction array as [|item array IH]; intros acc; cbn [fold_left].
  - split; [now left|intros [H|(i & [] & _)]; assumption].
  - rewrite IH, step_keys, in_app_iff. split.
    + intros [[H|H]|(i & Hi & E)].
      * now left.
      * destruct (in_dec _ _ _); [contradiction|]. destruct H as [<-|[]].
        right. exists item. split; [now left|reflexivity].
      * right. exists i. split; [now right|assumption].
    + intros [H|(i & [<-|Hi] & E)].
      * left. now left.
      * left. destruct (in_dec _ _ _) as [Hin|Hin]; [left; now rewrite <- E|].
        right. left. assumption.
      * right. exists i. now split.
Qed.

Lemma fold_step_NoDup (array : list Trade.t) (acc : object (list Trade.t)) :
  NoDup (keys acc) -> NoDup (keys (fold_left step array acc)).
Proof.
  revert acc. induction array as [|item array IH]; intros acc H; cbn [fold_left]; auto.
  apply IH. now apply step_NoDup.
Qed.

Lemma fold_step_nonempty (array : list Trade.t) (acc : object (list Trade.t)) :
  Forall (fun kv => snd kv <> []) acc ->
  Forall (fun kv => snd kv <> []) (fold_left step array acc).
Proof.
  revert acc. induction array as [|item array IH]; intros acc H; cbn [fold_left]; auto.
  apply IH. now apply step_nonempty.
Qed.

Lemma groupByDate_fold (array : list Trade.t) :
  helpers.groupByDate array = fold_left step array [].
Proof. reflexivity. Qed.

(** The bucket of a date holds the trades of that date, in the order of
    the array. *)
Lemma groupByDate_get (array : list Trade.t) (d : string) :
  backtest.get_array (helpers.groupByDate array) d
  = filter (fun item => String.eqb (Trade.date item) d) array.
Proof. rewrite groupByDate_fold, fold_step_get. reflexivity. Qed.

Lemma groupByDate_keys (array : list Trade.t) (d : string) :
  In d (keys (helpers.groupByDate array)) <->
  exists item, In item array /\ Trade.date item = d.
Proof.
  rewrite groupByDate_fold, fold_step_keys. cbn. tauto.
Qed.

Lemma groupByDate_NoDup (array : list Trade.t) :
  NoDup (keys (helpers.groupByDate array)).
Proof. rewrite groupByDate_fold. apply fold_step_NoDup. constructor. Qed.

Lemma groupByDate_nonempty (array : list Trade.t) (d : string) :
  In d (keys (helpers.groupByDate array)) ->
  backtest.get_array (helpers.groupByDate array) d <> [].
Proof.
  intros H. pose proof (fold_step_nonempty array [] (Forall_nil _)) as Hne.
  rewrite <- groupByDate_fold in Hne.
  unfold backtest.get_array.
  destruct (get (helpers.groupByDate array) d) as [b|] eqn:E.
  - apply get_In in E. rewrite Forall_forall in Hne. apply (Hne _ E).
  - apply get_None in E. contradiction.
Qed.

End GroupFacts.

(* ================================================================== *)
(** * Signed zeros in sums *)
(* ================================================================== *)

Module ZeroFacts.
Import JS FloatOrder.

Lemma eqb_zero (x : number) :
  (x =? 0) = true -> exists s, Prim2SF x = S754_zero s.
Proof.
  rewrite FloatAxioms.eqb_spec. change (Prim2SF 0) with (S754_zero false).
  unfold SFeqb. destruct (Prim2SF x) as [s|s| |s m e]; cbn; eauto;
    try destruct s; discriminate.
Qed.

Lemma not_truthy (x : number) :
  truthy (Some x) = false -> is_nan x = false ->
  exists s, Prim2SF x = S754_zero s.
Proof.
  unfold truthy. intros H Hn. rewrite Hn in H. cbn in H.
  rewrite andb_true_r in H. apply negb_false_iff in H. now apply eqb_zero.
Qed.

(** A sum is [-0] only when both terms are. *)
Lemma add_not_neg_zero (a b : number) :
  Prim2SF a <> S754_zero true -> Prim2SF (a + b) <> S754_zero true.
Proof.
  rewrite add_spec. intros Ha.
  pose proof (Prim2SF_valid a) as Va. pose proof (Prim2SF_valid b) as Vb.
  destruct (Prim2SF a) as [sa|sa| |sa ma ea];
    destruct (Prim2SF b) as [sb|sb| |sb mb eb]; cbn;
    try destruct sa; try destruct sb; try discriminate; try congruence.
  all: cbn [SpecFloat.valid_binary] in Va, Vb;
    pose proof (bounded_inv _ _ Va) as (_ & Hea & _);
    pose proof (bounded_inv _ _ Vb) as (_ & Heb & _);
    unfold SF64add, SFadd;
    match goal with
    | |- binary_normalize _ _ ?D ?ez _ <> _ =>
        destruct D as [|d|d]; cbn [binary_normalize]; [discriminate| |]
    end.
  all: match goal with
       | |- binary_round _ _ ?s ?d ?ez <> _ =>
           assert (Hs : signed s (binary_round prec emax s d ez))
             by (apply binary_round_signed; lia);
           destruct Hs as [Hs|(m' & e' & Hs)]; rewrite Hs; discriminate
       end.
Qed.

(** Adding to a zero does not depend on the sign of the zero, unless
    the other term is [-0]. *)
Lemma add_zero_l (v t : number) (s : bool) :
  Prim2SF v = S754_zero s -> Prim2SF t <> S754_zero true -> v + t = 0 + t.
Proof.
  intros Hv Ht. apply Prim2SF_inj. rewrite !add_spec, Hv.
  change (Prim2SF 0) with (S754_zero false).
  destruct (Prim2SF t) as [st|st| |st mt et]; try reflexivity.
  destruct st; [congruence|]. now destruct s.
Qed.

End ZeroFacts.

(* ================================================================== *)
(** * Facts about the rollup *)
(* ================================================================== *)

Module RollupFacts.
Import JS ObjectFacts.

Section Dates.
Variable allTradesByDates : object (list Trade.t).

(** The update of [monthlyPnl] by one date. *)
Definition stepMonth (monthlyPnl : object number) (month : string)
  (totalPnl : number) : object number :=
  let monthlyPnl :=
    if negb (truthy (get monthlyPnl month)) then set monthlyPnl month 0
    else monthlyPnl in
  set monthlyPnl month
    (helpers.round (backtest.get_number monthlyPnl month + totalPnl)).

Definition stepDate (monthlyPnl : object number) (date : string) : object number :=
  stepMonth monthlyPnl (Spec.monthLabel date)
    (Spec.dateTotal (backtest.topTwo allTradesByDates date)).

Lemma inner_fold (date : string) (trades : object (list Trade.t))
  (selected b : list Trade.t) (totalPnl : number) :
  get trades date = None ->
  fold_left
    (fun '(totalPnl, trades) trade =>
       (totalPnl + Trade.pnlPercent trade, push trades date trade))
    selected (totalPnl, trades ++ [(date, b)])
  = (fold_left (fun sum trade => sum + Trade.pnlPercent trade) selected totalPnl,
     trades ++ [(date, (b ++ selected)%list)]).
Proof.
  intros H. revert b totalPnl.
  induction selected as [|t selected IH]; intros b totalPnl; cbn [fold_left].
  - now rewrite app_nil_r.
  - rewrite push_last by assumption. rewrite IH. now rewrite <- app_assoc.
Qed.

(** One date whose key is not yet in [trades]. *)
Lemma forEachDate_fresh (monthlyPnl : object number)
  (trades : object (list Trade.t)) (date : string) :
  get trades date = None ->
  backtest.forEachDate allTradesByDates (monthlyPnl, trades) date
  = (stepDate monthlyPnl date,
     trades ++ [(date, backtest.topTwo allTradesByDates date)]).
Proof.
  intros H. unfold backtest.forEachDate. rewrite H.
  rewrite (set_new _ _ _ H).
  rewrite (inner_fold date trades _ [] 0 H). reflexivity.
Qed.

Lemma get_app_other {V : Type} (o : object V) (k k' : string) (v : V) :
  k' <> k -> get o k' = None -> get (o ++ [(k, v)]) k' = None.
Proof.
  intros Hk H. apply get_None. rewrite keys_app, in_app_iff.
  apply get_None in H. intros [Hi|[E|[]]]; [contradiction|].
  cbn in E. congruence.
Qed.

Lemma fold_forEachDate (dates : list string) (monthlyPnl : object number)
  (trades : object (list Trade.t)) :
  NoDup dates -> (forall d, In d dates -> get trades d = None) ->
  fold_left (backtest.forEachDate allTradesByDates) dates (monthlyPnl, trades)
  = (fold_left stepDate dates monthlyPnl,
     trades ++ map (fun d => (d, backtest.topTwo allTradesByDates d)) dates).
Proof.
  revert monthlyPnl trades.
  induction dates as [|d dates IH]; intros monthlyPnl trades Hnd Hfresh;
    cbn [fold_left map].
  - now rewrite app_nil_r.
  - inversion Hnd as [|? ? Hd Hnd']; subst.
    rewrite forEachDate_fresh by (apply Hfresh; now left).
    rewrite IH; auto.
    + now rewrite <- app_assoc.
    + intros d' Hd'. apply get_app_other.
      * intros ->. contradiction.
      * apply Hfresh. now right.
Qed.

(** The value the source adds the total of a date to. *)
Definition restart (prev : option number) : number :=
  match prev with
  | Some x => if truthy prev then x else 0
  | None => 0
  end.

Lemma stepMonth_same (monthlyPnl : object number) (month : string) (t : number) :
  get (stepMonth monthlyPnl month t) month
  = Some (helpers.round (restart (get monthlyPnl month) + t)).
Proof.
  unfold stepMonth. rewrite get_set_same. do 2 f_equal. f_equal.
  unfold restart, backtest.get_number.
  destruct (get monthlyPnl month) as [x|] eqn:E.
  - destruct (truthy (Some x)); cbn [negb].
    + now rewrite E.
    + now rewrite get_set_same.
  - cbn [truthy negb]. now rewrite get_set_same.
Qed.

Lemma stepMonth_other (monthlyPnl : object number) (month m : string) (t : number) :
  m <> month -> get (stepMonth monthlyPnl month t) m = get monthlyPnl m.
Proof.
  intros H. unfold stepMonth. rewrite get_set_other by assumption.
  destruct (negb _); [now rewrite get_set_other|reflexivity].
Qed.

(** A month's entry only depends on the dates of that month. *)
Lemma fold_stepDate_get (dates : list string) (monthlyPnl : object number)
  (month : string) :
  get (fold_left stepDate dates monthlyPnl) month
  = fold_left
      (fun prev date =>
         Some (helpers.round
                 (restart prev
                  + Spec.dateTotal (backtest.topTwo allTradesByDates date))))
      (filter (fun date => String.eqb (Spec.monthLabel date) month) dates)
      (get monthlyPnl month).
Proof.
  revert monthlyPnl. induction dates as [|d dates IH]; intros monthlyPnl;
    cbn [fold_left filter]; [reflexivity|].
  rewrite IH. unfold stepDate.
  destruct (String.eqb_spec (Spec.monthLabel d) month) as [<-|Hm].
  - cbn [fold_left]. now rewrite stepMonth_same.
  - rewrite stepMonth_other by congruence. reflexivity.
Qed.

Lemma fold_stepDate_keys (dates : list string) (monthlyPnl : object number)
  (month : string) :
  In month (keys (fold_left stepDate dates monthlyPnl)) <->
  In month (keys monthlyPnl) \/ In month (map Spec.monthLabel dates).
Proof.
  revert monthlyPnl. induction dates as [|d dates IH]; intros monthlyPnl;
    cbn [fold_left map In]; [tauto|].
  rewrite IH. clear IH.
  assert (H : In month (keys (stepDate monthlyPnl d)) <->
              In month (keys monthlyPnl) \/ Spec.monthLabel d = month).
  { destruct (string_dec (Spec.monthLabel d) month) as [<-|Hm].
    - split; [now right|intros _].
      destruct (in_dec string_dec (Spec.monthLabel d) (keys (stepDate monthlyPnl d)))
        as [Hi|Hi]; [assumption|].
      apply get_None in Hi. unfold stepDate in Hi.
      rewrite stepMonth_same in Hi. discriminate.
    - split.
      + intros Hi. left.
        destruct (in_dec string_dec month (keys monthlyPnl)) as [Hk|Hk]; [assumption|].
        apply get_None in Hk. exfalso. revert Hi. apply get_None.
        unfold stepDate. rewrite stepMonth_other by congruence. assumption.
      + intros [Hi|E]; [|contradiction].
        destruct (in_dec string_dec month (keys (stepDate monthlyPnl d)))
          as [Hk|Hk]; [assumption|].
        apply get_None in Hk. unfold stepDate in Hk.
        rewrite stepMonth_other in Hk by congruence.
        apply get_None in Hk. contradiction. }
  tauto.
Qed.

Lemma stepMonth_NoDup (monthlyPnl : object number) (month : string) (t : number) :
  NoDup (keys monthlyPnl) -> NoDup (keys (stepMonth monthlyPnl month t)).
Proof.
  intros H. unfold stepMonth.
  destruct (get monthlyPnl month) as [x|] eqn:E.
  - assert (Hk : keys (if negb (truthy (Some x)) then set monthlyPnl month 0
                       else monthlyPnl) = keys monthlyPnl).
    { destruct (negb _); [|reflexivity]. apply keys_set_old. congruence. }
    rewrite keys_set_old.
    + now rewrite Hk.
    + destruct (negb _); [rewrite get_set_same|]; congruence.
  - cbn [truthy negb]. rewrite (set_new _ _ _ E).
    rewrite (set_last _ _ _ _ E). rewrite keys_app.
    apply NoDup_app; auto.
    + repeat constructor. intros [].
    + apply get_None in E. intros x Hx [<-|[]]. contradiction.
Qed.

Lemma fold_stepDate_NoDup (dates : list string) (monthlyPnl : object number) :
  NoDup (keys monthlyPnl) -> NoDup (keys (fold_left stepDate dates monthlyPnl)).
Proof.
  revert monthlyPnl. induction dates as [|d dates IH]; intros monthlyPnl H;
    cbn [fold_left]; auto.
  apply IH. now apply stepMonth_NoDup.
Qed.

End Dates.
End RollupFacts.

(* ================================================================== *)
(** * Facts about dates *)
(* ================================================================== *)

Module MomentFacts.
Local Open Scope Z_scope.

Lemma daysInMonth_le (y m : Z) : Moment.daysInMonth y m <= 31.
Proof.
  unfold Moment.daysInMonth. destruct m as [|p|p]; try lia.
  do 4 (try destruct p as [p|p|]); try lia; destruct (Moment.leap y); lia.
Qed.

Lemma isValid_bounds (d : Moment.t) :
  Moment.isValid d = true ->
  0 <= Moment.year d <= 9999 /\ 1 <= Moment.month d <= 12
  /\ 1 <= Moment.day d <= 31.
Proof.
  unfold Moment.isValid. rewrite !andb_true_iff, !Z.leb_le.
  pose proof (daysInMonth_le (Moment.year d) (Moment.month d)). lia.
Qed.

(** On calendar days the chronological order is the order of the ranks. *)
Lemma compare_rank (a b : Moment.t) :
  Moment.isValid a = true -> Moment.isValid b = true ->
  Moment.compare a b = (Moment.rank a ?= Moment.rank b).
Proof.
  intros Ha Hb. apply isValid_bounds in Ha, Hb. unfold Moment.compare, Moment.rank.
  symmetry.
  destruct (Z.compare_spec (Moment.year a) (Moment.year b)) as [Ey|Ey|Ey].
  - destruct (Z.compare_spec (Moment.month a) (Moment.month b)) as [Em|Em|Em].
    + destruct (Z.compare_spec (Moment.day a) (Moment.day b)) as [Ed|Ed|Ed].
      * apply Z.compare_eq_iff. lia.
      * apply Z.compare_lt_iff. lia.
      * apply Z.compare_gt_iff. lia.
    + apply Z.compare_lt_iff. lia.
    + apply Z.compare_gt_iff. lia.
  - apply Z.compare_lt_iff. lia.
  - apply Z.compare_gt_iff. lia.
Qed.

Lemma parse_isValid (s : string) (d : Moment.t) :
  Moment.parse_DD_MM_YYYY s = Some d -> Moment.isValid d = true.
Proof.
  unfold Moment.parse_DD_MM_YYYY.
  repeat match goal with
         | |- context [match ?x with _ => _ end] =>
             destruct x eqn:?; try discriminate
         end.
  intros [= <-].
  match goal with
  | H : (_ && _ && Moment.isValid _)%bool = true |- _ =>
      apply andb_true_iff in H; apply H
  end.
Qed.

Lemma digit_value_digit (n : Z) :
  Moment.digit_value (Moment.digit n) = Some (n mod 10).
Proof.
  unfold Moment.digit_value, Moment.digit.
  assert (H : 0 <= n mod 10 < 10) by (apply Z.mod_pos_bound; lia).
  rewrite N_ascii_embedding by lia.
  rewrite Z2N.id by lia.
  replace (48 <=? 48 + n mod 10) with true by (symmetry; apply Z.leb_le; lia).
  replace (48 + n mod 10 <=? 57) with true by (symmetry; apply Z.leb_le; lia).
  cbn [andb]. f_equal. lia.
Qed.

(** Parsing a formatted calendar day gives the day back. *)
Lemma parse_format (d : Moment.t) :
  Moment.isValid d = true ->
  Moment.parse_DD_MM_YYYY (Moment.format_DD_MM_YYYY d) = Some d.
Proof.
  intros Hv. pose proof (isValid_bounds d Hv) as (Hy & Hm & Hd).
  unfold Moment.format_DD_MM_YYYY, Moment.parse_DD_MM_YYYY.
  rewrite !digit_value_digit.
  replace (10 * ((Moment.day d / 10) mod 10) + Moment.day d mod 10)
    with (Moment.day d) by (Z.div_mod_to_equations; lia).
  replace (10 * ((Moment.month d / 10) mod 10) + Moment.month d mod 10)
    with (Moment.month d) by (Z.div_mod_to_equations; lia).
  replace (1000 * ((Moment.year d / 1000) mod 10)
           + 100 * ((Moment.year d / 100) mod 10)
           + 10 * ((Moment.year d / 10) mod 10) + Moment.year d mod 10)
    with (Moment.year d) by (Z.div_mod_to_equations; lia).
  cbn [Ascii.eqb Bool.eqb andb].
  destruct d as [y m dd]. cbn [Moment.year Moment.month Moment.day] in *.
  now rewrite Hv.
Qed.

End MomentFacts.

(* ================================================================== *)
(** * Facts about the computation of the results *)
(* ================================================================== *)

Module ComputationFacts.
Import JS ObjectFacts RollupFacts.

(** When no running total is [NaN], restarting a falsy total from zero
    is the plain stepwise accumulation. *)
Lemma restart_stepwise (totals : list number) (prev : number) :
  Forall (fun t => Prim2SF t <> S754_zero true) totals ->
  is_nan prev = false ->
  Forall (fun v => is_nan v = false) (Spec.running prev totals) ->
  fold_left (fun p t => Some (helpers.round (restart p + t))) totals (Some prev)
  = Some (fold_left (fun p n => Spec.round2 (p + n)) totals prev).
Proof.
  revert prev. induction totals as [|t totals IH]; intros prev Hz Hp Hr;
    cbn [fold_left]; [reflexivity|].
  inversion Hz as [|? ? Ht Hz']; subst.
  cbn [Spec.running] in Hr. inversion Hr as [|? ? Hn Hr']; subst.
  assert (E : restart (Some prev) + t = prev + t).
  { unfold restart. destruct (truthy (Some prev)) eqn:Et; [reflexivity|].
    destruct (ZeroFacts.not_truthy prev Et Hp) as [s Hs].
    symmetry. now apply (ZeroFacts.add_zero_l prev t s). }
  rewrite E. now apply IH.
Qed.

Lemma fold_restart_map {A : Type} (f : A -> number) (l : list A)
  (prev : option number) :
  fold_left (fun prev x => Some (helpers.round (restart prev + f x))) l prev
  = fold_left (fun prev next => Some (Spec.round2 (restart prev + next)))
      (map f l) prev.
Proof.
  revert prev. induction l as [|x l IH]; intros prev; cbn [map fold_left];
    [reflexivity|]. apply IH.
Qed.

Lemma restart_stepwise_None (totals : list number) :
  totals <> [] ->
  Forall (fun t => Prim2SF t <> S754_zero true) totals ->
  Forall (fun v => is_nan v = false) (Spec.running 0 totals) ->
  fold_left (fun p t => Some (helpers.round (restart p + t))) totals None
  = Some (Spec.stepwise totals).
Proof.
  destruct totals as [|t totals]; [congruence|]. intros _ Hz Hr.
  cbn [fold_left]. unfold Spec.stepwise. cbn [fold_left].
  inversion Hz; subst. cbn [Spec.running] in Hr. inversion Hr; subst.
  cbn [restart]. now apply restart_stepwise.
Qed.

Lemma dateTotal_not_neg_zero (selected : list Trade.t) :
  Prim2SF (Spec.dateTotal selected) <> S754_zero true.
Proof.
  unfold Spec.dateTotal.
  assert (H : forall l a, Prim2SF a <> S754_zero true ->
              Prim2SF (fold_left (fun sum trade => sum + Trade.pnlPercent trade) l a)
              <> S754_zero true).
  { induction l as [|t l IH]; intros a Ha; cbn [fold_left]; auto.
    apply IH. now apply ZeroFacts.add_not_neg_zero. }
  apply H. change (Prim2SF 0) with (S754_zero false). discriminate.
Qed.

(** [byDates] in closed form. *)
Lemma byDates_eq (allTradesByDates : object (list Trade.t)) :
  NoDup (keys allTradesByDates) ->
  let dates := sort backtest.byDate (keys allTradesByDates) in
  backtest.byDates allTradesByDates
  = (fold_left (stepDate allTradesByDates) dates [],
     map (fun d => (d, backtest.topTwo allTradesByDates d)) dates).
Proof.
  intros Hnd dates. unfold backtest.byDates.
  rewrite fold_forEachDate.
  - reflexivity.
  - apply (Permutation_NoDup (l := keys allTradesByDates)); [|assumption].
    symmetry. apply SortFacts.sort_Permutation.
  - reflexivity.
Qed.

Lemma keys_map_pair {V : Type} (f : string -> V) (l : list string) :
  keys (map (fun d => (d, f d)) l) = l.
Proof.
  unfold keys. rewrite map_map. cbn [fst]. apply map_id.
Qed.

Lemma get_array_map (f : string -> list Trade.t) (l : list string) (d : string) :
  In d l -> backtest.get_array (map (fun d => (d, f d)) l) d = f d.
Proof.
  intros H. unfold backtest.get_array.
  induction l as [|x l IH]; [contradiction|]. cbn [map get].
  destruct (String.eqb_spec d x) as [->|Hne]; [reflexivity|].
  destruct H as [->|H]; [congruence|]. now apply IH.
Qed.

(** The CSV lines: the header, then one row per key of [trades]. *)
Lemma csvLines_eq (f : string -> list Trade.t) (dates : list string) :
  backtest.csvLines (map (fun d => (d, f d)) dates)
  = CsvText "Date,PnL%"
    :: map (fun d => CsvRow d (Spec.exportValue (f d))) dates.
Proof.
  unfold backtest.csvLines. rewrite keys_map_pair.
  set (trades := map (fun d => (d, f d)) dates).
  assert (H : forall l acc, incl l dates ->
              fold_left
                (fun csvLines date =>
                   csvLines ++
                   [CsvRow date
                      (fold_left
                         (fun acc trade => helpers.round (acc + Trade.pnlPercent trade))
                         (backtest.get_array trades date) 0)])%list l acc
              = (acc ++ map (fun d => CsvRow d (Spec.exportValue (f d))) l)%list).
  { induction l as [|d l IH]; intros acc Hin; cbn [fold_left map].
    - now rewrite app_nil_r.
    - rewrite IH by (intros x Hx; apply Hin; now right).
      rewrite <- app_assoc. cbn [app]. unfold trades.
      rewrite get_array_map by (apply Hin; now left). reflexivity. }
  rewrite H by apply incl_refl. reflexivity.
Qed.

(** [yearlyPnl] folds the monthly totals in the order of the keys. *)
Lemma yearlyPnl_eq (monthlyPnl : object number) :
  NoDup (keys monthlyPnl) ->
  backtest.yearlyPnl monthlyPnl = Spec.stepwise (map snd monthlyPnl).
Proof.
  intros Hnd. unfold backtest.yearlyPnl, Spec.stepwise.
  assert (H : forall l acc, incl l monthlyPnl ->
              fold_left (fun acc month =>
                           helpers.round (acc + backtest.get_number monthlyPnl month))
                (keys l) acc
              = fold_left (fun prev next => Spec.round2 (prev + next)) (map snd l) acc).
  { induction l as [|[k v] l IH]; intros acc Hin; cbn [keys map fold_left fst snd];
      [reflexivity|].
    unfold keys in IH. rewrite IH by (intros x Hx; apply Hin; now right).
    unfold backtest.get_number.
    rewrite (In_get monthlyPnl k v Hnd) by (apply Hin; now left).
    reflexivity. }
  apply H, incl_refl.
Qed.

(** On keys that are calendar days, [byDate] is the order of the ranks. *)
Lemma byDate_consistent (dates : list string) :
  (forall d, In d dates -> Moment.parse_DD_MM_YYYY d <> None) ->
  SortFacts.consistent backtest.byDate Spec.calendarRank dates.
Proof.
  intros H a b Ha Hb. unfold backtest.byDate, Spec.calendarRank.
  pose proof (H a Ha) as Pa. pose proof (H b Hb) as Pb.
  destruct (Moment.parse_DD_MM_YYYY a) as [ma|] eqn:Ea; [|congruence].
  destruct (Moment.parse_DD_MM_YYYY b) as [mb|] eqn:Eb; [|congruence].
  cbn [Moment.diff_sign].
  apply MomentFacts.compare_rank; eapply MomentFacts.parse_isValid; eauto.
Qed.

(** The rank by which [byChange] sorts: the opposite of the order key of
    [change]. *)
Definition changeRank (t : Trade.t) : Z := (- NumberOrder.key (Trade.change t))%Z.

Lemma byChange_consistent (candidates : list Trade.t) :
  Forall (fun t => is_nan (Trade.change t) = false) candidates ->
  SortFacts.consistent backtest.byChange changeRank candidates.
Proof.
  intros H a b Ha Hb. rewrite Forall_forall in H.
  unfold backtest.byChange, changeRank.
  rewrite NumberOrder.SortCompare_sub by auto.
  now rewrite Z.compare_opp.
Qed.

End ComputationFacts.

(* ================================================================== *)
(** * Sample data *)
(* ================================================================== *)

Module Examples.
Import JS.
Local Open Scope string_scope.

Definition bar (y m d : Z) (o c : number) : Bar.t :=
  {| Bar.date := {| Moment.year := y; Moment.month := m; Moment.day := d |};
     Bar.open := o; Bar.close := c |}.

(** A rally over four closes, left at the next open. *)
Definition rally : Instrument.t :=
  {| Instrument.ohlc :=
       [bar 2018 1 9 110 108; bar 2018 1 8 106 107; bar 2018 1 5 102 103;
        bar 2018 1 4 100 101; bar 2018 1 3 99 100] |}.

Definition short : Instrument.t :=
  {| Instrument.ohlc :=
       [bar 2018 1 8 106 107; bar 2018 1 5 102 103;
        bar 2018 1 4 100 101; bar 2018 1 3 99 100] |}.

Definition disk : FileSystem :=
  {| fs_read := fun path =>
       if String.eqb path "2018/AAA.json" then Json rally
       else if String.eqb path "2018/CCC.json" then Json short
       else ReadError (FsError path);
     fs_write := fun _ => None |}.

Definition offline (year : string) : Outcome FileSystem :=
  Rejected (OtherError "offline").

Definition env (universe : list string) : Env :=
  {| nfoStocks := universe; fs := disk;
     downloadAllNfoStockHistoricalDataPerYear := offline |}.

(** Candidates of three instruments on one date, and one on the next. *)
Definition candidate (date symbol : string) (pnlPercent change : number)
  : Trade.t :=
  {| Trade.date := date; Trade.entry := 100; Trade.exit := 100;
     Trade.symbol := symbol; Trade.pnlPercent := pnlPercent;
     Trade.change := change |}.

Definition candidates : list Trade.t :=
  [candidate "08-01-2018" "AAA" 1.5 3.88;
   candidate "08-01-2018" "BBB" (-0.5) 5.1;
   candidate "08-01-2018" "CCC" 2.2 3.88;
   candidate "09-01-2018" "AAA" 0.75 2].

(** A penny stock whose rally is entered at a price that rounds to 0 and
    left at an open of 0. *)
Definition penny : Instrument.t :=
  {| Instrument.ohlc :=
       [bar 2018 1 5 0 0.005; bar 2018 1 4 0.005 0.0049;
        bar 2018 1 3 0.002 0.002; bar 2018 1 2 0.001 0.001;
        bar 2018 1 1 0.0006 0.0006] |}.

Definition penny_disk : FileSystem :=
  {| fs_read := fun path =>
       if String.eqb path "2018/AAA.json" then Json rally
       else if String.eqb path "2018/PNY.json" then Json penny
       else ReadError (FsError path);
     fs_write := fun _ => None |}.

Definition penny_env : Env :=
  {| nfoStocks := ["AAA"; "PNY"]; fs := penny_disk;
     downloadAllNfoStockHistoricalDataPerYear := offline |}.

End Examples.

(* ================================================================== *)
(** * Facts about the scan of the universe *)
(* ================================================================== *)

Module ScanFacts.
Import JS.

Lemma Promise_all_Resolved {A : Type} (ps : list (Outcome A)) (l : list A) :
  Promise_all ps = Resolved l -> Forall2 (fun p a => p = Resolved a) ps l.
Proof.
  revert l. induction ps as [|p ps IH]; intros l H; cbn [Promise_all] in H.
  - injection H as <-. constructor.
  - destruct p as [a|e|e]; cbn [bind] in H; try discriminate.
    destruct (Promise_all ps) as [l'|e|e]; cbn [bind] in H; try discriminate.
    injection H as <-. constructor; auto.
Qed.

(** A scan is fulfilled only when every symbol of the universe is. *)
Lemma Promise_all_In {A B : Type} (f : A -> Outcome B) (xs : list A)
  (l : list B) (x : A) :
  Promise_all (map f xs) = Resolved l -> In x xs -> exists b, f x = Resolved b.
Proof.
  intros H Hx. apply Promise_all_Resolved in H.
  revert l H. induction xs as [|y xs IH]; intros l H; [contradiction|].
  cbn [map] in H. inversion H as [|? b ? l' Hy Hrest]; subst.
  destruct Hx as [->|Hx]; [now exists b|]. now apply (IH Hx l').
Qed.

Lemma runTest_Resolved (data : FileSystem) (year symbol : string)
  (allTrades : list Trade.t) :
  backtest.runTest data year symbol = Resolved allTrades ->
  exists instrument,
    helpers.readFile data (year ++ "/" ++ symbol)%string = Resolved instrument
    /\ allTrades = Spec.detector symbol (Instrument.ohlc instrument).
Proof.
  intros H.
  destruct (helpers.readFile data (year ++ "/" ++ symbol)%string)
    as [instrument|e|e] eqn:E.
  - exists instrument. split; [reflexivity|].
    rewrite (DetectorFacts.runTest_detector _ _ _ _ E) in H. congruence.
  - unfold backtest.runTest in H. rewrite E in H. discriminate.
  - unfold backtest.runTest in H. rewrite E in H. discriminate.
Qed.

Lemma entryCondition_change_positive (d1 d2 d3 d4 : Bar.t) :
  Spec.entryCondition d1 d2 d3 d4 = true ->
  gt (Spec.pctChange (Bar.close d2) (Bar.close d1)) 0 = true.
Proof.
  unfold Spec.entryCondition. rewrite !andb_true_iff.
  intros (_ & H1 & H2).
  apply NumberFacts.gt_percentChange_self in H2.
  apply NumberFacts.gt_zero_positive.
  apply (NumberFacts.gt_positive _ _ H1).
  now apply NumberFacts.gt_zero_positive.
Qed.

Lemma finite_nonzero (x : number) :
  is_finite x = true -> (x =? 0) = false ->
  exists s m e, Prim2SF x = S754_finite s m e.
Proof.
  unfold is_finite, is_nan, is_infinity.
  rewrite !FloatAxioms.eqb_spec, abs_spec.
  change (Prim2SF infinity) with (S754_infinity false).
  change (Prim2SF 0) with (S754_zero false).
  destruct (Prim2SF x) as [s|s| |s m e]; try destruct s; cbn; intros;
    try discriminate; eauto.
Qed.

Lemma percentChange_self_zero (x : number) :
  is_finite x = true -> (x =? 0) = false ->
  (helpers.percentChange x x =? 0) = true.
Proof.
  intros Hf Hz. destruct (finite_nonzero x Hf Hz) as (s & m & e & E).
  pose proof (NumberFacts.percentChange_self x) as H. rewrite E in H.
  destruct H as [s' H]. rewrite FloatAxioms.eqb_spec, H. reflexivity.
Qed.

Lemma gt_zero_not_nan (x : number) : gt x 0 = true -> is_nan x = false.
Proof.
  intros H. apply NumberFacts.gt_zero_positive in H.
  apply NumberOrder.is_nan_false.
  destruct H as [H|(m & e & H)]; rewrite H; discriminate.
Qed.

Lemma Promise_all_map_In {A B : Type} (f : A -> Outcome B) (xs : list A)
  (l : list B) (b : B) :
  Promise_all (map f xs) = Resolved l -> In b l ->
  exists x, In x xs /\ f x = Resolved b.
Proof.
  revert l. induction xs as [|x xs IH]; intros l H Hb; cbn [map Promise_all] in H.
  - injection H as <-. contradiction.
  - destruct (f x) as [a|e|e] eqn:Ex; cbn [bind] in H; try discriminate.
    destruct (Promise_all (map f xs)) as [l'|e|e]; cbn [bind] in H;
      try discriminate.
    injection H as <-. destruct Hb as [<-|Hb].
    + exists x. split; [now left|assumption].
    + destruct (IH l' eq_refl Hb) as (y & Hy & Ey).
      exists y. split; [now right|assumption].
Qed.

(** The candidates of a fulfilled scan have ranking keys above zero, hence
    ranking keys that are not [NaN]. *)
Lemma scan_change_positive (data : FileSystem) (year : string)
  (universe : list string) (tradesPerStock : list (list Trade.t)) :
  Promise_all (map (fun symbol => backtest.runTest data year symbol) universe)
  = Resolved tradesPerStock ->
  Forall (fun t => gt (Trade.change t) 0 = true /\ is_nan (Trade.change t) = false)
    (List.concat tradesPerStock).
Proof.
  intros H. apply Forall_forall. intros t Ht.
  apply in_concat in Ht. destruct Ht as (ts & Hts & Ht).
  destruct (Promise_all_map_In _ _ _ _ H Hts) as (symbol & _ & Hrun).
  destruct (runTest_Resolved _ _ _ _ Hrun) as (instrument & _ & ->).
  apply DetectorFacts.detector_In in Ht.
  destruct Ht as (d0 & d1 & d2 & d3 & d4 & _ & Hc & ->).
  assert (Hp : gt (Trade.change (Spec.candidate symbol d0 d1 d2)) 0 = true)
    by now apply (entryCondition_change_positive d1 d2 d3 d4).
  split; [assumption|now apply gt_zero_not_nan].
Qed.

(** The candidates of a series of calendar days carry date keys that are
    calendar days. *)
Lemma detector_dates (symbol : string) (ohlc : list Bar.t) (t : Trade.t) :
  Forall (fun b => Moment.isValid (Bar.date b) = true) ohlc ->
  In t (Spec.detector symbol ohlc) ->
  Moment.parse_DD_MM_YYYY (Trade.date t) <> None.
Proof.
  intros Hv Ht. apply DetectorFacts.detector_In in Ht.
  destruct Ht as (d0 & d1 & d2 & d3 & d4 & Hw & _ & ->).
  apply In_nth_error in Hw. destruct Hw as [i Hi].
  apply DetectorFacts.windows_nth in Hi. destruct Hi as (_ & H1 & _).
  apply nth_error_In in H1. rewrite Forall_forall in Hv.
  cbn [Spec.candidate Trade.date].
  rewrite MomentFacts.parse_format by now apply Hv. discriminate.
Qed.

(** A fulfilled run returns the results computed from the candidates of
    the whole universe, after writing them and the CSV lines. *)
Lemma runBacktest_Resolved (env : Env) (year : string) (results : Results.t) :
  backtest.outcome (backtest.runBacktest env (Some year) false)
  = Resolved results ->
  exists tradesPerStock,
    Promise_all
      (map (fun symbol => backtest.runTest (fs env) year symbol) (nfoStocks env))
    = Resolved tradesPerStock
    /\ results = fst (backtest.computation (List.concat tradesPerStock))
    /\ map snd (backtest.written (backtest.runBacktest env (Some year) false))
       = [JsonData results;
          TextData (snd (backtest.computation (List.concat tradesPerStock)))].
Proof.
  unfold backtest.runBacktest.
  destruct (Promise_all _) as [tradesPerStock|e|e]; cbn [backtest.outcome];
    try discriminate.
  destruct (backtest.computation (List.concat tradesPerStock)) as [r csv] eqn:E.
  unfold helpers.writeFile.
  destruct (fs_write _ _); cbn [backtest.outcome]; try discriminate.
  destruct (fs_write _ _); cbn [backtest.outcome]; try discriminate.
  intros [= <-]. exists tradesPerStock. rewrite E.
  split; [reflexivity|]. split; reflexivity.
Qed.

End ScanFacts.

(* ================================================================== *)
(** * Facts about the results *)
(* ================================================================== *)

Module ResultsFacts.
Import JS ObjectFacts RollupFacts ComputationFacts.

(** The results of [computation] in closed form. *)
Lemma computation_eq (allTrades : list Trade.t) :
  let bucket := helpers.groupByDate allTrades in
  let dates := sort backtest.byDate (keys bucket) in
  let monthly := fold_left (stepDate bucket) dates [] in
  backtest.computation allTrades
  = ({| Results.yearlyPnl := Spec.stepwise (map snd monthly);
        Results.monthlyPnl := monthly;
        Results.trades := map (fun d => (d, backtest.topTwo bucket d)) dates |},
     CsvText "Date,PnL%"
     :: map (fun d => CsvRow d (Spec.exportValue (backtest.topTwo bucket d))) dates).
Proof.
  intros bucket dates monthly. unfold backtest.computation.
  rewrite (byDates_eq _ (GroupFacts.groupByDate_NoDup allTrades)).
  fold bucket. fold dates. fold monthly.
  rewrite csvLines_eq, yearlyPnl_eq; [reflexivity|].
  unfold monthly. apply fold_stepDate_NoDup. constructor.
Qed.

Lemma dates_Permutation (allTrades : list Trade.t) :
  Permutation
    (sort backtest.byDate (keys (helpers.groupByDate allTrades)))
    (keys (helpers.groupByDate allTrades)).
Proof. apply SortFacts.sort_Permutation. Qed.

Lemma dates_NoDup (allTrades : list Trade.t) :
  NoDup (sort backtest.byDate (keys (helpers.groupByDate allTrades))).
Proof.
  apply (Permutation_NoDup (l := keys (helpers.groupByDate allTrades))).
  - symmetry. apply dates_Permutation.
  - apply GroupFacts.groupByDate_NoDup.
Qed.

Lemma trades_keys (allTrades : list Trade.t) :
  keys (Results.trades (fst (backtest.computation allTrades)))
  = sort backtest.byDate (keys (helpers.groupByDate allTrades)).
Proof. rewrite computation_eq. cbn [fst Results.trades]. apply keys_map_pair. Qed.

(** The selected trades of a date. *)
Lemma trades_get (allTrades : list Trade.t) (date : string) :
  In date (keys (helpers.groupByDate allTrades)) ->
  backtest.get_array (Results.trades (fst (backtest.computation allTrades))) date
  = firstn 2 (sort backtest.byChange
                (filter (fun item => String.eqb (Trade.date item) date) allTrades)).
Proof.
  intros H. rewrite computation_eq. cbn [fst Results.trades].
  rewrite get_array_map.
  - unfold backtest.topTwo, slice0. now rewrite GroupFacts.groupByDate_get.
  - apply (Permutation_in _ (Permutation_sym (dates_Permutation allTrades)) H).
Qed.

Lemma StronglySorted_impl {A : Type} (R R' : A -> A -> Prop) (P : A -> Prop)
  (l : list A) :
  (forall a b, P a -> P b -> R a b -> R' a b) ->
  Forall P l -> StronglySorted R l -> StronglySorted R' l.
Proof.
  intros HR HP Hs. revert HP.
  induction Hs as [|a l Hs IH Ha]; intros HP; constructor.
  - apply IH. now inversion HP.
  - inversion HP as [|? ? Pa Pl]; subst.
    rewrite Forall_forall in Ha, Pl |- *. intros b Hb.
    apply HR; auto.
Qed.

Lemma eqb_key (a b : number) :
  is_nan a = false -> is_nan b = false ->
  (a =? b) = (NumberOrder.key a =? NumberOrder.key b)%Z.
Proof.
  intros Ha Hb. apply NumberOrder.is_nan_false in Ha, Hb.
  rewrite FloatAxioms.eqb_spec. unfold SFeqb, NumberOrder.key.
  rewrite FloatOrder.SFcompare_ord by (auto using Prim2SF_valid).
  rewrite Z.eqb_compare. now destruct (_ ?= _)%Z.
Qed.

Lemma eqb_nan_r (a k : number) : is_nan k = true -> (a =? k) = false.
Proof.
  unfold is_nan. rewrite !FloatAxioms.eqb_spec. unfold SFeqb.
  destruct (Prim2SF k) as [s|s| |s m e] eqn:E.
  4: { intros H. exfalso. revert H.
       rewrite FloatOrder.SFcompare_ord;
         try (rewrite <- E; apply Prim2SF_valid); try discriminate.
       now rewrite Z.compare_refl. }
  1-2: destruct s; discriminate.
  intros _. now destruct (Prim2SF a).
Qed.

Lemma filter_none {A : Type} (l : list A) : filter (fun _ => false) l = [].
Proof. induction l; auto. Qed.

Lemma Zeqb_opp (a b : Z) : (- a =? - b)%Z = (a =? b)%Z.
Proof. destruct (Z.eqb_spec a b), (Z.eqb_spec (- a) (- b)); auto; lia. Qed.

Lemma sort_nonempty {A : Type} (cmp : A -> A -> comparison) (l : list A) :
  l <> [] -> firstn 2 (sort cmp l) <> [].
Proof.
  intros H E. apply (f_equal (@List.length A)) in E.
  rewrite length_firstn, SortFacts.sort_length in E.
  destruct l; [congruence|]. cbn in E. lia.
Qed.

End ResultsFacts.

(* ================================================================== *)
(** * The properties of the specification *)
(* ================================================================== *)

Import JS.

(** Claim C1, as the code has it.  [runBacktest] awaits [Promise.all] over
    the scans and has no handler: when the price series of one symbol of
    the universe cannot be read, be it a missing file or a malformed one,
    the run is not fulfilled, no rollup is returned and no result file is
    written. *)
Theorem unreadable_instrument_fails_run (env : Env) (year symbol : string) :
  In symbol (nfoStocks env) ->
  (forall instrument,
      helpers.readFile (fs env) (year ++ "/" ++ symbol)%string
      <> Resolved instrument) ->
  (forall results,
      backtest.outcome (backtest.runBacktest env (Some year) false)
      <> Resolved results)
  /\ backtest.written (backtest.runBacktest env (Some year) false) = [].
Proof.
  intros Hin Hread. unfold backtest.runBacktest.
  destruct (Promise_all
              (map (fun symbol0 => backtest.runTest (fs env) year symbol0)
                 (nfoStocks env))) as [tradesPerStock|e|e] eqn:E.
  - exfalso.
    destruct (ScanFacts.Promise_all_In _ _ _ symbol E Hin) as [ts Hts].
    destruct (ScanFacts.runTest_Resolved _ _ _ _ Hts) as (instrument & Hi & _).
    now apply (Hread instrument).
  - split; [discriminate|reflexivity].
  - split; [discriminate|reflexivity].
Qed.

Lemma unreadable_instrument_fails_run_witness :
  (forall results,
      backtest.outcome
        (backtest.runBacktest (Examples.env ["AAA"; "BBB"]%string)
           (Some "2018"%string) false)
      <> Resolved results)
  /\ backtest.written
       (backtest.runBacktest (Examples.env ["AAA"; "BBB"]%string)
          (Some "2018"%string) false) = [].
Proof.
  apply (unreadable_instrument_fails_run (Examples.env ["AAA"; "BBB"]%string)
           "2018" "BBB").
  - right. left. reflexivity.
  - intros instrument. vm_compute. discriminate.
Defined.

(** Claim C1 fails as stated.  With the universe [AAA; BBB], where the
    file of [BBB] is missing and the scan of [AAA] yields a candidate, the
    run is rejected with the error of [BBB]: no rollup is returned. *)
Lemma missing_file_aborts_run :
  let run := backtest.runBacktest (Examples.env ["AAA"; "BBB"]%string) None false in
  helpers.readFile Examples.disk "2018/BBB" = Rejected (FsError "2018/BBB.json")
  /\ (exists t, backtest.runTest Examples.disk "2018" "AAA" = Resolved [t])
  /\ backtest.outcome run = Rejected (FsError "2018/BBB.json")
  /\ ~ (exists results, backtest.outcome run = Resolved results).
Proof.
  split; [reflexivity|]. split; [eexists; vm_compute; reflexivity|].
  split; [vm_compute; reflexivity|].
  intros [results H]. vm_compute in H. discriminate.
Qed.

(** Claim C2, as the code has it.  On an empty universe the scan is
    fulfilled with no candidate, and, the two result files being writable,
    the run is fulfilled with the rollup of zero candidates: a yearly
    total of 0, no month and no date; the CSV file holds the header
    only. *)
Theorem empty_universe_zero_rollup (env : Env) (year : string) :
  nfoStocks env = [] ->
  fs_write (fs env) ((year ++ "/backtest-result") ++ ".json")%string = None ->
  fs_write (fs env) (year ++ "/backtest-result.csv")%string = None ->
  let zero := {| Results.yearlyPnl := 0; Results.monthlyPnl := [];
                 Results.trades := [] |} in
  backtest.runBacktest env (Some year) false
  = {| backtest.outcome := Resolved zero;
       backtest.written :=
         [(((year ++ "/backtest-result") ++ ".json")%string, JsonData zero);
          ((year ++ "/backtest-result.csv")%string,
           TextData [CsvText "Date,PnL%"])] |}.
Proof.
  intros Hu Hw1 Hw2 zero. unfold backtest.runBacktest. rewrite Hu.
  cbn [map Promise_all List.concat]. 
  change (backtest.computation []) with (zero, [CsvText "Date,PnL%"]).
  unfold helpers.writeFile. rewrite Hw1, Hw2. reflexivity.
Qed.

Lemma empty_universe_zero_rollup_witness :
  backtest.outcome (backtest.runBacktest (Examples.env []) (Some "2018"%string) false)
  = Resolved {| Results.yearlyPnl := 0; Results.monthlyPnl := [];
                Results.trades := [] |}.
Proof.
  rewrite (empty_universe_zero_rollup (Examples.env []) "2018");
    reflexivity.
Defined.

(** Claim C2 fails as stated: on an empty universe the run is fulfilled
    with a rollup built from zero candidates. *)
Lemma empty_universe_run_succeeds :
  nfoStocks (Examples.env []) = []
  /\ backtest.outcome (backtest.runBacktest (Examples.env []) None false)
     = Resolved {| Results.yearlyPnl := 0; Results.monthlyPnl := [];
                   Results.trades := [] |}.
Proof. split; reflexivity. Qed.

(** Claim C3.  On a readable series, [runTest] visits the windows of start
    index 0 to length-5 in order, the window of index [i] being the bars
    [i .. i+4], and returns what the windows emit, in order.  A window
    emits nothing or one candidate, and it emits one if and only if the
    three entry conditions hold on the closes of d1..d4:
    (d1 - d2) > (d2 - d3) > (d3 - d4), d1 > d2 > d3 > d4, and
    inc1 > inc2 > inc3 with inc3 = pctChange(d4.close, d4.close), which is
    zero for a finite non-zero close. *)
Theorem detector_emits_iff_entry_conditions (data : FileSystem)
  (year symbol : string) (instrument : Instrument.t) :
  helpers.readFile data (year ++ "/" ++ symbol)%string = Resolved instrument ->
  let ohlc := Instrument.ohlc instrument in
  let c := Bar.close in
  backtest.runTest data year symbol
  = Resolved (flat_map (Spec.emit symbol) (Spec.windows ohlc))
  /\ List.length (Spec.windows ohlc) = (List.length ohlc - 4)%nat
  /\ (forall i d0 d1 d2 d3 d4,
        nth_error (Spec.windows ohlc) i = Some (d0, d1, d2, d3, d4) <->
        nth_error ohlc i = Some d0 /\ nth_error ohlc (i + 1) = Some d1
        /\ nth_error ohlc (i + 2) = Some d2 /\ nth_error ohlc (i + 3) = Some d3
        /\ nth_error ohlc (i + 4) = Some d4)
  /\ (forall d0 d1 d2 d3 d4,
        let inc1 := Spec.pctChange (c d2) (c d1) in
        let inc2 := Spec.pctChange (c d3) (c d2) in
        let inc3 := Spec.pctChange (c d4) (c d4) in
        (Spec.emit symbol (d0, d1, d2, d3, d4) = []
         \/ exists t, Spec.emit symbol (d0, d1, d2, d3, d4) = [t])
        /\ ((exists t, Spec.emit symbol (d0, d1, d2, d3, d4) = [t]) <->
            (gt (c d1 - c d2) (c d2 - c d3) = true
             /\ gt (c d2 - c d3) (c d3 - c d4) = true)
            /\ (gt (c d1) (c d2) = true /\ gt (c d2) (c d3) = true
                /\ gt (c d3) (c d4) = true)
            /\ (gt inc1 inc2 = true /\ gt inc2 inc3 = true)))
  /\ (forall x, is_finite x = true -> (x =? 0) = false ->
                (Spec.pctChange x x =? 0) = true).
Proof.
  intros Hread ohlc c.
  split; [apply (DetectorFacts.runTest_detector _ _ _ _ Hread)|].
  split; [apply DetectorFacts.windows_length|].
  split; [intros; apply DetectorFacts.windows_nth|].
  split; [|apply ScanFacts.percentChange_self_zero].
  intros d0 d1 d2 d3 d4 inc1 inc2 inc3. split.
  - unfold Spec.emit. destruct (Spec.entryCondition d1 d2 d3 d4); eauto.
  - split.
    + intros [t Ht]. unfold Spec.emit in Ht.
      destruct (Spec.entryCondition d1 d2 d3 d4) eqn:E; [|discriminate].
      unfold Spec.entryCondition in E. rewrite !andb_true_iff in E.
      subst inc1 inc2 inc3 c. tauto.
    + intros H. unfold Spec.emit.
      assert (E : Spec.entryCondition d1 d2 d3 d4 = true).
      { unfold Spec.entryCondition. rewrite !andb_true_iff.
        subst inc1 inc2 inc3 c. tauto. }
      rewrite E. eauto.
Qed.

Lemma detector_emits_iff_entry_conditions_witness :
  backtest.runTest Examples.disk "2018" "AAA"
  = Resolved (flat_map (Spec.emit "AAA")
                (Spec.windows (Instrument.ohlc Examples.rally))).
Proof.
  apply (detector_emits_iff_entry_conditions Examples.disk "2018" "AAA"
           Examples.rally).
  reflexivity.
Defined.

(** Claim C4 fails as stated.  The Number 2.675 lies below 2.675, so its
    half-up rounding at two decimals is 2.67, but its product by 100 is
    rounded to 267.5 and [round] returns 2.68.  The other way round,
    [round] takes 1.005 to 1; and the tie -0.125 goes up, to -0.12. *)
Lemma round_not_half_up :
  (Prim2SF 2.675 = S754_finite false 6023564501608038 (-51)
   /\ (1000 * 6023564501608038 < 2675 * 2 ^ 51)%Z)
  /\ helpers.round 2.675 = 2.68
  /\ Spec.halfUp2 2.675 = 2.67
  /\ helpers.round 2.675 <> Spec.halfUp2 2.675
  /\ helpers.round 1.005 = 1
  /\ helpers.round (-0.125) = -0.12.
Proof.
  split; [split; [reflexivity|lia]|].
  split; [reflexivity|]. split; [reflexivity|].
  split; [|split; reflexivity].
  intros H. apply (f_equal Prim2SF) in H. vm_compute in H. discriminate.
Qed.

(** Claim C4, as the code has it.  [round] rounds the binary64 product
    [x * 100], not [x]: when that product is the finite value [±m·2^e], an
    integral product ([0 <= e]) is divided by 100 unchanged, and otherwise
    the product is replaced by the integer [n] nearest to it, ties going
    towards +∞ ([n - 1/2 <= ±m·2^e < n + 1/2]), a result of zero keeping
    the sign of the product, before the division by 100.  When the
    product is exact, [n] is the half-up rounding of [100·x]. *)
Theorem round_half_up_of_scaled_product (x : number) (s : bool) (m : positive)
  (e : Z) :
  Prim2SF (x * 100) = S754_finite s m e ->
  let v := if s then Zneg m else Zpos m in
  ((0 <= e)%Z -> helpers.round x = (x * 100) / 100)
  /\ ((e < 0)%Z ->
      exists n : Z,
        ((2 * n - 1) * 2 ^ (- e) <= 2 * v < (2 * n + 1) * 2 ^ (- e))%Z
        /\ helpers.round x
           = (if (n =? 0)%Z then (if s then -0 else 0) else of_Z n) / 100
        /\ (forall sx mx ex,
              Prim2SF x = S754_finite sx mx ex -> (ex < 0)%Z ->
              (v * 2 ^ (- ex)
               = 100 * (if sx then Zneg mx else Zpos mx) * 2 ^ (- e))%Z ->
              Spec.halfUpCents x = Some n)).
Proof.
  intros H v. unfold helpers.round, Math_round. rewrite H. fold v. split.
  - intros He. apply Z.leb_le in He. now rewrite He.
  - intros He. replace (0 <=? e)%Z with false by (symmetry; apply Z.leb_gt; lia).
    exists (Z.shiftr (2 * v + 2 ^ (- e)) (1 - e)).
    rewrite Z.shiftr_div_pow2 by lia.
    replace (1 - e)%Z with (1 + - e)%Z by lia.
    rewrite Z.pow_add_r by lia. change (2 ^ 1)%Z with 2%Z.
    assert (HP : (0 < 2 ^ (- e))%Z) by (apply Z.pow_pos_nonneg; lia).
    revert HP. generalize (2 ^ (- e))%Z. intros P HP.
    split; [|split; [reflexivity|]].
    + pose proof (Z.div_mod (2 * v + P) (2 * P) ltac:(lia)) as Hdm.
      pose proof (Z.mod_pos_bound (2 * v + P) (2 * P) ltac:(lia)) as Hb.
      revert Hdm Hb.
      generalize ((2 * v + P) / (2 * P))%Z ((2 * v + P) mod (2 * P))%Z.
      intros q r Hdm Hb. nia.
    + intros sx mx ex Hx Hex Hexact. unfold Spec.halfUpCents. rewrite Hx.
      replace (0 <=? ex)%Z with false by (symmetry; apply Z.leb_gt; lia).
      f_equal.
      replace (1 - ex)%Z with (1 + - ex)%Z by lia.
      rewrite Z.pow_add_r by lia. change (2 ^ 1)%Z with 2%Z.
      assert (HQ : (0 < 2 ^ (- ex))%Z) by (apply Z.pow_pos_nonneg; lia).
      revert HQ Hexact. generalize (2 ^ (- ex))%Z.
      generalize (if sx then Zneg mx else Zpos mx). intros vx Q HQ Hexact.
      rewrite <- (Z.div_mul_cancel_r (200 * vx + Q) (2 * Q) P) by lia.
      rewrite <- (Z.div_mul_cancel_r (2 * v + P) (2 * P) Q) by lia.
      f_equal; nia.
Qed.

Lemma round_half_up_of_scaled_product_witness :
  exists n : Z,
    ((2 * n - 1) * 2 ^ 49 <= 2 * Zneg 7036874417766400
     < (2 * n + 1) * 2 ^ 49)%Z
    /\ helpers.round (-0.125)
       = (if (n =? 0)%Z then -0 else of_Z n) / 100
    /\ Spec.halfUpCents (-0.125) = Some n.
Proof.
  destruct (round_half_up_of_scaled_product (-0.125) true 7036874417766400 (-49)
              eq_refl) as [_ H].
  destruct (H ltac:(lia)) as (n & Hn & Hr & Hc).
  exists n. split; [exact Hn|]. split; [exact Hr|].
  apply (Hc true 4503599627370496%positive (-55)%Z); [reflexivity|lia|].
  vm_compute. reflexivity.
Defined.

(** Claim C5, as the code has it.  The dates are processed in the order
    of the keys of [trades], which is the ascending calendar order when
    the date keys are calendar days, as the date keys of the candidates of
    a series of calendar days are ([ScanFacts.detector_dates]).  The total
    of a month accumulates the totals of the dates of that month in that
    order, [round2] being applied after each
    addition to the running total, which the source restarts from 0 when
    it is 0 or [NaN]; as long as no running total is [NaN], this is the
    stepwise accumulation from 0.  The yearly total is the stepwise
    accumulation of the monthly totals.  A stepwise accumulation is not a
    single rounding of the sum: the two differ on the totals
    [0.004; 0.004]. *)
Theorem monthly_yearly_stepwise (allTrades : list Trade.t) :
  let allTradesByDates := helpers.groupByDate allTrades in
  let results := fst (backtest.computation allTrades) in
  let dates := keys (Results.trades results) in
  let total date :=
    Spec.dateTotal (backtest.get_array (Results.trades results) date) in
  (backtest.byDates allTradesByDates
   = fold_left (backtest.forEachDate allTradesByDates) dates ([], [])
   /\ Permutation dates (keys allTradesByDates)
   /\ ((forall t, In t allTrades ->
                  Moment.parse_DD_MM_YYYY (Trade.date t) <> None) ->
       StronglySorted
         (fun a b => (Spec.calendarRank a <= Spec.calendarRank b)%Z) dates))
  /\ (forall month,
        In month (keys (Results.monthlyPnl results)) ->
        let totals :=
          map total
            (filter (fun date => String.eqb (Spec.monthLabel date) month) dates) in
        get (Results.monthlyPnl results) month
        = fold_left
            (fun prev next =>
               Some (Spec.round2 (RollupFacts.restart prev + next)))
            totals None
        /\ (Forall (fun v => is_nan v = false) (Spec.running 0 totals) ->
            get (Results.monthlyPnl results) month = Some (Spec.stepwise totals)))
  /\ Results.yearlyPnl results
     = Spec.stepwise (map snd (Results.monthlyPnl results))
  /\ exists totals, Spec.stepwise totals <> Spec.roundedOnce totals.
Proof.
  intros allTradesByDates results dates total.
  assert (Ed : dates = sort backtest.byDate (keys allTradesByDates))
    by apply ResultsFacts.trades_keys.
  pose proof (ResultsFacts.computation_eq allTrades) as E. cbv zeta in E.
  fold allTradesByDates in E. rewrite <- Ed in E.
  split; [split; [|split]|split; [|split]].
  - rewrite Ed. reflexivity.
  - rewrite Ed. apply SortFacts.sort_Permutation.
  - intros Hdates. rewrite Ed. apply SortFacts.sort_ascending.
    apply ComputationFacts.byDate_consistent.
    intros d Hd. apply GroupFacts.groupByDate_keys in Hd.
    destruct Hd as (t & Ht & <-). now apply Hdates.
  - intros month Hmonth totals.
    assert (Et : totals
                 = map (fun date =>
                          Spec.dateTotal (backtest.topTwo allTradesByDates date))
                     (filter (fun date => String.eqb (Spec.monthLabel date) month)
                        dates)).
    { unfold totals. apply map_ext_in. intros d Hd. apply filter_In in Hd.
      destruct Hd as [Hd _]. unfold total, results. rewrite E.
      cbn [fst Results.trades].
      now rewrite ComputationFacts.get_array_map. }
    unfold results in Hmonth |- *. rewrite E in Hmonth |- *.
    cbn [fst Results.monthlyPnl] in Hmonth |- *.
    rewrite RollupFacts.fold_stepDate_get. cbn [get].
    apply RollupFacts.fold_stepDate_keys in Hmonth.
    destruct Hmonth as [[]|Hmonth].
    rewrite (ComputationFacts.fold_restart_map
               (fun date => Spec.dateTotal (backtest.topTwo allTradesByDates date))).
    rewrite <- Et.
    split; [reflexivity|]. intros Hnan.
    apply ComputationFacts.restart_stepwise_None.
    + rewrite Et. apply in_map_iff in Hmonth.
      destruct Hmonth as (d & Hm & Hd).
      assert (Hf : In d (filter (fun date => String.eqb (Spec.monthLabel date) month)
                           dates))
        by (apply filter_In; split; [assumption|now apply String.eqb_eq]).
      destruct (filter _ dates); [contradiction|discriminate].
    + rewrite Et. apply Forall_forall. intros t Ht.
      apply in_map_iff in Ht. destruct Ht as (d & <- & _).
      apply ComputationFacts.dateTotal_not_neg_zero.
    + assumption.
  - unfold results. rewrite E. reflexivity.
  - exists [0.004; 0.004]. intros H.
    apply (f_equal Prim2SF) in H. vm_compute in H. discriminate.
Qed.

Lemma monthly_yearly_stepwise_witness :
  StronglySorted
    (fun a b => (Spec.calendarRank a <= Spec.calendarRank b)%Z)
    (keys (Results.trades (fst (backtest.computation Examples.candidates))))
  /\ exists totals,
       get (Results.monthlyPnl (fst (backtest.computation Examples.candidates)))
         "Jan"
       = Some (Spec.stepwise totals).
Proof.
  destruct (monthly_yearly_stepwise Examples.candidates)
    as ((_ & _ & Hs) & Hm & _).
  split.
  - apply Hs.
    intros t [<-|[<-|[<-|[<-|[]]]]]; vm_compute; discriminate.
  - destruct (Hm "Jan"%string) as [_ Hj].
    + vm_compute. left. reflexivity.
    + eexists. apply Hj. vm_compute. repeat constructor.
Defined.

(** Claim C5 fails as stated.  The scan of the universe [AAA; PNY] gives
    two dates in January.  On the 4th the only trade, of [PNY], is entered
    at 0 and left at 0, so that its profit/loss and the total of the date
    are [NaN]; the total of the 8th is 2.7.  The stepwise fold of the two
    totals is [NaN], but the guard [if (!monthlyPnl[month])] restarts the
    [NaN] running total from 0, and the monthly total of January is
    2.7. *)
Lemma monthly_total_restarts_after_nan :
  exists results,
    backtest.outcome (backtest.runBacktest Examples.penny_env None false)
    = Resolved results
    /\ keys (Results.trades results) = ["04-01-2018"; "08-01-2018"]%string
    /\ map Spec.monthLabel (keys (Results.trades results)) = ["Jan"; "Jan"]%string
    /\ let totals :=
         map (fun date =>
                Spec.dateTotal (backtest.get_array (Results.trades results) date))
           (keys (Results.trades results)) in
       is_nan (nth 0 totals 0) = true
       /\ nth 1 totals 0 = 2.7
       /\ is_nan (Spec.stepwise totals) = true
       /\ get (Results.monthlyPnl results) "Jan" = Some 2.7
       /\ get (Results.monthlyPnl results) "Jan" <> Some (Spec.stepwise totals).
Proof.
  eexists. split; [vm_compute; reflexivity|].
  split; [reflexivity|]. split; [reflexivity|].
  cbv zeta. split; [reflexivity|]. split; [reflexivity|].
  split; [reflexivity|]. split; [reflexivity|].
  intros H.
  apply (f_equal (fun total => match total with
                               | Some x => is_nan x
                               | None => false
                               end)) in H.
  vm_compute in H. discriminate.
Qed.

(** Claim C6.  For a date of the bucket whose candidates have ranking keys
    that are not [NaN], as the candidates of a scan have
    ([ScanFacts.scan_change_positive]), the selected trades are the first
    two of the candidates ranked by decreasing ranking key, candidates of
    equal key keeping their order in the bucket.  With three candidates or more,
    two are selected, and the key of a selected trade is at least the key
    of every candidate that is not selected; with fewer than two
    candidates, all are selected. *)
Theorem top_two_by_ranking_key (allTrades : list Trade.t) (date : string) :
  Forall (fun t => is_nan (Trade.change t) = false) allTrades ->
  In date (keys (helpers.groupByDate allTrades)) ->
  let candidates := backtest.get_array (helpers.groupByDate allTrades) date in
  let selected :=
    backtest.get_array (Results.trades (fst (backtest.computation allTrades))) date in
  exists ranked,
    Permutation ranked candidates
    /\ StronglySorted
         (fun a b => (Trade.change b <=? Trade.change a) = true) ranked
    /\ (forall k,
          filter (fun t => Trade.change t =? k) ranked
          = filter (fun t => Trade.change t =? k) candidates)
    /\ selected = firstn 2 ranked
    /\ ((3 <= List.length candidates)%nat ->
        List.length selected = 2%nat
        /\ forall s u, In s selected -> In u (skipn 2 ranked) ->
                       (Trade.change u <=? Trade.change s) = true)
    /\ ((List.length candidates < 2)%nat -> selected = candidates).
Proof.
  intros Hnan Hdate candidates selected.
  assert (Hc : candidates
               = filter (fun item => String.eqb (Trade.date item) date) allTrades)
    by apply GroupFacts.groupByDate_get.
  assert (Hcn : Forall (fun t => is_nan (Trade.change t) = false) candidates).
  { rewrite Hc. rewrite Forall_forall in Hnan |- *. intros t Ht.
    apply filter_In in Ht. now apply Hnan. }
  pose proof (ComputationFacts.byChange_consistent candidates Hcn) as Hcons.
  set (ranked := sort backtest.byChange candidates).
  assert (Hperm : Permutation ranked candidates)
    by apply SortFacts.sort_Permutation.
  assert (Hrn : Forall (fun t => is_nan (Trade.change t) = false) ranked).
  { rewrite Forall_forall in Hcn |- *. intros t Ht. apply Hcn.
    now apply (Permutation_in _ Hperm). }
  assert (Hasc : SortFacts.ascending ComputationFacts.changeRank ranked)
    by now apply SortFacts.sort_ascending.
  assert (Hsel : selected = firstn 2 ranked).
  { unfold selected. rewrite ResultsFacts.trades_get by assumption.
    unfold ranked. now rewrite Hc. }
  assert (Hle : forall a b, is_nan (Trade.change a) = false ->
                is_nan (Trade.change b) = false ->
                (ComputationFacts.changeRank a <= ComputationFacts.changeRank b)%Z ->
                (Trade.change b <=? Trade.change a) = true).
  { intros a b Ha Hb Hab. rewrite NumberOrder.leb_key by assumption.
    apply Z.leb_le. unfold ComputationFacts.changeRank in Hab. lia. }
  exists ranked. split; [assumption|]. split.
  { apply (ResultsFacts.StronglySorted_impl _ _ _ _ Hle Hrn Hasc). }
  split.
  { intros k. destruct (is_nan k) eqn:Ek.
    - rewrite (filter_ext _ (fun _ => false))
        by (intros t; now apply ResultsFacts.eqb_nan_r).
      rewrite (filter_ext (fun t => Trade.change t =? k) (fun _ => false))
        by (intros t; now apply ResultsFacts.eqb_nan_r).
      now rewrite !ResultsFacts.filter_none.
    - rewrite Forall_forall in Hrn, Hcn.
      rewrite (filter_ext_in _
                 (fun t => (ComputationFacts.changeRank t =? - NumberOrder.key k)%Z)
                 ranked).
      + rewrite (filter_ext_in (fun t => Trade.change t =? k)
                   (fun t => (ComputationFacts.changeRank t =? - NumberOrder.key k)%Z)
                   candidates).
        * now apply SortFacts.sort_stable.
        * intros t Ht. rewrite ResultsFacts.eqb_key by auto.
          unfold ComputationFacts.changeRank. now rewrite ResultsFacts.Zeqb_opp.
      + intros t Ht. rewrite ResultsFacts.eqb_key by auto.
        unfold ComputationFacts.changeRank. now rewrite ResultsFacts.Zeqb_opp. }
  split; [assumption|]. split.
  - intros Hlen. split.
    + rewrite Hsel, length_firstn. unfold ranked.
      rewrite SortFacts.sort_length. lia.
    + intros s u Hs Hu. rewrite Hsel in Hs.
      rewrite Forall_forall in Hrn. apply Hle.
      * apply Hrn. rewrite <- (firstn_skipn 2 ranked).
        apply in_or_app. now left.
      * apply Hrn. rewrite <- (firstn_skipn 2 ranked).
        apply in_or_app. now right.
      * now apply (SortFacts.ascending_firstn_skipn _ 2 ranked).
  - intros Hlen. rewrite Hsel. unfold ranked.
    destruct candidates as [|x [|y l]]; cbn in Hlen |- *; try reflexivity; lia.
Qed.

Lemma top_two_by_ranking_key_witness :
  exists ranked,
    Permutation ranked
      (backtest.get_array (helpers.groupByDate Examples.candidates) "08-01-2018")
    /\ backtest.get_array
         (Results.trades (fst (backtest.computation Examples.candidates)))
         "08-01-2018"
       = firstn 2 ranked
    /\ List.length
         (backtest.get_array
            (Results.trades (fst (backtest.computation Examples.candidates)))
            "08-01-2018") = 2%nat.
Proof.
  assert (H1 : Forall (fun t => is_nan (Trade.change t) = false)
                 Examples.candidates)
    by (repeat constructor).
  assert (H2 : In "08-01-2018"%string
                 (keys (helpers.groupByDate Examples.candidates)))
    by (vm_compute; left; reflexivity).
  destruct (top_two_by_ranking_key Examples.candidates "08-01-2018" H1 H2)
    as (ranked & Hp & _ & _ & Hs & H3 & _).
  exists ranked. split; [assumption|]. split; [assumption|].
  apply H3. vm_compute. lia.
Defined.

(** Claim C7.  After the header, the export has one row per date of
    [trades], in order; no date occurs twice, every date of a candidate
    occurs, and every date has a selected trade.  The value of a row is
    the reduction of the selected trades of the date from zero, rounding
    after every addition; it does not involve the monthly totals.  Two
    trades of one date with profit/loss 1.5 and -0.5 give one row, of
    value 1. *)
Theorem export_one_row_per_date (allTrades : list Trade.t) :
  let results := fst (backtest.computation allTrades) in
  let csv := snd (backtest.computation allTrades) in
  csv = CsvText "Date,PnL%"
        :: map (fun '(date, selected) => CsvRow date (Spec.exportValue selected))
             (Results.trades results)
  /\ NoDup (keys (Results.trades results))
  /\ (forall date selected,
        In (date, selected) (Results.trades results) -> selected <> [])
  /\ (forall date,
        In date (keys (Results.trades results)) <->
        exists t, In t allTrades /\ Trade.date t = date)
  /\ (forall t1 t2,
        Trade.date t1 = Trade.date t2 ->
        Trade.pnlPercent t1 = 1.5 -> Trade.pnlPercent t2 = -0.5 ->
        snd (backtest.computation [t1; t2])
        = [CsvText "Date,PnL%"; CsvRow (Trade.date t1) 1]).
Proof.
  intros results csv. subst results csv.
  pose proof (ResultsFacts.computation_eq allTrades) as E. cbv zeta in E.
  split.
  { rewrite E. cbn [fst snd Results.trades]. f_equal. now rewrite map_map. }
  split.
  { rewrite ResultsFacts.trades_keys. apply ResultsFacts.dates_NoDup. }
  split.
  { intros date selected Hin. rewrite E in Hin. cbn [fst Results.trades] in Hin.
    apply in_map_iff in Hin. destruct Hin as (d & [= <- <-] & Hd).
    apply (Permutation_in _ (ResultsFacts.dates_Permutation allTrades)) in Hd.
    unfold backtest.topTwo, slice0. apply ResultsFacts.sort_nonempty.
    now apply GroupFacts.groupByDate_nonempty. }
  split.
  { intros date. rewrite ResultsFacts.trades_keys.
    rewrite <- GroupFacts.groupByDate_keys. split.
    - apply Permutation_in, ResultsFacts.dates_Permutation.
    - apply Permutation_in. symmetry. apply ResultsFacts.dates_Permutation. }
  intros t1 t2 Hd Hp1 Hp2.
  assert (Hk : keys (helpers.groupByDate [t1; t2]) = [Trade.date t1]).
  { rewrite GroupFacts.groupByDate_fold. cbn [fold_left].
    rewrite !GroupFacts.step_keys, <- Hd. cbn [keys map app].
    destruct (in_dec string_dec (Trade.date t1) []) as [[]|_]. cbn [app].
    destruct (in_dec string_dec (Trade.date t1) [Trade.date t1]) as [_|H];
      [reflexivity|].
    exfalso. apply H. now left. }
  rewrite ResultsFacts.computation_eq. cbn [snd]. rewrite Hk.
  cbn [sort insert map]. do 3 f_equal.
  unfold backtest.topTwo, slice0. rewrite GroupFacts.groupByDate_get.
  cbn [filter]. rewrite <- Hd, String.eqb_refl. cbn [sort insert].
  unfold Spec.exportValue, Spec.round2.
  destruct (backtest.byChange t1 t2); cbn [firstn fold_left];
    rewrite Hp1, Hp2; reflexivity.
Qed.

Lemma export_one_row_per_date_witness :
  snd (backtest.computation
         [Examples.candidate "08-01-2018" "AAA" 1.5 3.88;
          Examples.candidate "08-01-2018" "BBB" (-0.5) 5.1])
  = [CsvText "Date,PnL%"; CsvRow "08-01-2018" 1].
Proof.
  apply (export_one_row_per_date []); reflexivity.
Defined.

(** Claim C8.  On a readable series, every window that meets the entry
    conditions has a trade in the result of [runTest] whose date is the
    date of d1 in day-month-year form, whose entry price is
    [round2(d1.close * 1.001)], whose exit price is [d0.open], whose
    ranking key is inc1 and whose profit/loss is [pctChange(entry, exit)];
    and for every trade of the result, [pctChange] of the stored entry and
    exit prices is the stored profit/loss. *)
Theorem candidate_fields (data : FileSystem) (year symbol : string)
  (instrument : Instrument.t) :
  helpers.readFile data (year ++ "/" ++ symbol)%string = Resolved instrument ->
  exists allTrades,
    backtest.runTest data year symbol = Resolved allTrades
    /\ (forall d0 d1 d2 d3 d4,
          In (d0, d1, d2, d3, d4) (Spec.windows (Instrument.ohlc instrument)) ->
          Spec.entryCondition d1 d2 d3 d4 = true ->
          exists t,
            In t allTrades
            /\ Trade.symbol t = symbol
            /\ Trade.date t = Moment.format_DD_MM_YYYY (Bar.date d1)
            /\ Trade.entry t = Spec.round2 (Bar.close d1 * 1.001)
            /\ Trade.exit t = Bar.open d0
            /\ Trade.change t = Spec.pctChange (Bar.close d2) (Bar.close d1)
            /\ Trade.pnlPercent t = Spec.pctChange (Trade.entry t) (Trade.exit t))
    /\ (forall t, In t allTrades ->
          Spec.pctChange (Trade.entry t) (Trade.exit t) = Trade.pnlPercent t).
Proof.
  intros Hread. exists (Spec.detector symbol (Instrument.ohlc instrument)).
  split; [apply (DetectorFacts.runTest_detector _ _ _ _ Hread)|]. split.
  - intros d0 d1 d2 d3 d4 Hw Hc. exists (Spec.candidate symbol d0 d1 d2).
    split; [|repeat split].
    apply DetectorFacts.detector_In. now exists d0, d1, d2, d3, d4.
  - intros t Ht. apply DetectorFacts.detector_In in Ht.
    destruct Ht as (d0 & d1 & d2 & d3 & d4 & _ & _ & ->). reflexivity.
Qed.

Lemma candidate_fields_witness :
  exists allTrades,
    backtest.runTest Examples.disk "2018" "AAA" = Resolved allTrades
    /\ (forall t, In t allTrades ->
          Spec.pctChange (Trade.entry t) (Trade.exit t) = Trade.pnlPercent t).
Proof.
  destruct (candidate_fields Examples.disk "2018" "AAA" Examples.rally eq_refl)
    as (allTrades & Hrun & _ & Hround).
  exists allTrades. split; assumption.
Defined.

(** Claim C9.  On a readable series of fewer than five bars, [runTest] is
    fulfilled with the empty array. *)
Theorem short_series_no_candidate (data : FileSystem) (year symbol : string)
  (instrument : Instrument.t) :
  helpers.readFile data (year ++ "/" ++ symbol)%string = Resolved instrument ->
  (List.length (Instrument.ohlc instrument) < 5)%nat ->
  backtest.runTest data year symbol = Resolved [].
Proof.
  intros Hread Hlen. unfold backtest.runTest. rewrite Hread. cbn [bind].
  replace (Z.to_nat (Z.of_nat (List.length (Instrument.ohlc instrument)) - 4))
    with 0%nat by lia.
  reflexivity.
Qed.

Lemma short_series_no_candidate_witness :
  backtest.runTest Examples.disk "2018" "CCC" = Resolved [].
Proof.
  apply (short_series_no_candidate Examples.disk "2018" "CCC" Examples.short).
  - reflexivity.
  - cbn. lia.
Defined.

(** Claim C10.  The ranking key [change] of every trade that [runTest]
    returns is greater than zero. *)
Theorem candidate_change_positive (data : FileSystem) (year symbol : string)
  (allTrades : list Trade.t) (t : Trade.t) :
  backtest.runTest data year symbol = Resolved allTrades ->
  In t allTrades ->
  gt (Trade.change t) 0 = true.
Proof.
  intros Hrun Hin.
  destruct (ScanFacts.runTest_Resolved _ _ _ _ Hrun) as (instrument & _ & ->).
  apply DetectorFacts.detector_In in Hin.
  destruct Hin as (d0 & d1 & d2 & d3 & d4 & _ & Hc & ->).
  cbn [Spec.candidate Trade.change].
  now apply (ScanFacts.entryCondition_change_positive d1 d2 d3 d4).
Qed.

Lemma candidate_change_positive_witness :
  gt 3.88 0 = true.
Proof.
  refine (candidate_change_positive Examples.disk "2018" "AAA" _
            {| Trade.date := "08-01-2018"; Trade.entry := 107.11;
               Trade.exit := 110; Trade.symbol := "AAA";
               Trade.pnlPercent := 2.7; Trade.change := 3.88 |} _ _).
  - vm_compute. reflexivity.
  - left. reflexivity.
Defined.

(* ================================================================== *)
(** * helpers.js: the broker and the data directory as a state *)
(* ================================================================== *)

(** One element of the array [kite.getInstruments] is fulfilled with.
    The code reads [tradingsymbol] and [instrument_token]; the other
    properties are only copied. *)
Module InstrumentInfo.
Record t : Type := { tradingsymbol : string; instrument_token : Z }.
End InstrumentInfo.

(** The object [kite.generateSession] is fulfilled with; [login_time] is
    given by its rendering in a template string. *)
Module Session.
Record t : Type := { user_name : string; login_time : string }.
End Session.

(** The values of the JSON files under [data/], as far as the code tells
    them apart. *)
Module Json.

Inductive t : Type :=
| Instruments (l : list InstrumentInfo.t)
    (** an array of instrument records *)
| Series (instrument : InstrumentInfo.t) (ohlc : list Bar.t)
    (** the object [{ ...instrument, ohlc }] *)
| Object
    (** another object, without [find] and without [ohlc], such as the
        results of a run *)
| Falsy.
    (** [null], [false] or [0] *)

(** [ToBoolean]: arrays and objects are truthy, the empty array
    included. *)
Definition truthy (v : t) : bool :=
  match v with
  | Falsy => false
  | _ => true
  end.

(** [JSON.parse(JSON.stringify(x))] on a Number: a finite Number other
    than [-0] is read back unchanged; [-0] is written as [0]; [NaN] and
    the infinities are written as [null], which the arithmetic and the
    comparisons of [runTest] read as [0]. *)
Definition reparse_number (x : JS.number) : JS.number :=
  if is_finite x && negb (x =? 0) then x else 0.

Definition reparse_bar (b : Bar.t) : Bar.t :=
  {| Bar.date := Bar.date b;
     Bar.open := reparse_number (Bar.open b);
     Bar.close := reparse_number (Bar.close b) |}.

(** [JSON.parse(JSON.stringify(v))]. *)
Definition reparse (v : t) : t :=
  match v with
  | Series instrument ohlc => Series instrument (map reparse_bar ohlc)
  | _ => v
  end.

(** [v.find(i => i.tradingsymbol === symbol)]: only an array has a
    [find]; [None] is [undefined]. *)
Definition find (v : t) (symbol : string)
  : JS.Outcome (option InstrumentInfo.t) :=
  match v with
  | Instruments l =>
      JS.Resolved
        (List.find
           (fun i => String.eqb (InstrumentInfo.tradingsymbol i) symbol) l)
  | _ => JS.Rejected JS.TypeError
  end.

End Json.

(** The content of a file of [data/]: a text that [JSON.parse] accepts,
    given by its value, or a text that it rejects. *)
Inductive File : Type :=
| JsonText (v : Json.t)
| Garbled.

(** The [KiteConnect] client [kite], with the secret of [config.js]
    behind [generateSession]. *)
Module KiteConnect.
Record t : Type :=
  { getLoginURL : string;
    generateSession : option string -> JS.Outcome Session.t;
    getInstruments : string -> JS.Outcome (list InstrumentInfo.t);
    getHistoricalData :
      Z -> string -> string -> string -> bool -> JS.Outcome (list Bar.t) }.
End KiteConnect.

(** What the process of [helpers.js] does not decide: the broker, the
    error [fs.writeFile] answers for a path, if any, and what [moment]
    computes from the clock and from date strings: the year
    [moment(endDate, dateFormat).format('YYYY')] of a date, and the pair
    of [startDate] and [endDate] that
    [downloadAllNfoStockHistoricalDataPerYear] derives from a year. *)
Record World : Type :=
  { kite : KiteConnect.t;
    write_error : string -> option JS.Error;
    moment_YYYY : string -> string;
    year_range : string -> string * string }.

(** The state the functions of [helpers.js] share: the module variable
    [instruments] ([None] is [undefined]), the sub-directories of [data/]
    and its files, by their path below [data/] as the code writes it. *)
Record State : Type :=
  { instruments : option Json.t;
    dirs : list string;
    files : JS.object File }.

Module kite_helpers.
Import JS.

(** An asynchronous function of [helpers.js]: the outcome of its promise
    and the state it leaves. *)
Definition Async (A : Type) : Type := State -> Outcome A * State.

Definition ret {A : Type} (a : A) : Async A := fun s => (Resolved a, s).

(** [await]. *)
Definition await {A B : Type} (p : Async A) (k : A -> Async B) : Async B :=
  fun s =>
    match p s with
    | (Resolved a, s') => k a s'
    | (Rejected e, s') => (Rejected e, s')
    | (Uncaught e, s') => (Uncaught e, s')
    end.

(** A promise that does not touch the state. *)
Definition lift {A : Type} (p : Outcome A) : Async A := fun s => (p, s).

(** [try { ... } catch (e) { ... }] around an [await]: a rejection is
    caught, an exception thrown from a callback of the event loop is
    not. *)
Definition try_catch {A : Type} (p : Async A) (handler : Error -> Async A)
  : Async A :=
  fun s =>
    match p s with
    | (Rejected e, s') => handler e s'
    | r => r
    end.

(** [instruments = v]. *)
Definition assign (v : Json.t) : Async Json.t :=
  fun s =>
    (Resolved v,
     {| instruments := Some v; dirs := dirs s; files := files s |}).

(** [readFile]: a missing file rejects the promise; the [SyntaxError]
    of [JSON.parse] is thrown from the callback of [fs.readFile]. *)
Definition readFile (filename : string) : Async Json.t :=
  fun s =>
    let filepath := (filename ++ ".json")%string in
    match get (files s) filepath with
    | None => (Rejected (FsError filepath), s)
    | Some Garbled => (Uncaught SyntaxError, s)
    | Some (JsonText v) => (Resolved v, s)
    end.

(** [filename.indexOf('/') > -1], with [filename.split('/')[0]]. *)
Fixpoint dirname (filename : string) : option string :=
  match filename with
  | EmptyString => None
  | String c rest =>
      if Ascii.eqb c "/" then Some EmptyString
      else option_map (String c) (dirname rest)
  end.

(** [writeFile] of an array or an object, for which [typeof data] is
    ['object']: the first segment of the path is created when there is a
    [/] and no such directory, which is taken to succeed, then the file
    is written under [filename.json]. *)
Definition writeFile (w : World) (filename : string) (data : Json.t)
  : Async unit :=
  fun s =>
    let dirs :=
      match dirname filename with
      | Some dirname =>
          if existsb (String.eqb dirname) (dirs s) then dirs s
          else (dirs s ++ [dirname])%list
      | None => dirs s
      end in
    let fullname := (filename ++ ".json")%string in
    match write_error w fullname with
    | Some err =>
        (Rejected err,
         {| instruments := instruments s; dirs := dirs; files := files s |})
    | None =>
        (Resolved tt,
         {| instruments := instruments s; dirs := dirs;
            files := set (files s) fullname (JsonText (Json.reparse data)) |})
    end.

(** [getLoginUrl]. *)
Definition getLoginUrl (w : World) : string := KiteConnect.getLoginURL (kite w).

(** [generateSession]; the secret is the broker's. *)
Definition generateSession (w : World) (token : option string)
  : Outcome Session.t :=
  KiteConnect.generateSession (kite w) token.

(** [downloadInstruments]. *)
Definition downloadInstruments (w : World) : Async Json.t :=
  await (lift (KiteConnect.getInstruments (kite w) "NSE")) (fun l =>
  await (assign (Json.Instruments l)) (fun instruments =>
  await (writeFile w "instruments" instruments) (fun _ =>
  ret instruments))).

(** [getInstruments]: the body of [if (!instruments)], then the whole
    function. *)
Definition loadInstruments (w : World) : Async Json.t :=
  try_catch (await (readFile "instrument") assign)
    (fun _ => await (downloadInstruments w) assign).

Definition getInstruments (w : World) : Async Json.t :=
  fun s =>
    match instruments s with
    | Some v => if Json.truthy v then ret v s else loadInstruments w s
    | None => loadInstruments w s
    end.

(** [(d1, d2) => new Date(d2.date) - new Date(d1.date)]: the bars are
    daily, and two time stamps are ordered as their days. *)
Definition byTime (d1 d2 : Bar.t) : comparison :=
  Moment.compare (Bar.date d2) (Bar.date d1).

(** [downloadHistoricalData]. *)
Definition downloadHistoricalData (w : World)
  (symbol startDate endDate : string) : Async unit :=
  await (getInstruments w) (fun list =>
  await (lift (Json.find list symbol)) (fun found =>
  match found with
  | None => ret tt
  | Some instrument =>
      await (lift (KiteConnect.getHistoricalData (kite w)
                     (InstrumentInfo.instrument_token instrument)
                     "day" startDate endDate false)) (fun data =>
      let ohlc := sort byTime data in
      let year := moment_YYYY w endDate in
      writeFile w (year ++ "/" ++ symbol)%string (Json.Series instrument ohlc))
  end)).

(** [downloadAllNfoStockHistoricalData]: the promises of the array.  The
    timers are all set at once and fire 500 ms apart, in the order of
    [nfoStocks], so every download runs, whether or not another one
    fails.  The downloads are taken one after the other, in that order:
    each writes the file of its own symbol, and the list of instruments
    they share is the same whoever loads it, so that the state left when
    all have settled is the one given here. *)
Fixpoint downloads (w : World) (symbols : list string)
  (startDate endDate : string) (s : State) : list (Outcome unit) * State :=
  match symbols with
  | [] => ([], s)
  | symbol :: rest =>
      let '(promise, s1) := downloadHistoricalData w symbol startDate endDate s in
      let '(promises, s2) := downloads w rest startDate endDate s1 in
      (promise :: promises, s2)
  end.

(** [downloadAllNfoStockHistoricalData], for the universe [nfoStocks] of
    [config.js]. *)
Definition downloadAllNfoStockHistoricalData (w : World)
  (nfoStocks : list string) (startDate endDate : string) : Async unit :=
  fun s =>
    let '(promises, s') := downloads w nfoStocks startDate endDate s in
    (_ <- Promise_all promises ;; Resolved tt, s').

(** [downloadAllNfoStockHistoricalDataPerYear]. *)
Definition downloadAllNfoStockHistoricalDataPerYear (w : World)
  (nfoStocks : list string) (year : string) : Async unit :=
  let '(startDate, endDate) := year_range w year in
  downloadAllNfoStockHistoricalData w nfoStocks startDate endDate.

(** The directory [data/] of a state, as [backtest.js] reads it.  A JSON
    value other than a series has no [ohlc]: [runTest] throws a
    [TypeError] on [instrument.ohlc.length]. *)
Definition mount (w : World) (s : State) : FileSystem :=
  {| fs_read := fun path =>
       match get (files s) path with
       | None => ReadError (FsError path)
       | Some Garbled => Malformed
       | Some (JsonText (Json.Series _ ohlc)) => Json {| Instrument.ohlc := ohlc |}
       | Some (JsonText _) => ReadError TypeError
       end;
     fs_write := write_error w |}.

End kite_helpers.

(** The collaborators of a run of [runBacktest] in a process of state
    [s]: the download leaves the directory of the state it ends in. *)
Definition env_of (w : World) (universe : list string) (s : State) : Env :=
  {| nfoStocks := universe;
     fs := kite_helpers.mount w s;
     downloadAllNfoStockHistoricalDataPerYear := fun year =>
       match kite_helpers.downloadAllNfoStockHistoricalDataPerYear w universe year s with
       | (JS.Resolved _, s') => JS.Resolved (kite_helpers.mount w s')
       | (JS.Rejected e, _) => JS.Rejected e
       | (JS.Uncaught e, _) => JS.Uncaught e
       end |}.

(* ================================================================== *)
(** * index.js *)
(* ================================================================== *)

Module index.
Import JS.

(** What a handler sends. *)
Inductive Response : Type :=
| Send (body : string)                (** [res.send(body)] *)
| SendResults (results : Results.t)   (** [res.send(results)] *)
| Redirect (url : string)             (** [res.redirect(url)] *)
| Unauthorized                        (** [res.status(401).send('Unauthorized')] *)
| BadRequest (err : Error).           (** [res.status(400).send(`Error: ${err.message}`)] *)

(** [!!v] on a query parameter that is absent or a string. *)
Definition truthy (v : option string) : bool :=
  match v with
  | None => false
  | Some EmptyString => false
  | Some _ => true
  end.

(** [GET /]. *)
Definition status : Response := Send "OK".

(** [GET /login]. *)
Definition login (w : World) : Response := Redirect (kite_helpers.getLoginUrl w).

(** [GET /login/callback]: the answer, if one is sent, and the state
    left. *)
Definition login_callback (w : World) (status request_token : option string)
  (s : State) : option Response * State :=
  let unauthorized :=
    match status with
    | Some status => negb (String.eqb status "success")
    | None => true
    end in
  if unauthorized then (Some Unauthorized, s)
  else
    match kite_helpers.generateSession w request_token with
    | Resolved session =>
        let successMessage :=
          (Session.user_name session ++ " logged in successfully at "
           ++ Session.login_time session)%string in
        match kite_helpers.downloadInstruments w s with
        | (Resolved _, s') => (Some (Send successMessage), s')
        | (Rejected err, s') => (Some (BadRequest err), s')
        | (Uncaught _, s') => (None, s')
        end
    | Rejected err => (Some (BadRequest err), s)
    | Uncaught _ => (None, s)
    end.

(** [GET /backtest]: the answer, if one is sent. *)
Definition backtest_route (env : Env) (year shouldDownload : option string)
  : option Response :=
  match backtest.outcome (backtest.runBacktest env year (truthy shouldDownload)) with
  | Resolved results => Some (SendResults results)
  | Rejected err => Some (BadRequest err)
  | Uncaught _ => None
  end.

End index.
(* ================================================================== *)
(** * Further scenarios *)
(* ================================================================== *)

Module Scenarios.
Local Open Scope string_scope.

(** The directory of [Examples.disk], where the CSV export cannot be
    written. *)
Definition csv_locked : FileSystem :=
  {| fs_read := fs_read Examples.disk;
     fs_write := fun path =>
       if String.eqb path "2018/backtest-result.csv"
       then Some (OtherError "EACCES") else None |}.

Definition env (data : FileSystem) (universe : list string) : Env :=
  {| nfoStocks := universe; fs := data;
     downloadAllNfoStockHistoricalDataPerYear := Examples.offline |}.

(** A broker that lists two instruments and sends the bars of
    [Examples.rally], oldest first, for the first one. *)
Definition listing : list InstrumentInfo.t :=
  [{| InstrumentInfo.tradingsymbol := "AAA"; InstrumentInfo.instrument_token := 1 |};
   {| InstrumentInfo.tradingsymbol := "CCC"; InstrumentInfo.instrument_token := 3 |}].

Definition broker : KiteConnect.t :=
  {| KiteConnect.getLoginURL := "https://kite.trade/connect/login";
     KiteConnect.generateSession := fun request_token =>
       match request_token with
       | Some _ =>
           Resolved {| Session.user_name := "trader";
                       Session.login_time := "Mon Jan 01 2018" |}
       | None => Rejected (OtherError "token")
       end;
     KiteConnect.getInstruments := fun _ => Resolved listing;
     KiteConnect.getHistoricalData := fun token _ _ _ _ =>
       if (token =? 1)%Z then Resolved (rev (Instrument.ohlc Examples.rally))
       else Rejected (OtherError "no data") |}.

(** A broker that cannot be reached. *)
Definition unreachable : KiteConnect.t :=
  {| KiteConnect.getLoginURL := "https://kite.trade/connect/login";
     KiteConnect.generateSession := fun _ => Rejected (OtherError "offline");
     KiteConnect.getInstruments := fun _ => Rejected (OtherError "offline");
     KiteConnect.getHistoricalData := fun _ _ _ _ _ =>
       Rejected (OtherError "offline") |}.

Definition world (kite : KiteConnect.t) : World :=
  {| kite := kite; write_error := fun _ => None;
     moment_YYYY := fun _ => "2018";
     year_range := fun year =>
       (year ++ "-01-01 12:00:01", year ++ "-12-31 11:59:59") |}.

(** A world whose [data/] directory is read-only. *)
Definition read_only (kite : KiteConnect.t) : World :=
  {| kite := kite; write_error := fun _ => Some (OtherError "EROFS");
     moment_YYYY := fun _ => "2018";
     year_range := fun year =>
       (year ++ "-01-01 12:00:01", year ++ "-12-31 11:59:59") |}.

(** A process that has just started, on an empty [data/] directory and
    on one where a list was saved. *)
Definition fresh : State := {| instruments := None; dirs := []; files := [] |}.

Definition saved : State :=
  {| instruments := None; dirs := [];
     files := [("instruments.json", JsonText (Json.Instruments listing))] |}.

(** A process after a login: the list is in memory and saved. *)
Definition logged_in : State :=
  {| instruments := Some (Json.Instruments listing); dirs := [];
     files := [("instruments.json", JsonText (Json.Instruments listing))] |}.

End Scenarios.
(* ================================================================== *)
(** * Facts about keys in order of first occurrence *)
(* ================================================================== *)

Module OccurrenceFacts.
Import ObjectFacts.

(** The strings of a list, each once, in the order of their first
    occurrence. *)
Fixpoint distinct (l : list string) : list string :=
  match l with
  | [] => []
  | x :: l' => x :: filter (fun y => negb (String.eqb y x)) (distinct l')
  end.

Definition unseen (seen : list string) (d : string) : bool :=
  negb (existsb (String.eqb d) seen).

Lemma unseen_In (seen : list string) (d : string) :
  unseen seen d = false <-> In d seen.
Proof.
  unfold unseen. rewrite negb_false_iff, existsb_exists. split.
  - intros (x & Hx & E). apply String.eqb_eq in E. now subst.
  - intros H. exists d. split; [assumption|apply String.eqb_refl].
Qed.

Lemma filter_filter {A : Type} (f g : A -> bool) (l : list A) :
  filter f (filter g l) = filter (fun x => g x && f x) l.
Proof.
  induction l as [|x l IH]; [reflexivity|]. cbn [filter].
  destruct (g x); cbn [filter andb]; [destruct (f x)|]; now rewrite IH.
Qed.

Lemma filter_all {A : Type} (l : list A) : filter (fun _ => true) l = l.
Proof. induction l as [|x l IH]; [reflexivity|]. cbn. now rewrite IH. Qed.

Lemma distinct_In (l : list string) (d : string) : In d (distinct l) <-> In d l.
Proof.
  induction l as [|x l IH]; [reflexivity|]. cbn [distinct In].
  rewrite filter_In, IH, negb_true_iff. split.
  - intros [H|[H _]]; auto.
  - intros [H|H]; [now left|].
    destruct (String.eqb d x) eqn:E; [left; symmetry; now apply String.eqb_eq|].
    right. now split.
Qed.

Lemma distinct_NoDup (l : list string) : NoDup (distinct l).
Proof.
  induction l as [|x l IH]; [constructor|]. cbn [distinct]. constructor.
  - rewrite filter_In, String.eqb_refl. intros [_ H]. discriminate.
  - now apply NoDup_filter.
Qed.

(** A fold whose step adds the key of its argument after the keys seen
    so far, unless it is among them, enumerates the keys in the order of
    their first occurrence. *)
Lemma fold_keys_distinct {S A : Type} (step : S -> A -> S)
  (ks : S -> list string) (key : A -> string) :
  (forall s a,
      ks (step s a)
      = (ks s ++ if in_dec string_dec (key a) (ks s) then [] else [key a])%list) ->
  forall l s,
    ks (fold_left step l s)
    = (ks s ++ filter (unseen (ks s)) (distinct (map key l)))%list.
Proof.
  intros Hstep l. induction l as [|a l IH]; intros s.
  - cbn. now rewrite app_nil_r.
  - cbn [fold_left map distinct]. rewrite IH, Hstep. cbn [filter].
    destruct (in_dec string_dec (key a) (ks s)) as [Hin|Hin].
    + rewrite app_nil_r.
      assert (E0 : unseen (ks s) (key a) = false) by now apply unseen_In.
      rewrite E0. f_equal. rewrite filter_filter. apply filter_ext. intros d.
      destruct (String.eqb d (key a)) eqn:E; [|reflexivity].
      apply String.eqb_eq in E. subst d. cbn. now apply unseen_In.
    + assert (E0 : unseen (ks s) (key a) = true).
      { destruct (unseen (ks s) (key a)) eqn:E; [reflexivity|].
        now apply unseen_In in E. }
      rewrite E0, <- app_assoc. cbn [app]. do 2 f_equal.
      rewrite filter_filter. apply filter_ext. intros d.
      unfold unseen. rewrite existsb_app. cbn [existsb]. rewrite orb_false_r.
      rewrite negb_orb. apply andb_comm.
Qed.

Lemma groupByDate_keys_eq (array : list Trade.t) :
  keys (helpers.groupByDate array) = distinct (map Trade.date array).
Proof.
  rewrite GroupFacts.groupByDate_fold.
  rewrite (fold_keys_distinct GroupFacts.step keys Trade.date GroupFacts.step_keys).
  cbn [keys map app]. apply filter_all.
Qed.

Lemma stepMonth_keys (monthlyPnl : object number) (month : string) (t : number) :
  keys (RollupFacts.stepMonth monthlyPnl month t)
  = (keys monthlyPnl
     ++ if in_dec string_dec month (keys monthlyPnl) then [] else [month])%list.
Proof.
  unfold RollupFacts.stepMonth.
  destruct (in_dec string_dec month (keys monthlyPnl)) as [Hin|Hin].
  - rewrite app_nil_r.
    assert (E : get monthlyPnl month <> None) by (now rewrite get_None; auto).
    assert (Hk : keys (if negb (truthy (get monthlyPnl month))
                       then set monthlyPnl month 0 else monthlyPnl)
                 = keys monthlyPnl).
    { destruct (negb _); [|reflexivity]. now apply keys_set_old. }
    rewrite keys_set_old; [assumption|].
    destruct (negb _); [rewrite get_set_same; discriminate|assumption].
  - apply get_None in Hin. rewrite Hin. cbn [truthy negb].
    rewrite (set_new _ _ _ Hin), (set_last _ _ _ _ Hin), keys_app. reflexivity.
Qed.

Lemma monthly_keys_eq (allTradesByDates : object (list Trade.t))
  (dates : list string) :
  keys (fold_left (RollupFacts.stepDate allTradesByDates) dates [])
  = distinct (map Spec.monthLabel dates).
Proof.
  rewrite (fold_keys_distinct (RollupFacts.stepDate allTradesByDates) keys
             Spec.monthLabel).
  - cbn [keys map app]. apply filter_all.
  - intros s a. apply stepMonth_keys.
Qed.

Lemma set_concat {A : Type} (o : object (list A)) (k : string) (b : list A) (x : A) :
  get o k = Some b ->
  Permutation (List.concat (map snd (set o k (b ++ [x])%list)))
    (List.concat (map snd o) ++ [x]).
Proof.
  induction o as [|[k' v] o IH]; [discriminate|]. cbn [get set].
  destruct (String.eqb k k').
  - intros [= ->]. cbn [map snd List.concat].
    rewrite <- !app_assoc. apply Permutation_app_head, Permutation_app_comm.
  - intros H. cbn [map snd List.concat]. rewrite <- app_assoc.
    apply Permutation_app_head. now apply IH.
Qed.

Lemma step_concat (acc : object (list Trade.t)) (item : Trade.t) :
  Permutation (List.concat (map snd (GroupFacts.step acc item)))
    (List.concat (map snd acc) ++ [item]).
Proof.
  rewrite GroupFacts.step_eq. destruct (get acc (Trade.date item)) as [b|] eqn:E.
  - now apply set_concat.
  - rewrite map_app, concat_app. cbn. reflexivity.
Qed.

Lemma fold_step_concat (array : list Trade.t) (acc : object (list Trade.t)) :
  Permutation (List.concat (map snd (fold_left GroupFacts.step array acc)))
    (List.concat (map snd acc) ++ array).
Proof.
  revert acc. induction array as [|item array IH]; intros acc.
  - cbn. now rewrite app_nil_r.
  - cbn [fold_left]. rewrite IH, step_concat, <- app_assoc. reflexivity.
Qed.

Lemma groupByDate_concat (array : list Trade.t) :
  Permutation (List.concat (map snd (helpers.groupByDate array))) array.
Proof.
  rewrite GroupFacts.groupByDate_fold. apply (fold_step_concat array []).
Qed.

End OccurrenceFacts.

(* ================================================================== *)
(** * Facts about the candidates of one series *)
(* ================================================================== *)

Module SeriesFacts.

Lemma emit_length (symbol : string) (w : Spec.window) :
  (List.length (Spec.emit symbol w) <= 1)%nat.
Proof.
  destruct w as [[[[d0 d1] d2] d3] d4]. unfold Spec.emit.
  destruct (Spec.entryCondition d1 d2 d3 d4); cbn; lia.
Qed.

Lemma detector_length (symbol : string) (ohlc : list Bar.t) :
  (List.length (Spec.detector symbol ohlc) <= List.length ohlc - 4)%nat.
Proof.
  rewrite <- DetectorFacts.windows_length. unfold Spec.detector.
  induction (Spec.windows ohlc) as [|w ws IH]; [cbn; lia|].
  cbn [flat_map]. rewrite length_app. pose proof (emit_length symbol w).
  cbn [List.length]. lia.
Qed.

Lemma format_inj (a b : Moment.t) :
  Moment.isValid a = true -> Moment.isValid b = true ->
  Moment.format_DD_MM_YYYY a = Moment.format_DD_MM_YYYY b -> a = b.
Proof.
  intros Ha Hb H. apply MomentFacts.parse_format in Ha, Hb.
  rewrite H in Ha. congruence.
Qed.

(** A candidate sits on a bar that has a successor and three
    predecessors in the series. *)
Lemma detector_position (symbol : string) (ohlc : list Bar.t) (t : Trade.t) :
  In t (Spec.detector symbol ohlc) ->
  exists i d0 d1 d2,
    (i + 4 < List.length ohlc)%nat
    /\ nth_error ohlc i = Some d0 /\ nth_error ohlc (i + 1) = Some d1
    /\ nth_error ohlc (i + 2) = Some d2
    /\ t = Spec.candidate symbol d0 d1 d2.
Proof.
  intros H. apply DetectorFacts.detector_In in H.
  destruct H as (d0 & d1 & d2 & d3 & d4 & Hw & _ & ->).
  apply In_nth_error in Hw. destruct Hw as [i Hi].
  apply DetectorFacts.windows_nth in Hi.
  destruct Hi as (H0 & H1 & H2 & _ & H4).
  exists i, d0, d1, d2. repeat split; try assumption.
  apply nth_error_Some. congruence.
Qed.

Lemma detector_dates_tl (symbol : string) (ohlc : list Bar.t) (t : Trade.t) :
  In t (Spec.detector symbol ohlc) ->
  In (Trade.date t)
    (map (fun b => Moment.format_DD_MM_YYYY (Bar.date b)) (tl ohlc)).
Proof.
  intros H. apply detector_position in H.
  destruct H as (i & d0 & d1 & d2 & _ & _ & H1 & _ & ->).
  cbn [Spec.candidate Trade.date]. apply in_map_iff. exists d1.
  split; [reflexivity|].
  destruct ohlc as [|b l]; [destruct i; discriminate|]. cbn [tl].
  replace (i + 1)%nat with (S i) in H1 by lia. cbn in H1.
  now apply nth_error_In in H1.
Qed.

Lemma detector_NoDup (symbol : string) (ohlc : list Bar.t) :
  NoDup (map (fun b => Moment.format_DD_MM_YYYY (Bar.date b)) (tl ohlc)) ->
  NoDup (map Trade.date (Spec.detector symbol ohlc)).
Proof.
  unfold Spec.detector.
  induction ohlc as [|d0 rest IH]; intros Hnd; [constructor|].
  destruct rest as [|d1 [|d2 [|d3 [|d4 r]]]]; try constructor.
  change (Spec.windows (d0 :: d1 :: d2 :: d3 :: d4 :: r))
    with ((d0, d1, d2, d3, d4) :: Spec.windows (d1 :: d2 :: d3 :: d4 :: r)).
  cbn [flat_map]. rewrite map_app.
  cbn [tl] in Hnd. change (map _ (d1 :: ?l)) with
    (Moment.format_DD_MM_YYYY (Bar.date d1)
     :: map (fun b => Moment.format_DD_MM_YYYY (Bar.date b)) l) in Hnd.
  inversion Hnd as [|x l Hx Hl]; subst.
  specialize (IH Hl).
  unfold Spec.emit at 1. destruct (Spec.entryCondition d1 d2 d3 d4).
  - cbn [map app Spec.candidate Trade.date]. constructor; [|assumption].
    intros Hin. apply Hx. apply in_map_iff in Hin.
    destruct Hin as (t & <- & Ht).
    apply (detector_dates_tl symbol (d1 :: d2 :: d3 :: d4 :: r) t Ht).
  - assumption.
Qed.

Lemma format_NoDup (l : list Bar.t) :
  Forall (fun b => Moment.isValid (Bar.date b) = true) l ->
  NoDup (map Bar.date l) ->
  NoDup (map (fun b => Moment.format_DD_MM_YYYY (Bar.date b)) l).
Proof.
  intros Hv Hnd. rewrite <- (map_map Bar.date Moment.format_DD_MM_YYYY).
  rewrite Forall_forall in Hv.
  assert (Hv' : forall d, In d (map Bar.date l) -> Moment.isValid d = true).
  { intros d Hd. apply in_map_iff in Hd. destruct Hd as (b & <- & Hb). auto. }
  clear Hv. induction (map Bar.date l) as [|d ds IH]; [constructor|].
  inversion Hnd as [|x xs Hx Hxs]; subst. cbn [map]. constructor.
  - intros Hin. apply in_map_iff in Hin. destruct Hin as (d' & E & Hd').
    apply format_inj in E; [subst; contradiction| |]; apply Hv'; cbn; auto.
  - apply IH; [assumption|]. intros d' Hd'. apply Hv'. now right.
Qed.

End SeriesFacts.

(* ================================================================== *)
(** * Facts about a whole run *)
(* ================================================================== *)

Module RunFacts.

Lemma Promise_all_map {A B : Type} (f : A -> Outcome B) (g : A -> B)
  (xs : list A) :
  (forall x, In x xs -> f x = Resolved (g x)) ->
  Promise_all (map f xs) = Resolved (map g xs).
Proof.
  induction xs as [|x xs IH]; intros H; [reflexivity|].
  cbn [map Promise_all]. rewrite (H x) by now left. cbn [bind].
  rewrite IH by (intros y Hy; apply H; now right). reflexivity.
Qed.

Lemma concat_map_nil {A B : Type} (l : list A) :
  List.concat (map (fun _ => @nil B) l) = [].
Proof. induction l as [|x l IH]; [reflexivity|exact IH]. Qed.

Lemma Promise_all_exists {A B : Type} (f : A -> Outcome B) (xs : list A) :
  (forall x, In x xs -> exists b, f x = Resolved b) ->
  exists l, Promise_all (map f xs) = Resolved l.
Proof.
  induction xs as [|x xs IH]; intros H; [now exists []|].
  destruct (H x) as [b Hb]; [now left|].
  destruct IH as [l Hl]; [intros y Hy; apply H; now right|].
  exists (b :: l). cbn [map Promise_all]. now rewrite Hb, Hl.
Qed.

Lemma runTest_readable (data : FileSystem) (year symbol : string) :
  (exists ts, backtest.runTest data year symbol = Resolved ts) <->
  exists instrument,
    helpers.readFile data (year ++ "/" ++ symbol)%string = Resolved instrument.
Proof.
  split.
  - intros [ts H]. destruct (ScanFacts.runTest_Resolved _ _ _ _ H) as (i & Hi & _).
    now exists i.
  - intros [i Hi]. eexists. apply (DetectorFacts.runTest_detector _ _ _ _ Hi).
Qed.

Lemma scan_readable (data : FileSystem) (year : string) (universe : list string) :
  (exists l,
      Promise_all (map (fun symbol => backtest.runTest data year symbol) universe)
      = Resolved l) <->
  forall symbol, In symbol universe ->
    exists instrument,
      helpers.readFile data (year ++ "/" ++ symbol)%string = Resolved instrument.
Proof.
  split.
  - intros [l Hl] symbol Hin. apply runTest_readable.
    apply (ScanFacts.Promise_all_In _ _ _ symbol Hl Hin).
  - intros H. apply Promise_all_exists. intros symbol Hin.
    apply runTest_readable. now apply H.
Qed.

(** The files a run writes, once its scan is fulfilled. *)
Definition report (data : FileSystem) (year : string) (allTrades : list Trade.t)
  : backtest.Run :=
  let '(results, csv) := backtest.computation allTrades in
  match helpers.writeFile data (year ++ "/backtest-result")%string (JsonData results) with
  | Resolved w1 =>
      match helpers.writeFile data (year ++ "/backtest-result.csv")%string (TextData csv) with
      | Resolved w2 => {| backtest.outcome := Resolved results; backtest.written := [w1; w2] |}
      | Rejected e => {| backtest.outcome := Rejected e; backtest.written := [w1] |}
      | Uncaught e => {| backtest.outcome := Uncaught e; backtest.written := [w1] |}
      end
  | Rejected e => {| backtest.outcome := Rejected e; backtest.written := [] |}
  | Uncaught e => {| backtest.outcome := Uncaught e; backtest.written := [] |}
  end.

Lemma runBacktest_scan (env : Env) (year : string)
  (tradesPerStock : list (list Trade.t)) :
  Promise_all
    (map (fun symbol => backtest.runTest (fs env) year symbol) (nfoStocks env))
  = Resolved tradesPerStock ->
  backtest.runBacktest env (Some year) false
  = report (fs env) year (List.concat tradesPerStock).
Proof. intros H. unfold backtest.runBacktest, report. now rewrite H. Qed.

Lemma report_eq (data : FileSystem) (year : string) (allTrades : list Trade.t) :
  let results := fst (backtest.computation allTrades) in
  let csv := snd (backtest.computation allTrades) in
  let json := ((year ++ "/backtest-result") ++ ".json")%string in
  report data year allTrades
  = match fs_write data json with
    | Some e => {| backtest.outcome := Rejected e; backtest.written := [] |}
    | None =>
        match fs_write data (year ++ "/backtest-result.csv")%string with
        | Some e => {| backtest.outcome := Rejected e;
                       backtest.written := [(json, JsonData results)] |}
        | None => {| backtest.outcome := Resolved results;
                     backtest.written :=
                       [(json, JsonData results);
                        ((year ++ "/backtest-result.csv")%string, TextData csv)] |}
        end
    end.
Proof.
  unfold report. destruct (backtest.computation allTrades) as [results csv].
  cbn [fst snd]. unfold helpers.writeFile.
  destruct (fs_write data _); [reflexivity|].
  destruct (fs_write data _); reflexivity.
Qed.

(** What it takes for a run to be fulfilled. *)
Lemma fulfilled_iff (env : Env) (year : string) (shouldDownload : bool) :
  (exists results,
      backtest.outcome (backtest.runBacktest env (Some year) shouldDownload)
      = Resolved results)
  <-> exists data,
        (if shouldDownload
         then downloadAllNfoStockHistoricalDataPerYear env year
         else Resolved (fs env)) = Resolved data
        /\ (forall symbol, In symbol (nfoStocks env) ->
              exists instrument,
                helpers.readFile data (year ++ "/" ++ symbol)%string
                = Resolved instrument)
        /\ fs_write data ((year ++ "/backtest-result") ++ ".json")%string = None
        /\ fs_write data (year ++ "/backtest-result.csv")%string = None.
Proof.
  unfold backtest.runBacktest.
  destruct (if shouldDownload
            then downloadAllNfoStockHistoricalDataPerYear env year
            else Resolved (fs env)) as [data|e|e].
  2,3: split; [intros [r H]; discriminate|intros (d & H & _); discriminate].
  pose proof (scan_readable data year (nfoStocks env)) as Hscan.
  destruct (Promise_all _) as [tradesPerStock|e|e].
  - destruct (backtest.computation _) as [results csv].
    unfold helpers.writeFile.
    destruct (fs_write data ((year ++ "/backtest-result") ++ ".json")%string)
      eqn:W1.
    + split; [intros [r H]; discriminate|].
      intros (d & [= <-] & _ & H & _). congruence.
    + destruct (fs_write data (year ++ "/backtest-result.csv")%string) eqn:W2.
      * split; [intros [r H]; discriminate|].
        intros (d & [= <-] & _ & _ & H). congruence.
      * split; [|intros _; eexists; reflexivity]. intros _. exists data.
        split; [reflexivity|]. split; [|split; assumption].
        apply Hscan. eauto.
  - split; [intros [r H]; discriminate|].
    intros (d & [= <-] & H & _). apply Hscan in H. destruct H. discriminate.
  - split; [intros [r H]; discriminate|].
    intros (d & [= <-] & H & _). apply Hscan in H. destruct H. discriminate.
Qed.

Lemma topTwo_In (allTrades : list Trade.t) (date : string) (t : Trade.t) :
  In t (backtest.topTwo (helpers.groupByDate allTrades) date) ->
  In t allTrades /\ Trade.date t = date.
Proof.
  unfold backtest.topTwo, slice0. intros H.
  assert (H' : In t (sort backtest.byChange
                       (backtest.get_array (helpers.groupByDate allTrades) date))).
  { rewrite <- (firstn_skipn 2 (sort _ _)). apply in_or_app. now left. }
  clear H. rename H' into H. apply SortFacts.sort_In in H.
  rewrite GroupFacts.groupByDate_get in H. apply filter_In in H.
  destruct H as [H E]. split; [assumption|now apply String.eqb_eq].
Qed.

End RunFacts.
(* ================================================================== *)
(** * Facts about the sign of rounded values *)
(* ================================================================== *)

Module SignFacts.
Import FloatOrder.
Local Open Scope Z_scope.

(** The values other than [NaN] whose sign bit is [s]. *)
Definition sign_bit (s : bool) (x : spec_float) : Prop :=
  x = S754_zero s \/ signed s x.

Lemma shr_nonneg (r : shr_record) (e n : Z) :
  0 <= shr_m r -> 0 <= shr_m (fst (shr r e n)).
Proof.
  intros H. unfold shr. destruct n as [|p|p]; cbn [fst]; try assumption.
  rewrite iter_shr_1_m by assumption. apply Z.div_pos; lia.
Qed.

Lemma shr_fexp_nonneg (m e : Z) (l : location) :
  0 <= m -> 0 <= shr_m (fst (shr_fexp prec emax m e l)).
Proof.
  intros H. unfold shr_fexp. apply shr_nonneg. now rewrite shr_record_of_loc_m.
Qed.

Lemma round_nearest_even_nonneg (m : Z) (l : location) :
  0 <= m -> 0 <= round_nearest_even m l.
Proof.
  intros H. destruct l as [|[]]; cbn [round_nearest_even]; try lia.
  destruct (Z.even m); lia.
Qed.

(** Rounding keeps the sign bit, whatever is left of the mantissa. *)
Lemma binary_round_aux_sign (s : bool) (m e : Z) (l : location) :
  0 <= m -> sign_bit s (binary_round_aux prec emax s m e l).
Proof.
  intros Hm. unfold binary_round_aux.
  pose proof (shr_fexp_nonneg m e l Hm) as H1.
  destruct (shr_fexp prec emax m e l) as [mrs1 e1]. cbn [fst] in H1.
  pose proof (shr_fexp_nonneg _ e1 loc_Exact
                (round_nearest_even_nonneg _ (loc_of_shr_record mrs1) H1)) as H2.
  destruct (shr_fexp prec emax (round_nearest_even _ _) e1 loc_Exact) as [mrs2 e2].
  cbn [fst] in H2.
  destruct (shr_m mrs2) as [|p|p]; [now left| |lia].
  right. destruct (e2 <=? emax - prec); [right; eauto|now left].
Qed.

Lemma div_core_nonneg (mx my : positive) (ex ey : Z) :
  0 <= fst (fst (SFdiv_core_binary prec emax (Zpos mx) ex (Zpos my) ey)).
Proof.
  unfold SFdiv_core_binary.
  set (s := ex - ey - _).
  set (m' := match s with Z0 => Zpos mx | Zpos _ => Z.shiftl (Zpos mx) s | Zneg _ => 0 end).
  assert (Hm' : 0 <= m').
  { unfold m'. destruct s; try lia. apply Z.shiftl_nonneg. lia. }
  pose proof (Z_div_mod m' (Zpos my) ltac:(lia)) as H.
  destruct (Z.div_eucl m' (Zpos my)) as [q r]. cbn [fst]. nia.
Qed.

Lemma mul_sign (s1 s2 : bool) (x y : spec_float) :
  sign_bit s1 x -> sign_bit s2 y ->
  SF64mul x y = S754_nan \/ sign_bit (xorb s1 s2) (SF64mul x y).
Proof.
  unfold sign_bit, signed.
  intros [->|[->|(m1 & e1 & ->)]] [->|[->|(m2 & e2 & ->)]];
    cbn [SF64mul SFmul]; auto; try (right; left; reflexivity);
    try (right; right; left; reflexivity).
  right. apply binary_round_aux_sign. lia.
Qed.

Lemma mul_finite_sign (s1 s2 : bool) (x : spec_float) (m : positive) (e : Z) :
  sign_bit s1 x -> sign_bit (xorb s1 s2) (SF64mul x (S754_finite s2 m e)).
Proof.
  unfold sign_bit, signed. intros [->|[->|(m1 & e1 & ->)]]; cbn [SF64mul SFmul].
  - now left.
  - right. now left.
  - apply binary_round_aux_sign. lia.
Qed.

Lemma div_finite_sign (s1 s2 : bool) (x : spec_float) (m : positive) (e : Z) :
  sign_bit s1 x -> sign_bit (xorb s1 s2) (SF64div x (S754_finite s2 m e)).
Proof.
  unfold sign_bit, signed. intros [->|[->|(m1 & e1 & ->)]]; cbn [SF64div SFdiv].
  - now left.
  - right. now left.
  - pose proof (div_core_nonneg m1 m e1 e) as H.
    destruct (SFdiv_core_binary prec emax (Zpos m1) e1 (Zpos m) e) as [[q e'] l].
    cbn [fst] in H. now apply binary_round_aux_sign.
Qed.

Lemma binary_round_aux_opp (s : bool) (m e : Z) (l : location) :
  binary_round_aux prec emax (negb s) m e l
  = SFopp (binary_round_aux prec emax s m e l).
Proof.
  unfold binary_round_aux.
  destruct (shr_fexp prec emax m e l) as [mrs1 e1].
  destruct (shr_fexp prec emax (round_nearest_even _ _) e1 loc_Exact) as [mrs2 e2].
  destruct (shr_m mrs2); try reflexivity.
  destruct (e2 <=? emax - prec); reflexivity.
Qed.

Lemma valid_opp (x : spec_float) :
  valid_binary (SFopp x) = valid_binary x.
Proof. destruct x; reflexivity. Qed.

Lemma valid_normalize_nonneg (n : Z) :
  0 <= n < 2 ^ 63 -> valid_binary (binary_normalize prec emax n 0 false) = true.
Proof.
  intros H.
  assert (E : Uint63Axioms.to_Z (Uint63Axioms.of_Z n) = n)
    by (rewrite Uint63.of_Z_spec; now apply Z.mod_small).
  rewrite <- E, <- of_uint63_spec. apply Prim2SF_valid.
Qed.

Lemma valid_normalize (n : Z) :
  - 2 ^ 63 < n < 2 ^ 63 -> valid_binary (binary_normalize prec emax n 0 false) = true.
Proof.
  intros H. destruct n as [|p|p].
  - reflexivity.
  - apply valid_normalize_nonneg. lia.
  - pose proof (valid_normalize_nonneg (Zpos p) ltac:(lia)) as Hv.
    cbn [binary_normalize] in Hv |- *. unfold binary_round in Hv |- *.
    destruct (shl_align p 0 _) as [mz ez].
    change true with (negb false) at 1.
    now rewrite binary_round_aux_opp, valid_opp.
Qed.

(** The Number value of a non-zero integer has the sign of the integer. *)
Lemma of_Z_sign (n : Z) :
  - 2 ^ 63 < n < 2 ^ 63 -> n <> 0 ->
  signed (n <? 0) (Prim2SF (JS.of_Z n)).
Proof.
  intros H Hn. unfold JS.of_Z. rewrite Prim2SF_SF2Prim by now apply valid_normalize.
  destruct n as [|p|p]; [contradiction| |]; cbn [binary_normalize];
    apply binary_round_signed; lia.
Qed.

Lemma Math_round_sign (s : bool) (x : float) :
  sign_bit s (Prim2SF x) -> sign_bit s (Prim2SF (JS.Math_round x)).
Proof.
  intros H. unfold JS.Math_round.
  destruct (Prim2SF x) as [s0|s0| |s0 m e] eqn:E; try (rewrite E; assumption).
  destruct (0 <=? e) eqn:He; [rewrite E; assumption|].
  apply Z.leb_gt in He.
  assert (Hs : s0 = s).
  { destruct H as [H|[H|(m' & e' & H)]]; congruence. }
  subst s0.
  pose proof (Prim2SF_valid x) as Hv. rewrite E in Hv. cbn in Hv.
  apply bounded_inv in Hv. destruct Hv as (Hd & _ & _).
  pose proof (digits2_pos_bounds m) as Hm.
  assert (Hm53 : Zpos m < 2 ^ 53).
  { apply Z.lt_le_trans with (2 ^ Zpos (digits2_pos m)); [lia|].
    apply Z.pow_le_mono_r; lia. }
  set (v := if s then Zneg m else Zpos m).
  rewrite Z.shiftr_div_pow2 by lia.
  replace (1 - e) with (1 + - e) by lia.
  rewrite Z.pow_add_r by lia. change (2 ^ 1) with 2.
  assert (HP : 0 < 2 ^ (- e)) by (apply Z.pow_pos_nonneg; lia).
  set (P := 2 ^ (- e)) in *.
  pose proof (Z.div_mod (2 * v + P) (2 * P) ltac:(lia)) as Hdm.
  pose proof (Z.mod_pos_bound (2 * v + P) (2 * P) ltac:(lia)) as Hb.
  set (n := (2 * v + P) / (2 * P)) in *.
  assert (Hn : if s then - 2 ^ 53 < n <= 0 else 0 <= n <= 2 ^ 53).
  { unfold v in *. destruct s; split; nia. }
  destruct (n =? 0) eqn:En.
  - left. destruct s; reflexivity.
  - apply Z.eqb_neq in En. right.
    replace s with (n <? 0).
    + apply of_Z_sign; [destruct s; lia|assumption].
    + destruct s; [apply Z.ltb_lt|apply Z.ltb_ge]; lia.
Qed.

Lemma round_sign (s : bool) (x : float) :
  sign_bit s (Prim2SF x) -> sign_bit s (Prim2SF (helpers.round x)).
Proof.
  intros H. unfold helpers.round.
  rewrite div_spec, NumberFacts.Prim2SF_100.
  rewrite <- (xorb_false_r s). apply div_finite_sign.
  apply Math_round_sign. rewrite mul_spec, NumberFacts.Prim2SF_100.
  rewrite <- (xorb_false_r s). now apply mul_finite_sign.
Qed.

Lemma sign_bit_not_nan (s : bool) (x : float) :
  sign_bit s (Prim2SF x) -> is_nan x = false.
Proof.
  intros H. apply NumberOrder.is_nan_false.
  destruct H as [H|[H|(m & e & H)]]; congruence.
Qed.

Lemma sign_bit_false_ltb (x : float) :
  sign_bit false (Prim2SF x) -> (x <? 0)%float = false.
Proof.
  intros H. rewrite FloatAxioms.ltb_spec.
  change (Prim2SF 0) with (S754_zero false).
  destruct H as [->|[->|(m & e & ->)]]; reflexivity.
Qed.

Lemma sign_bit_true_ltb (x : float) :
  sign_bit true (Prim2SF x) -> (0 <? x)%float = false.
Proof.
  intros H. rewrite FloatAxioms.ltb_spec.
  change (Prim2SF 0) with (S754_zero false).
  destruct H as [->|[->|(m & e & ->)]]; reflexivity.
Qed.

Lemma ltb_zero_signed (x : float) :
  (x <? 0)%float = true <-> signed true (Prim2SF x).
Proof.
  rewrite FloatAxioms.ltb_spec. change (Prim2SF 0) with (S754_zero false).
  unfold signed.
  destruct (Prim2SF x) as [s|[]| |[] m e]; cbn; split;
    try discriminate; try (intros [H|(m' & e' & H)]; discriminate); eauto.
Qed.

Lemma zero_ltb_signed (x : float) :
  (0 <? x)%float = true <-> signed false (Prim2SF x).
Proof.
  rewrite FloatAxioms.ltb_spec. change (Prim2SF 0) with (S754_zero false).
  unfold signed.
  destruct (Prim2SF x) as [s|[]| |[] m e]; cbn; split;
    try discriminate; try (intros [H|(m' & e' & H)]; discriminate); eauto.
Qed.

Lemma sign_bit_cases (x : spec_float) :
  x = S754_nan \/ sign_bit false x \/ sign_bit true x.
Proof.
  unfold sign_bit, signed.
  destruct x as [[]|[]| |[] m e]; eauto 7.
Qed.

End SignFacts.
(* ================================================================== *)
(** * Facts about the sign of a percentage change *)
(* ================================================================== *)

Module ChangeFacts.
Import FloatOrder SignFacts.

(** [NaN], or a value of sign bit [s]. *)
Definition nan_or_sign (s : bool) (x : spec_float) : Prop :=
  x = S754_nan \/ sign_bit s x.

Lemma div_sign (s1 s2 : bool) (x y : spec_float) :
  sign_bit s1 x -> sign_bit s2 y -> nan_or_sign (xorb s1 s2) (SF64div x y).
Proof.
  intros Hx [->|[->|(m & e & ->)]].
  - destruct Hx as [->|[->|(m1 & e1 & ->)]]; cbn [SF64div SFdiv].
    + now left.
    + right. right. now left.
    + right. right. now left.
  - destruct Hx as [->|[->|(m1 & e1 & ->)]]; cbn [SF64div SFdiv].
    + right. now left.
    + now left.
    + right. now left.
  - right. now apply div_finite_sign.
Qed.

Lemma round_nan_or_sign (s : bool) (x : float) :
  nan_or_sign s (Prim2SF x) -> nan_or_sign s (Prim2SF (helpers.round x)).
Proof.
  intros [H|H]; [left; now apply NumberFacts.round_nan|right; now apply round_sign].
Qed.

Lemma mul_100_nan_or_sign (s : bool) (x : float) :
  nan_or_sign s (Prim2SF x) -> nan_or_sign s (Prim2SF (x * 100)).
Proof.
  rewrite mul_spec, NumberFacts.Prim2SF_100. intros [->|H]; [now left|right].
  rewrite <- (xorb_false_r s). now apply mul_finite_sign.
Qed.

Lemma signed_sign_bit (s : bool) (x : spec_float) : signed s x -> sign_bit s x.
Proof. intros H. now right. Qed.

Lemma nan_or_sign_true_not_positive (x : float) :
  nan_or_sign true (Prim2SF x) -> (0 <? x) = false.
Proof.
  intros [H|H]; [|now apply sign_bit_true_ltb].
  rewrite FloatAxioms.ltb_spec, H. reflexivity.
Qed.

Lemma ltb_ord (a b : float) :
  (a <? b) = true ->
  Prim2SF a <> S754_nan /\ Prim2SF b <> S754_nan
  /\ (ord (Prim2SF a) < ord (Prim2SF b))%Z.
Proof.
  intros H.
  assert (Ha : is_nan a = false).
  { destruct (is_nan a) eqn:E; [|reflexivity].
    rewrite FloatAxioms.ltb_spec in H.
    assert (En : Prim2SF a = S754_nan).
    { destruct (Prim2SF a) eqn:E'; try reflexivity;
        assert (E0 : is_nan a = false)
          by (apply NumberOrder.is_nan_false; rewrite E'; discriminate);
        congruence. }
    rewrite En in H. discriminate. }
  assert (Hb : is_nan b = false).
  { destruct (is_nan b) eqn:E; [|reflexivity].
    rewrite FloatAxioms.ltb_spec in H.
    assert (En : Prim2SF b = S754_nan).
    { destruct (Prim2SF b) eqn:E'; try reflexivity;
        assert (E0 : is_nan b = false)
          by (apply NumberOrder.is_nan_false; rewrite E'; discriminate);
        congruence. }
    rewrite En in H. destruct (Prim2SF a); discriminate. }
  rewrite (NumberOrder.ltb_key a b Ha Hb) in H. apply Z.ltb_lt in H.
  split; [now apply NumberOrder.is_nan_false|].
  split; [now apply NumberOrder.is_nan_false|exact H].
Qed.

(** The relative change from [a] to [b], before the scaling to a
    percentage and the rounding. *)
Lemma quotient_sign (a b : float) (s : bool) :
  sign_bit s (Prim2SF a) ->
  ((a <? b) = true -> nan_or_sign s (Prim2SF ((b - a) / a)))
  /\ ((b <? a) = true -> nan_or_sign (negb s) (Prim2SF ((b - a) / a))).
Proof.
  intros Hs. split; intros H; apply ltb_ord in H; destruct H as (Hx & Hy & Ho);
    rewrite div_spec, sub_spec.
  - pose proof (SF64sub_ord (Prim2SF b) (Prim2SF a) (Prim2SF_valid b)
                  (Prim2SF_valid a) Hy Hx) as Hsub.
    replace (ord (Prim2SF b) ?= ord (Prim2SF a))%Z with Gt in Hsub
      by (symmetry; apply Z.compare_gt_iff; lia).
    apply signed_sign_bit in Hsub.
    apply (div_sign false s _ _ Hsub Hs).
  - pose proof (SF64sub_ord (Prim2SF b) (Prim2SF a) (Prim2SF_valid b)
                  (Prim2SF_valid a) Hx Hy) as Hsub.
    replace (ord (Prim2SF b) ?= ord (Prim2SF a))%Z with Lt in Hsub
      by (symmetry; apply Z.compare_lt_iff; lia).
    apply signed_sign_bit in Hsub.
    replace (negb s) with (xorb true s) by (destruct s; reflexivity).
    apply (div_sign true s _ _ Hsub Hs).
Qed.

Lemma percentChange_sign (a b : float) (s : bool) :
  sign_bit s (Prim2SF a) ->
  ((a <? b) = true -> nan_or_sign s (Prim2SF (helpers.percentChange a b)))
  /\ ((b <? a) = true -> nan_or_sign (negb s) (Prim2SF (helpers.percentChange a b))).
Proof.
  intros Hs. destruct (quotient_sign a b s Hs) as [H1 H2].
  unfold helpers.percentChange.
  split; intros H; apply round_nan_or_sign, mul_100_nan_or_sign; auto.
Qed.

(** A quotient by a finite non-zero value is [NaN] only when the
    dividend is. *)
Lemma percentChange_finite_base (a b : float) (s sd : bool) (m : positive) (e : Z) :
  Prim2SF a = S754_finite s m e ->
  sign_bit sd (Prim2SF (b - a)) ->
  sign_bit (xorb sd s) (Prim2SF (helpers.percentChange a b)).
Proof.
  intros Ha Hd. unfold helpers.percentChange. apply round_sign.
  rewrite mul_spec, NumberFacts.Prim2SF_100.
  rewrite <- (xorb_false_r (xorb sd s)). apply mul_finite_sign.
  rewrite div_spec, Ha. now apply div_finite_sign.
Qed.

Lemma is_nan_spec (x : float) :
  is_nan x = match Prim2SF x with S754_nan => true | _ => false end.
Proof.
  destruct (is_nan x) eqn:E.
  - destruct (Prim2SF x) eqn:E'; try reflexivity;
      assert (E0 : is_nan x = false)
        by (apply NumberOrder.is_nan_false; rewrite E'; discriminate);
      congruence.
  - apply NumberOrder.is_nan_false in E. now destruct (Prim2SF x).
Qed.

Lemma is_finite_spec (x : float) :
  is_finite x = match Prim2SF x with
                | S754_zero _ | S754_finite _ _ _ => true
                | _ => false
                end.
Proof.
  unfold is_finite. rewrite is_nan_spec. unfold is_infinity.
  rewrite FloatAxioms.eqb_spec, abs_spec.
  change (Prim2SF infinity) with (S754_infinity false).
  destruct (Prim2SF x) as [s|s| |s m e]; reflexivity.
Qed.

Lemma positive_finite (a : float) :
  (0 <? a) = true -> is_finite a = true ->
  exists m e, Prim2SF a = S754_finite false m e.
Proof.
  intros Hp Hf. apply zero_ltb_signed in Hp.
  destruct Hp as [Hp|Hp]; [|assumption].
  exfalso. revert Hf. rewrite is_finite_spec, Hp. discriminate.
Qed.

(** Nothing is above +∞. *)
Lemma ltb_infinity (x y : float) :
  Prim2SF x = S754_infinity false -> (x <? y) = false.
Proof.
  intros H. rewrite FloatAxioms.ltb_spec, H.
  destruct (Prim2SF y) as [s|[]| |[] m e]; reflexivity.
Qed.

Lemma Math_round_infinity (x : float) (s : bool) :
  Prim2SF x = S754_infinity s -> Prim2SF (JS.Math_round x) = S754_infinity s.
Proof. intros H. unfold JS.Math_round. now rewrite H. Qed.

Lemma round_infinity (x : float) (s : bool) :
  Prim2SF x = S754_infinity s -> Prim2SF (helpers.round x) = S754_infinity s.
Proof.
  intros H. unfold helpers.round.
  rewrite div_spec, NumberFacts.Prim2SF_100.
  rewrite (Math_round_infinity (x * 100) s).
  - cbn. now rewrite xorb_false_r.
  - rewrite mul_spec, NumberFacts.Prim2SF_100, H. cbn. now rewrite xorb_false_r.
Qed.

(** The closes of a window that meets the entry conditions. *)
Lemma entryCondition_closes (d1 d2 d3 d4 : Bar.t) :
  Spec.entryCondition d1 d2 d3 d4 = true ->
  (0 <? Bar.close d3) = true
  /\ (Bar.close d3 <? Bar.close d2) = true
  /\ (Bar.close d2 <? Bar.close d1) = true.
Proof.
  unfold Spec.entryCondition, Spec.pctChange, Spec.round2.
  rewrite !andb_true_iff. unfold gt.
  intros [[_ [[H12 H23] _]] [Hi1 Hi2]].
  split; [|split; assumption].
  fold (helpers.percentChange (Bar.close d4) (Bar.close d4)) in Hi2.
  fold (helpers.percentChange (Bar.close d3) (Bar.close d2)) in Hi1, Hi2.
  fold (helpers.percentChange (Bar.close d2) (Bar.close d1)) in Hi1.
  apply NumberFacts.gt_percentChange_self in Hi2. unfold gt in Hi2.
  destruct (sign_bit_cases (Prim2SF (Bar.close d3))) as [Hn|[Hs|Hs]].
  - apply ltb_ord in H23. now destruct H23.
  - destruct Hs as [Hz|Hs]; [|now apply zero_ltb_signed].
    exfalso.
    assert (Hinf : Prim2SF (helpers.percentChange (Bar.close d3) (Bar.close d2))
                   = S754_infinity false).
    { unfold helpers.percentChange. apply round_infinity.
      rewrite mul_spec, NumberFacts.Prim2SF_100, div_spec, sub_spec, Hz.
      assert (Hp : (0 <? Bar.close d2) = true).
      { rewrite FloatAxioms.ltb_spec in H23 |- *. rewrite Hz in H23. exact H23. }
      apply zero_ltb_signed in Hp.
      destruct Hp as [->|(m & e & ->)]; reflexivity. }
    rewrite (ltb_infinity _ _ Hinf) in Hi1. discriminate.
  - exfalso.
    destruct (percentChange_sign (Bar.close d3) (Bar.close d2) true Hs) as [H _].
    apply nan_or_sign_true_not_positive in H; [|assumption]. congruence.
Qed.

Lemma Prim2SF_slippage :
  Prim2SF backtest.slippage = S754_finite false 4508103226997866 (-52).
Proof. vm_compute. reflexivity. Qed.

Lemma entry_sign (close : float) :
  (0 <? close) = true ->
  sign_bit false (Prim2SF (helpers.round (close * backtest.slippage))).
Proof.
  intros H. apply zero_ltb_signed, signed_sign_bit in H.
  apply round_sign. rewrite mul_spec, Prim2SF_slippage.
  change false with (xorb false false) at 1. now apply mul_finite_sign.
Qed.

(** [percentChange] from a zero. *)
Lemma percentChange_zero_base (a b : float) (s : bool) :
  Prim2SF a = S754_zero s ->
  match Prim2SF b with
  | S754_nan | S754_zero _ => Prim2SF (helpers.percentChange a b) = S754_nan
  | S754_infinity sb | S754_finite sb _ _ =>
      Prim2SF (helpers.percentChange a b) = S754_infinity (xorb sb s)
  end.
Proof.
  intros Ha. unfold helpers.percentChange.
  assert (Hq : Prim2SF ((b - a) / a * 100)
               = match Prim2SF b with
                 | S754_nan | S754_zero _ => S754_nan
                 | S754_infinity sb | S754_finite sb _ _ => S754_infinity (xorb sb s)
                 end).
  { rewrite mul_spec, NumberFacts.Prim2SF_100, div_spec, sub_spec, Ha.
    destruct (Prim2SF b) as [sb|sb| |sb m e]; destruct s; try destruct sb;
      reflexivity. }
  destruct (Prim2SF b) as [sb|sb| |sb m e].
  - now apply NumberFacts.round_nan.
  - now apply round_infinity.
  - now apply NumberFacts.round_nan.
  - now apply round_infinity.
Qed.

End ChangeFacts.
(* ================================================================== *)
(** * Facts about the broker functions *)
(* ================================================================== *)

Module BrokerFacts.
Import kite_helpers.

Lemma writeFile_instruments (w : World) (filename : string) (data : Json.t)
  (s : State) :
  instruments (snd (writeFile w filename data s)) = instruments s.
Proof. unfold writeFile. destruct (write_error w _); reflexivity. Qed.

Lemma downloadInstruments_eq (w : World) (s : State) :
  downloadInstruments w s
  = match KiteConnect.getInstruments (kite w) "NSE" with
    | Resolved l =>
        let v := Json.Instruments l in
        match write_error w "instruments.json"%string with
        | Some err =>
            (Rejected err,
             {| instruments := Some v; dirs := dirs s; files := files s |})
        | None =>
            (Resolved v,
             {| instruments := Some v; dirs := dirs s;
                files := set (files s) "instruments.json"%string (JsonText v) |})
        end
    | Rejected e => (Rejected e, s)
    | Uncaught e => (Uncaught e, s)
    end.
Proof.
  unfold downloadInstruments, await, lift, assign, writeFile, ret.
  destruct (KiteConnect.getInstruments (kite w) "NSE"); try reflexivity.
  cbn. destruct (write_error w "instruments.json"%string); reflexivity.
Qed.

(** A fulfilled [downloadInstruments] or [getInstruments] leaves its
    value in the module variable. *)
Lemma downloadInstruments_cached (w : World) (s s' : State) (v : Json.t) :
  downloadInstruments w s = (Resolved v, s') -> instruments s' = Some v.
Proof.
  rewrite downloadInstruments_eq.
  destruct (KiteConnect.getInstruments (kite w) "NSE"); try discriminate.
  cbv zeta. destruct (write_error w "instruments.json"%string); try discriminate.
  intros [= <- <-]. reflexivity.
Qed.

Lemma loadInstruments_cached (w : World) (s s' : State) (v : Json.t) :
  loadInstruments w s = (Resolved v, s') -> instruments s' = Some v.
Proof.
  unfold loadInstruments, try_catch, await, readFile, assign.
  cbv zeta. change ("instrument" ++ ".json")%string with "instrument.json"%string.
  destruct (get (files s) "instrument.json"%string) as [[v0|]|].
  - intros [= <- <-]. reflexivity.
  - discriminate.
  - destruct (downloadInstruments w s) as [[v0|e|e] s0]; try discriminate.
    intros [= <- <-]. reflexivity.
Qed.

Lemma getInstruments_cached (w : World) (s s' : State) (v : Json.t) :
  kite_helpers.getInstruments w s = (Resolved v, s') -> instruments s' = Some v.
Proof.
  unfold kite_helpers.getInstruments.
  destruct (instruments s) as [v0|] eqn:E; [destruct (Json.truthy v0)|];
    try apply loadInstruments_cached.
  unfold ret. intros [= <- <-]. assumption.
Qed.

Lemma getInstruments_warm (w : World) (s : State) (v : Json.t) :
  instruments s = Some v -> Json.truthy v = true ->
  kite_helpers.getInstruments w s = (Resolved v, s).
Proof.
  intros E Ht. unfold kite_helpers.getInstruments. now rewrite E, Ht.
Qed.

Lemma getInstruments_cold (w : World) (s : State) :
  instruments s = None -> get (files s) "instrument.json"%string = None ->
  kite_helpers.getInstruments w s = await (downloadInstruments w) assign s.
Proof.
  intros E Hf. unfold kite_helpers.getInstruments, loadInstruments, try_catch.
  rewrite E. unfold await at 1, readFile. cbv zeta.
  change ("instrument" ++ ".json")%string with "instrument.json"%string.
  now rewrite Hf.
Qed.

(** The comparator of the download orders the bars by decreasing
    day. *)
Definition recency (b : Bar.t) : Z := (- Moment.rank (Bar.date b))%Z.

Lemma byTime_consistent (data : list Bar.t) :
  Forall (fun b => Moment.isValid (Bar.date b) = true) data ->
  SortFacts.consistent byTime recency data.
Proof.
  intros Hv x y Hx Hy. rewrite Forall_forall in Hv.
  unfold byTime, recency.
  rewrite MomentFacts.compare_rank by auto.
  now rewrite Z.compare_opp.
Qed.

Lemma StronglySorted_map {A B : Type} (R : B -> B -> Prop) (f : A -> B)
  (l : list A) :
  StronglySorted (fun x y => R (f x) (f y)) l -> StronglySorted R (map f l).
Proof.
  induction 1 as [|x l Hs IH Hf]; cbn [map]; constructor; [assumption|].
  apply Forall_map. exact Hf.
Qed.

Lemma sort_recent_first (data : list Bar.t) :
  Forall (fun b => Moment.isValid (Bar.date b) = true) data ->
  StronglySorted
    (fun newer older =>
       (Moment.rank (Bar.date older) <= Moment.rank (Bar.date newer))%Z)
    (map Json.reparse_bar (sort byTime data)).
Proof.
  intros Hv. apply StronglySorted_map. cbn [Json.reparse_bar Bar.date].
  pose proof (SortFacts.sort_ascending byTime recency data
                (byTime_consistent data Hv)) as H.
  unfold SortFacts.ascending, recency in H.
  eapply (ResultsFacts.StronglySorted_impl _ _ (fun _ => True)); [| |exact H].
  - intros a b _ _ Hab. cbn in Hab |- *. lia.
  - apply Forall_forall. trivial.
Qed.

Lemma reparse_number_id (x : float) :
  is_finite x = true -> Prim2SF x <> S754_zero true -> Json.reparse_number x = x.
Proof.
  intros Hf Hz. unfold Json.reparse_number. rewrite Hf. cbn [andb].
  destruct (x =? 0) eqn:E; [|reflexivity]. cbn [negb].
  apply ZeroFacts.eqb_zero in E. destruct E as [[] E]; [contradiction|].
  apply Prim2SF_inj. now rewrite E.
Qed.

(** The Numbers that JSON carries unchanged. *)
Definition carried (x : float) : Prop :=
  is_finite x = true /\ Prim2SF x <> S754_zero true.

Lemma reparse_bar_id (b : Bar.t) :
  carried (Bar.open b) -> carried (Bar.close b) -> Json.reparse_bar b = b.
Proof.
  intros [Ho Ho'] [Hc Hc']. destruct b as [date open close].
  unfold Json.reparse_bar. cbn [Bar.open Bar.close Bar.date] in *.
  now rewrite !reparse_number_id.
Qed.

Lemma reparse_bars_id (data : list Bar.t) :
  Forall (fun b => carried (Bar.open b) /\ carried (Bar.close b)) data ->
  map Json.reparse_bar data = data.
Proof.
  induction 1 as [|b data [Ho Hc] _ IH]; [reflexivity|].
  cbn [map]. now rewrite reparse_bar_id, IH.
Qed.

(** [dirname] is the part of a path before its first [/]. *)
Lemma dirname_None (filename : string) :
  dirname filename = None <-> ~ In "/"%char (list_ascii_of_string filename).
Proof.
  induction filename as [|c rest IH]; cbn [dirname list_ascii_of_string In].
  - tauto.
  - destruct (Ascii.eqb c "/") eqn:E.
    + apply Ascii.eqb_eq in E. subst c. split; [discriminate|tauto].
    + apply Ascii.eqb_neq in E.
      destruct (dirname rest) as [d|]; cbn [option_map].
      * split; [discriminate|]. intros H. exfalso. apply H. right.
        destruct (in_dec ascii_dec "/"%char (list_ascii_of_string rest))
          as [Hin|Hin]; [assumption|].
        apply IH in Hin. discriminate.
      * split; [|reflexivity]. intros _ [H|H]; [congruence|].
        now apply IH in H.
Qed.

Lemma dirname_app (dir rest : string) :
  ~ In "/"%char (list_ascii_of_string dir) ->
  dirname (dir ++ "/" ++ rest)%string = Some dir.
Proof.
  change ("/" ++ rest)%string with (String "/" rest).
  induction dir as [|c dir IH]; intros H; [reflexivity|].
  cbn [append dirname]. cbn [list_ascii_of_string In] in H.
  destruct (Ascii.eqb c "/") eqn:E.
  - apply Ascii.eqb_eq in E. exfalso. apply H. now left.
  - rewrite IH by tauto. reflexivity.
Qed.

End BrokerFacts.
(* ================================================================== *)
(** * Facts about the download of a universe *)
(* ================================================================== *)

Module DownloadFacts.
Import kite_helpers.

Lemma list_ascii_of_append (a b : string) :
  list_ascii_of_string (a ++ b)
  = (list_ascii_of_string a ++ list_ascii_of_string b)%list.
Proof.
  induction a as [|c a IH]; [reflexivity|]. cbn. now rewrite IH.
Qed.

Lemma list_ascii_inj (a b : string) :
  list_ascii_of_string a = list_ascii_of_string b -> a = b.
Proof.
  intros H. rewrite <- (string_of_list_ascii_of_string a).
  rewrite <- (string_of_list_ascii_of_string b). now rewrite H.
Qed.

(** The file of a symbol, for a year. *)
Definition path (year symbol : string) : string :=
  ((year ++ "/" ++ symbol) ++ ".json")%string.

Lemma path_inj (year a b : string) : path year a = path year b -> a = b.
Proof.
  unfold path. intros H. apply (f_equal list_ascii_of_string) in H.
  rewrite !list_ascii_of_append in H.
  apply app_inv_tail, app_inv_head, app_inv_head in H.
  now apply list_ascii_inj.
Qed.

Definition listed (l : list InstrumentInfo.t) (symbol : string)
  : option InstrumentInfo.t :=
  List.find (fun i => String.eqb (InstrumentInfo.tradingsymbol i) symbol) l.

Lemma listed_None (l : list InstrumentInfo.t) (symbol : string) :
  (forall i, In i l -> InstrumentInfo.tradingsymbol i <> symbol) ->
  listed l symbol = None.
Proof.
  intros H. unfold listed. destruct (List.find _ l) as [i|] eqn:E; [|reflexivity].
  apply find_some in E. destruct E as [Hi E]. apply String.eqb_eq in E.
  now apply H in Hi.
Qed.

(** [downloadHistoricalData] when the list of instruments is in
    memory. *)
Lemma downloadHistoricalData_warm (w : World) (s : State)
  (l : list InstrumentInfo.t) (symbol startDate endDate : string) :
  instruments s = Some (Json.Instruments l) ->
  downloadHistoricalData w symbol startDate endDate s
  = match listed l symbol with
    | None => (Resolved tt, s)
    | Some instrument =>
        match KiteConnect.getHistoricalData (kite w)
                (InstrumentInfo.instrument_token instrument)
                "day" startDate endDate false with
        | Resolved data =>
            writeFile w (moment_YYYY w endDate ++ "/" ++ symbol)%string
              (Json.Series instrument (sort byTime data)) s
        | Rejected e => (Rejected e, s)
        | Uncaught e => (Uncaught e, s)
        end
    end.
Proof.
  intros Hc. unfold downloadHistoricalData.
  unfold await at 1. rewrite (BrokerFacts.getInstruments_warm w s _ Hc eq_refl).
  unfold await at 1. unfold lift at 1. cbn [Json.find]. fold (listed l symbol).
  destruct (listed l symbol) as [instrument|]; [|reflexivity].
  unfold await, lift.
  destruct (KiteConnect.getHistoricalData _ _ _ _ _ _); reflexivity.
Qed.

Lemma download_instruments (w : World) (s : State) (l : list InstrumentInfo.t)
  (symbol startDate endDate : string) :
  instruments s = Some (Json.Instruments l) ->
  instruments (snd (downloadHistoricalData w symbol startDate endDate s))
  = Some (Json.Instruments l).
Proof.
  intros Hc. rewrite (downloadHistoricalData_warm _ _ _ _ _ _ Hc).
  destruct (listed l symbol) as [instrument|]; [|assumption].
  destruct (KiteConnect.getHistoricalData _ _ _ _ _ _); try assumption.
  now rewrite BrokerFacts.writeFile_instruments.
Qed.

(** A path that holds a series. *)
Definition series_at (s : State) (p : string) : Prop :=
  exists instrument ohlc,
    get (files s) p = Some (JsonText (Json.Series instrument ohlc)).

Lemma writeFile_series_kept (w : World) (filename : string)
  (instrument : InstrumentInfo.t) (ohlc : list Bar.t) (s : State) (p : string) :
  series_at s p ->
  series_at (snd (writeFile w filename (Json.Series instrument ohlc) s)) p.
Proof.
  intros H. unfold writeFile. destruct (write_error w _); [exact H|].
  cbn [snd]. unfold series_at. cbn [files].
  destruct (string_dec p (filename ++ ".json")%string) as [->|Hp].
  - rewrite ObjectFacts.get_set_same. cbn [Json.reparse]. eauto.
  - rewrite ObjectFacts.get_set_other by assumption. exact H.
Qed.

Lemma download_series_kept (w : World) (s : State) (l : list InstrumentInfo.t)
  (symbol startDate endDate p : string) :
  instruments s = Some (Json.Instruments l) ->
  series_at s p ->
  series_at (snd (downloadHistoricalData w symbol startDate endDate s)) p.
Proof.
  intros Hc H. rewrite (downloadHistoricalData_warm _ _ _ _ _ _ Hc).
  destruct (listed l symbol) as [instrument|]; [|assumption].
  destruct (KiteConnect.getHistoricalData _ _ _ _ _ _); try assumption.
  now apply writeFile_series_kept.
Qed.

Lemma download_series_made (w : World) (s : State) (l : list InstrumentInfo.t)
  (symbol startDate endDate : string) (instrument : InstrumentInfo.t)
  (data : list Bar.t) :
  instruments s = Some (Json.Instruments l) ->
  listed l symbol = Some instrument ->
  KiteConnect.getHistoricalData (kite w)
    (InstrumentInfo.instrument_token instrument) "day" startDate endDate false
  = Resolved data ->
  write_error w (path (moment_YYYY w endDate) symbol) = None ->
  fst (downloadHistoricalData w symbol startDate endDate s) = Resolved tt
  /\ series_at (snd (downloadHistoricalData w symbol startDate endDate s))
       (path (moment_YYYY w endDate) symbol).
Proof.
  intros Hc Hl Hd Hw. rewrite (downloadHistoricalData_warm _ _ _ _ _ _ Hc), Hl, Hd.
  unfold writeFile. fold (path (moment_YYYY w endDate) symbol). rewrite Hw.
  cbn [fst snd]. split; [reflexivity|]. unfold series_at. cbn [files].
  rewrite ObjectFacts.get_set_same. cbn [Json.reparse]. eauto.
Qed.

Lemma download_absent_kept (w : World) (s : State) (l : list InstrumentInfo.t)
  (symbol symbol' startDate endDate : string) :
  instruments s = Some (Json.Instruments l) ->
  listed l symbol = None ->
  get (files s) (path (moment_YYYY w endDate) symbol) = None ->
  get (files (snd (downloadHistoricalData w symbol' startDate endDate s)))
    (path (moment_YYYY w endDate) symbol) = None.
Proof.
  intros Hc Hl H. rewrite (downloadHistoricalData_warm _ _ _ _ _ _ Hc).
  destruct (listed l symbol') as [instrument|] eqn:E; [|assumption].
  destruct (KiteConnect.getHistoricalData _ _ _ _ _ _); try assumption.
  unfold writeFile. fold (path (moment_YYYY w endDate) symbol').
  destruct (write_error w _); [exact H|]. cbn [snd files].
  rewrite ObjectFacts.get_set_other; [assumption|].
  intros Hp. apply path_inj in Hp. congruence.
Qed.

Lemma downloads_cons (w : World) (symbol : string) (rest : list string)
  (startDate endDate : string) (s : State) :
  downloads w (symbol :: rest) startDate endDate s
  = (fst (downloadHistoricalData w symbol startDate endDate s)
     :: fst (downloads w rest startDate endDate
               (snd (downloadHistoricalData w symbol startDate endDate s))),
     snd (downloads w rest startDate endDate
            (snd (downloadHistoricalData w symbol startDate endDate s)))).
Proof.
  cbn [downloads].
  destruct (downloadHistoricalData w symbol startDate endDate s) as [p s1].
  cbn [fst snd]. destruct (downloads w rest startDate endDate s1). reflexivity.
Qed.

(** Every download of a universe is fulfilled and leaves a series when
    every symbol is listed, sent and written. *)
Lemma downloads_all (w : World) (symbols : list string)
  (startDate endDate : string) (l : list InstrumentInfo.t) (s : State) :
  instruments s = Some (Json.Instruments l) ->
  (forall symbol, In symbol symbols ->
     exists instrument data,
       listed l symbol = Some instrument
       /\ KiteConnect.getHistoricalData (kite w)
            (InstrumentInfo.instrument_token instrument)
            "day" startDate endDate false = Resolved data) ->
  (forall p, write_error w p = None) ->
  let r := downloads w symbols startDate endDate s in
  Promise_all (fst r) = Resolved (map (fun _ => tt) symbols)
  /\ (forall p, series_at s p -> series_at (snd r) p)
  /\ forall symbol, In symbol symbols ->
       series_at (snd r) (path (moment_YYYY w endDate) symbol).
Proof.
  revert s. induction symbols as [|symbol rest IH]; intros s Hc Hsym Hw r.
  - subst r. cbn. repeat split; auto. intros symbol [].
  - subst r. rewrite downloads_cons. cbn [fst snd].
    destruct (Hsym symbol (or_introl eq_refl)) as (instrument & data & Hl & Hd).
    destruct (download_series_made w s l symbol startDate endDate instrument data
                Hc Hl Hd (Hw _)) as [H1 H2].
    pose proof (download_instruments w s l symbol startDate endDate Hc) as Hc'.
    specialize (IH _ Hc' (fun x Hx => Hsym x (or_intror Hx)) Hw).
    cbv zeta in IH. destruct IH as (IH1 & IH2 & IH3).
    split; [|split].
    + cbn [Promise_all map]. rewrite H1. cbn [bind]. now rewrite IH1.
    + intros p Hp. apply IH2. now apply (download_series_kept w s l).
    + intros x [<-|Hx]; [now apply IH2|now apply IH3].
Qed.

Lemma downloads_absent (w : World) (symbols : list string)
  (startDate endDate : string) (l : list InstrumentInfo.t) (s : State)
  (symbol : string) :
  instruments s = Some (Json.Instruments l) ->
  listed l symbol = None ->
  get (files s) (path (moment_YYYY w endDate) symbol) = None ->
  get (files (snd (downloads w symbols startDate endDate s)))
    (path (moment_YYYY w endDate) symbol) = None.
Proof.
  revert s. induction symbols as [|x rest IH]; intros s Hc Hl H; [exact H|].
  rewrite downloads_cons. cbn [snd]. apply IH.
  - now apply download_instruments.
  - assumption.
  - now apply (download_absent_kept w s l).
Qed.

Lemma mount_series (w : World) (s : State) (year symbol : string) :
  series_at s (path year symbol) ->
  exists instrument,
    helpers.readFile (mount w s) (year ++ "/" ++ symbol)%string
    = Resolved instrument.
Proof.
  intros (i & ohlc & H). unfold helpers.readFile, mount. cbn [fs_read].
  fold (path year symbol). rewrite H. eauto.
Qed.

Lemma mount_absent (w : World) (s : State) (year symbol : string) :
  get (files s) (path year symbol) = None ->
  helpers.readFile (mount w s) (year ++ "/" ++ symbol)%string
  = Rejected (FsError (path year symbol)).
Proof.
  intros H. unfold helpers.readFile, mount. cbn [fs_read].
  fold (path year symbol). now rewrite H.
Qed.

End DownloadFacts.
(* ================================================================== *)
(** * Further properties of the code *)
(* ================================================================== *)

(** X1, [helpers.groupByDate].  For an array whose dates are calendar
    days in [DD-MM-YYYY] form, as [runTest] makes them, the keys of the
    result are the dates of the array, each once, in the order of their
    first occurrence; the property of such a date holds the items of that
    date, in array order, and such a date that does not occur has no
    property. *)
Theorem groupByDate_keys_and_buckets (array : list Trade.t) :
  Forall (fun item => Moment.parse_DD_MM_YYYY (Trade.date item) <> None) array ->
  keys (helpers.groupByDate array)
  = OccurrenceFacts.distinct (map Trade.date array)
  /\ forall date,
       Moment.parse_DD_MM_YYYY date <> None ->
       get (helpers.groupByDate array) date
       = match filter (fun item => String.eqb (Trade.date item) date) array with
         | [] => None
         | bucket => Some bucket
         end.
Proof.
  intros _. split; [apply OccurrenceFacts.groupByDate_keys_eq|]. intros date _.
  pose proof (GroupFacts.groupByDate_get array date) as Hb.
  unfold backtest.get_array in Hb.
  destruct (get (helpers.groupByDate array) date) as [b|] eqn:E.
  - assert (Hin : In date (keys (helpers.groupByDate array))).
    { destruct (in_dec string_dec date (keys (helpers.groupByDate array)))
        as [H|H]; [assumption|].
      apply ObjectFacts.get_None in H. congruence. }
    pose proof (GroupFacts.groupByDate_nonempty array date Hin) as Hne.
    unfold backtest.get_array in Hne. rewrite E in Hne.
    rewrite <- Hb. destruct b; [contradiction|reflexivity].
  - now rewrite <- Hb.
Qed.

Lemma groupByDate_keys_and_buckets_witness :
  keys (helpers.groupByDate Examples.candidates)
  = ["08-01-2018"; "09-01-2018"]%string
  /\ get (helpers.groupByDate Examples.candidates) "10-01-2018" = None.
Proof.
  assert (H : Forall
                (fun item => Moment.parse_DD_MM_YYYY (Trade.date item) <> None)
                Examples.candidates)
    by (repeat (constructor; [vm_compute; discriminate|]); constructor).
  destruct (groupByDate_keys_and_buckets Examples.candidates H) as [H1 H2].
  split.
  - rewrite H1. reflexivity.
  - rewrite H2; [reflexivity|vm_compute; discriminate].
Defined.

(** X2, [helpers.groupByDate].  For an array whose dates are calendar
    days in [DD-MM-YYYY] form, the grouping is a partition of the array:
    the buckets, taken together, hold the items of the array, none lost
    and none twice, no bucket is empty, and no date has two buckets. *)
Theorem groupByDate_partition (array : list Trade.t) :
  Forall (fun item => Moment.parse_DD_MM_YYYY (Trade.date item) <> None) array ->
  Permutation (List.concat (map snd (helpers.groupByDate array))) array
  /\ NoDup (keys (helpers.groupByDate array))
  /\ forall date bucket,
       In (date, bucket) (helpers.groupByDate array) ->
       bucket <> [] /\ Forall (fun item => Trade.date item = date) bucket.
Proof.
  intros _. split; [apply OccurrenceFacts.groupByDate_concat|].
  split; [apply GroupFacts.groupByDate_NoDup|].
  intros date bucket Hin.
  apply (ObjectFacts.In_get _ _ _ (GroupFacts.groupByDate_NoDup array)) in Hin.
  pose proof (GroupFacts.groupByDate_get array date) as Hb.
  unfold backtest.get_array in Hb. rewrite Hin in Hb. split.
  - assert (Hk : In date (keys (helpers.groupByDate array))).
    { destruct (in_dec string_dec date (keys (helpers.groupByDate array)))
        as [H|H]; [assumption|].
      apply ObjectFacts.get_None in H. congruence. }
    pose proof (GroupFacts.groupByDate_nonempty array date Hk) as Hne.
    unfold backtest.get_array in Hne. now rewrite Hin in Hne.
  - rewrite Hb. apply Forall_forall. intros item Hi.
    apply filter_In in Hi. now apply String.eqb_eq.
Qed.

Lemma groupByDate_partition_witness :
  Permutation
    (List.concat (map snd (helpers.groupByDate Examples.candidates)))
    Examples.candidates
  /\ NoDup (keys (helpers.groupByDate Examples.candidates)).
Proof.
  assert (H : Forall
                (fun item => Moment.parse_DD_MM_YYYY (Trade.date item) <> None)
                Examples.candidates)
    by (repeat (constructor; [vm_compute; discriminate|]); constructor).
  destruct (groupByDate_partition Examples.candidates H) as (H1 & H2 & _).
  split; assumption.
Defined.

(** X3, [helpers.round].  [NaN], the infinities and the zeros are
    returned unchanged; the result is [NaN] only for [NaN]; and rounding
    never changes the sign: a result above zero comes from a number above
    zero, a result below zero from a number below zero. *)
Theorem round_keeps_sign_and_special_values (x : number) :
  match Prim2SF x with
  | S754_finite _ _ _ => True
  | special => Prim2SF (helpers.round x) = special
  end
  /\ is_nan (helpers.round x) = is_nan x
  /\ ((0 <? helpers.round x) = true -> (0 <? x) = true)
  /\ ((helpers.round x <? 0) = true -> (x <? 0) = true).
Proof.
  assert (Hcases := SignFacts.sign_bit_cases (Prim2SF x)).
  split; [|split; [|split]].
  - destruct (Prim2SF x) as [s|s| |s m e] eqn:E; [| | |exact I].
    + now apply NumberFacts.round_zero.
    + now apply ChangeFacts.round_infinity.
    + now apply NumberFacts.round_nan.
  - rewrite !ChangeFacts.is_nan_spec.
    destruct Hcases as [H|[H|H]].
    + rewrite (NumberFacts.round_nan x H), H. reflexivity.
    + pose proof (SignFacts.round_sign false x H) as Hr.
      destruct H as [->|[->|(m & e & ->)]];
        destruct Hr as [->|[->|(m' & e' & ->)]]; reflexivity.
    + pose proof (SignFacts.round_sign true x H) as Hr.
      destruct H as [->|[->|(m & e & ->)]];
        destruct Hr as [->|[->|(m' & e' & ->)]]; reflexivity.
  - intros Hp. destruct Hcases as [H|[H|H]].
    + apply NumberFacts.round_nan in H.
      rewrite FloatAxioms.ltb_spec, H in Hp. discriminate.
    + destruct H as [H|H]; [|now apply SignFacts.zero_ltb_signed].
      apply NumberFacts.round_zero in H.
      rewrite FloatAxioms.ltb_spec, H in Hp. discriminate.
    + apply SignFacts.round_sign, SignFacts.sign_bit_true_ltb in H. congruence.
  - intros Hp. destruct Hcases as [H|[H|H]].
    + apply NumberFacts.round_nan in H.
      rewrite FloatAxioms.ltb_spec, H in Hp. discriminate.
    + apply SignFacts.round_sign, SignFacts.sign_bit_false_ltb in H. congruence.
    + destruct H as [H|H]; [|now apply SignFacts.ltb_zero_signed].
      apply NumberFacts.round_zero in H.
      rewrite FloatAxioms.ltb_spec, H in Hp. discriminate.
Qed.

(** X4, [helpers.percentChange].  From a base that is zero the change is
    never a finite number: it is [NaN] when [b] is zero or [NaN], and an
    infinity otherwise. *)
Theorem percentChange_from_zero (a b : number) :
  (a =? 0) = true ->
  is_finite (helpers.percentChange a b) = false
  /\ is_nan (helpers.percentChange a b) = (b =? 0) || is_nan b.
Proof.
  intros Ha. apply ZeroFacts.eqb_zero in Ha. destruct Ha as [s Ha].
  pose proof (ChangeFacts.percentChange_zero_base a b s Ha) as H.
  rewrite ChangeFacts.is_finite_spec, !ChangeFacts.is_nan_spec.
  rewrite FloatAxioms.eqb_spec. change (Prim2SF 0) with (S754_zero false).
  destruct (Prim2SF b) as [sb|sb| |sb m e]; rewrite H; try destruct sb;
    split; reflexivity.
Qed.

Lemma percentChange_from_zero_witness :
  is_finite (helpers.percentChange 0 5) = false
  /\ is_nan (helpers.percentChange 0 5) = (5 =? 0) || is_nan 5.
Proof. apply (percentChange_from_zero 0 5). reflexivity. Defined.

(** X5, [helpers.percentChange].  From a base that is finite and above
    zero, the change to a higher number is not negative, the change to a
    lower number is not positive, the change to an equal number is zero,
    and none of them is [NaN]: a rise is never reported as a loss, nor a
    fall as a gain. *)
Theorem percentChange_follows_direction (a b : number) :
  (0 <? a) = true -> is_finite a = true ->
  ((a <? b) = true ->
   (helpers.percentChange a b <? 0) = false
   /\ is_nan (helpers.percentChange a b) = false)
  /\ ((b <? a) = true ->
      (0 <? helpers.percentChange a b) = false
      /\ is_nan (helpers.percentChange a b) = false)
  /\ ((a =? b) = true -> (helpers.percentChange a b =? 0) = true).
Proof.
  intros Hp Hf. destruct (ChangeFacts.positive_finite a Hp Hf) as (m & e & Ha).
  assert (Hsub : forall sd, FloatOrder.signed sd (Prim2SF (b - a)) ->
                 SignFacts.sign_bit sd (Prim2SF (helpers.percentChange a b))).
  { intros sd Hd. rewrite <- (xorb_false_r sd).
    apply (ChangeFacts.percentChange_finite_base a b false sd m e Ha).
    now right. }
  split; [|split]; intros H.
  - apply ChangeFacts.ltb_ord in H. destruct H as (Hx & Hy & Ho).
    pose proof (FloatOrder.SF64sub_ord (Prim2SF b) (Prim2SF a) (Prim2SF_valid b)
                  (Prim2SF_valid a) Hy Hx) as Hs.
    replace (FloatOrder.ord (Prim2SF b) ?= FloatOrder.ord (Prim2SF a))%Z
      with Gt in Hs by (symmetry; apply Z.compare_gt_iff; lia).
    rewrite <- sub_spec in Hs. apply Hsub in Hs. split.
    + now apply SignFacts.sign_bit_false_ltb.
    + now apply (SignFacts.sign_bit_not_nan false).
  - apply ChangeFacts.ltb_ord in H. destruct H as (Hx & Hy & Ho).
    pose proof (FloatOrder.SF64sub_ord (Prim2SF b) (Prim2SF a) (Prim2SF_valid b)
                  (Prim2SF_valid a) Hx Hy) as Hs.
    replace (FloatOrder.ord (Prim2SF b) ?= FloatOrder.ord (Prim2SF a))%Z
      with Lt in Hs by (symmetry; apply Z.compare_lt_iff; lia).
    rewrite <- sub_spec in Hs. apply Hsub in Hs. split.
    + now apply SignFacts.sign_bit_true_ltb.
    + now apply (SignFacts.sign_bit_not_nan true).
  - assert (Hb : Prim2SF b = S754_finite false m e).
    { rewrite FloatAxioms.eqb_spec, Ha in H. unfold SFeqb in H.
      pose proof (FloatOrder.SFcompare_ord (S754_finite false m e) (Prim2SF b))
        as Hc.
      rewrite <- Ha in Hc at 1. specialize (Hc (Prim2SF_valid a) (Prim2SF_valid b)).
      destruct (Prim2SF b) as [sb|sb| |sb mb eb] eqn:Eb; try destruct sb;
        try discriminate.
      cbn in H.
      destruct (e ?= eb)%Z eqn:Ee; try discriminate.
      apply Z.compare_eq in Ee. subst eb.
      destruct (PosDef.Pos.compare_cont Eq m mb) eqn:Em; try discriminate.
      change (PosDef.Pos.compare_cont Eq m mb) with (Pos.compare_cont Eq m mb) in Em.
      rewrite Pos.compare_cont_spec in Em.
      destruct (m ?= mb)%positive eqn:Ec; try discriminate.
      apply Pos.compare_eq in Ec. now subst. }
    assert (E : b = a) by (apply Prim2SF_inj; congruence).
    subst b. apply ScanFacts.percentChange_self_zero; [assumption|].
    rewrite FloatAxioms.eqb_spec, Ha. reflexivity.
Qed.

Lemma percentChange_follows_direction_witness :
  (helpers.percentChange 100 110 <? 0) = false
  /\ (0 <? helpers.percentChange 100 90) = false.
Proof.
  destruct (percentChange_follows_direction 100 110 eq_refl eq_refl) as (H1 & _).
  destruct (percentChange_follows_direction 100 90 eq_refl eq_refl) as (_ & H2 & _).
  split; [apply H1|apply H2]; reflexivity.
Defined.

(** X6, [runTest].  How the scan of one instrument settles, by what is
    under [<year>/<symbol>.json].  On a file that holds a series the scan
    is always fulfilled: the loop bound [length - 4] keeps every index
    inside the array, so the loop itself never throws.  When the read
    ends in an error, the scan is rejected with that error, unchanged.
    When the text is not JSON, the [SyntaxError] of [JSON.parse] escapes
    from the scan. *)
Theorem runTest_settles_by_file (data : FileSystem) (year symbol : string) :
  let path := ((year ++ "/" ++ symbol) ++ ".json")%string in
  (forall instrument,
      fs_read data path = Json instrument ->
      exists allTrades, backtest.runTest data year symbol = Resolved allTrades)
  /\ (forall e,
        fs_read data path = ReadError e ->
        backtest.runTest data year symbol = Rejected e)
  /\ (fs_read data path = Malformed ->
      backtest.runTest data year symbol = Uncaught SyntaxError).
Proof.
  intros path. split; [|split].
  - intros instrument H. eexists.
    apply (DetectorFacts.runTest_detector _ _ _ instrument).
    unfold helpers.readFile. fold path. now rewrite H.
  - intros e H. unfold backtest.runTest, helpers.readFile. fold path.
    now rewrite H.
  - intros H. unfold backtest.runTest, helpers.readFile. fold path.
    now rewrite H.
Qed.

(** X7, [runTest].  A series of [n] bars yields at most [n - 4]
    candidates, and every candidate sits inside the series: its signal
    date is the day of a bar [start + 1] and its exit price the open of
    the bar [start], for a [start] with [start + 4 < n]. The most recent
    bar and the three oldest bars never carry a signal. *)
Theorem candidates_inside_series (data : FileSystem) (year symbol : string)
  (instrument : Instrument.t) :
  helpers.readFile data (year ++ "/" ++ symbol)%string = Resolved instrument ->
  let ohlc := Instrument.ohlc instrument in
  exists allTrades,
    backtest.runTest data year symbol = Resolved allTrades
    /\ (List.length allTrades <= List.length ohlc - 4)%nat
    /\ forall t, In t allTrades ->
         exists start d0 d1,
           (start + 4 < List.length ohlc)%nat
           /\ nth_error ohlc start = Some d0
           /\ nth_error ohlc (start + 1) = Some d1
           /\ Trade.date t = backtest.DATE_FORMAT (Bar.date d1)
           /\ Trade.exit t = Bar.open d0.
Proof.
  intros Hread ohlc. exists (Spec.detector symbol ohlc).
  split; [apply (DetectorFacts.runTest_detector _ _ _ _ Hread)|].
  split; [apply SeriesFacts.detector_length|].
  intros t Ht. apply SeriesFacts.detector_position in Ht.
  destruct Ht as (i & d0 & d1 & d2 & Hi & H0 & H1 & _ & ->).
  exists i, d0, d1. repeat split; assumption.
Qed.

Lemma candidates_inside_series_witness :
  exists allTrades,
    backtest.runTest Examples.disk "2018" "AAA" = Resolved allTrades
    /\ (List.length allTrades <= 1)%nat.
Proof.
  destruct (candidates_inside_series Examples.disk "2018" "AAA" Examples.rally
              eq_refl) as (allTrades & H1 & H2 & _).
  exists allTrades. split; [exact H1|exact H2].
Defined.

(** X8, [runTest].  When the bars of a series lie on pairwise distinct
    calendar days, no two candidates of the series have the same signal
    date. *)
Theorem one_candidate_per_day (data : FileSystem) (year symbol : string)
  (instrument : Instrument.t) :
  helpers.readFile data (year ++ "/" ++ symbol)%string = Resolved instrument ->
  Forall (fun b => Moment.isValid (Bar.date b) = true) (Instrument.ohlc instrument) ->
  NoDup (map Bar.date (Instrument.ohlc instrument)) ->
  exists allTrades,
    backtest.runTest data year symbol = Resolved allTrades
    /\ NoDup (map Trade.date allTrades).
Proof.
  intros Hread Hv Hnd. exists (Spec.detector symbol (Instrument.ohlc instrument)).
  split; [apply (DetectorFacts.runTest_detector _ _ _ _ Hread)|].
  apply SeriesFacts.detector_NoDup.
  pose proof (SeriesFacts.format_NoDup _ Hv Hnd) as H.
  destruct (Instrument.ohlc instrument) as [|b l]; [constructor|].
  cbn [tl]. now inversion H.
Qed.

Lemma one_candidate_per_day_witness :
  exists allTrades,
    backtest.runTest Examples.disk "2018" "AAA" = Resolved allTrades
    /\ NoDup (map Trade.date allTrades).
Proof.
  apply (one_candidate_per_day Examples.disk "2018" "AAA" Examples.rally).
  - reflexivity.
  - repeat constructor.
  - repeat constructor; cbn; intuition discriminate.
Defined.

(** X9, [runTest].  A window yields a candidate only on closes above
    zero: for every candidate, the closes of d3, d2 and d1 satisfy
    [0 < d3.close < d2.close < d1.close],
    and the entry price of the candidate is neither negative nor [NaN]. *)
Theorem candidates_on_positive_closes (data : FileSystem) (year symbol : string)
  (instrument : Instrument.t) :
  helpers.readFile data (year ++ "/" ++ symbol)%string = Resolved instrument ->
  let ohlc := Instrument.ohlc instrument in
  exists allTrades,
    backtest.runTest data year symbol = Resolved allTrades
    /\ forall t, In t allTrades ->
         (Trade.entry t <? 0) = false
         /\ is_nan (Trade.entry t) = false
         /\ exists start d1 d2 d3,
              nth_error ohlc (start + 1) = Some d1
              /\ nth_error ohlc (start + 2) = Some d2
              /\ nth_error ohlc (start + 3) = Some d3
              /\ Trade.date t = backtest.DATE_FORMAT (Bar.date d1)
              /\ (0 <? Bar.close d3) = true
              /\ (Bar.close d3 <? Bar.close d2) = true
              /\ (Bar.close d2 <? Bar.close d1) = true.
Proof.
  intros Hread ohlc. exists (Spec.detector symbol ohlc).
  split; [apply (DetectorFacts.runTest_detector _ _ _ _ Hread)|].
  intros t Ht. apply DetectorFacts.detector_In in Ht.
  destruct Ht as (d0 & d1 & d2 & d3 & d4 & Hw & Hc & ->).
  apply ChangeFacts.entryCondition_closes in Hc. destruct Hc as (H3 & H23 & H12).
  assert (Hp : (0 <? Bar.close d1) = true).
  { apply SignFacts.zero_ltb_signed. apply SignFacts.zero_ltb_signed in H3.
    change (NumberFacts.positive (Prim2SF (Bar.close d1))).
    apply (NumberFacts.gt_positive _ _ H12).
    apply (NumberFacts.gt_positive _ _ H23). exact H3. }
  pose proof (ChangeFacts.entry_sign _ Hp) as He.
  rewrite NumberFacts.slippage_literal in He.
  cbn [Spec.candidate Trade.entry Trade.date]. unfold Spec.round2.
  split; [now apply SignFacts.sign_bit_false_ltb|].
  split; [now apply (SignFacts.sign_bit_not_nan false)|].
  apply In_nth_error in Hw. destruct Hw as [i Hi].
  apply DetectorFacts.windows_nth in Hi.
  destruct Hi as (_ & Hi1 & Hi2 & Hi3 & _).
  exists i, d1, d2, d3. repeat split; assumption.
Qed.

Lemma candidates_on_positive_closes_witness :
  exists allTrades,
    backtest.runTest Examples.disk "2018" "AAA" = Resolved allTrades
    /\ forall t, In t allTrades -> (Trade.entry t <? 0) = false.
Proof.
  destruct (candidates_on_positive_closes Examples.disk "2018" "AAA"
              Examples.rally eq_refl) as (allTrades & H1 & H2).
  exists allTrades. split; [exact H1|]. intros t Ht. now apply H2.
Defined.

(** X10, [runBacktest].  Whatever the ranking keys are, [NaN]
    included, the selection of a date takes nothing from elsewhere: the
    selected trades are the first two of a rearrangement of the
    candidates of that date, so there are two of them when the date has
    two candidates or more and all of them otherwise, each is a
    candidate of the scan and carries that date, and none is selected
    twice. *)
Theorem selection_within_candidates (allTrades : list Trade.t) (date : string) :
  In date (keys (helpers.groupByDate allTrades)) ->
  let candidates := backtest.get_array (helpers.groupByDate allTrades) date in
  let selected :=
    backtest.get_array (Results.trades (fst (backtest.computation allTrades))) date in
  List.length selected = Nat.min 2 (List.length candidates)
  /\ (exists rest, Permutation (selected ++ rest) candidates)
  /\ forall t, In t selected -> In t allTrades /\ Trade.date t = date.
Proof.
  intros Hdate candidates selected.
  assert (Hc : candidates
               = filter (fun item => String.eqb (Trade.date item) date) allTrades)
    by apply GroupFacts.groupByDate_get.
  assert (Hs : selected = firstn 2 (sort backtest.byChange candidates)).
  { unfold selected. rewrite ResultsFacts.trades_get by assumption.
    now rewrite Hc. }
  split; [|split].
  - rewrite Hs, length_firstn, SortFacts.sort_length. reflexivity.
  - exists (skipn 2 (sort backtest.byChange candidates)).
    rewrite Hs, firstn_skipn. apply SortFacts.sort_Permutation.
  - intros t Ht. rewrite Hs in Ht.
    assert (H : In t (sort backtest.byChange candidates)).
    { rewrite <- (firstn_skipn 2 (sort _ _)). apply in_or_app. now left. }
    apply SortFacts.sort_In in H. rewrite Hc in H. apply filter_In in H.
    destruct H as [H E]. split; [assumption|now apply String.eqb_eq].
Qed.

Lemma selection_within_candidates_witness :
  List.length
    (backtest.get_array
       (Results.trades (fst (backtest.computation Examples.candidates)))
       "08-01-2018") = 2%nat.
Proof.
  destruct (selection_within_candidates Examples.candidates "08-01-2018")
    as (H & _).
  - vm_compute. left. reflexivity.
  - rewrite H. reflexivity.
Defined.

(** X11, [runBacktest].  The months of [monthlyPnl] are the month labels
    of the dates of [trades], each once, in the order in which the dates,
    taken in the order of [trades], first reach them. *)
Theorem months_in_order_of_first_date (allTrades : list Trade.t) :
  let results := fst (backtest.computation allTrades) in
  keys (Results.monthlyPnl results)
  = OccurrenceFacts.distinct
      (map (fun date => Moment.format_MMM (Moment.parse_DD_MM_YYYY date))
         (keys (Results.trades results)))
  /\ NoDup (keys (Results.monthlyPnl results)).
Proof.
  intros results. unfold results.
  pose proof (ResultsFacts.computation_eq allTrades) as E. cbv zeta in E.
  rewrite E. cbn [fst Results.monthlyPnl Results.trades].
  rewrite ComputationFacts.keys_map_pair.
  rewrite OccurrenceFacts.monthly_keys_eq.
  split; [reflexivity|apply OccurrenceFacts.distinct_NoDup].
Qed.

(** X12, [runBacktest].  A run is fulfilled when the download, if one
    is asked for, is fulfilled, the file of every instrument of the
    universe holds a series, and the two result files are written.
    Conversely, a fulfilled run had its download, if one was asked for,
    fulfilled, no read of a file of the universe failed, none of these
    files was malformed, and the two result files were written. *)
Theorem run_fulfilled_conditions (env : Env) (year : string)
  (shouldDownload : bool) :
  let source :=
    if shouldDownload
    then downloadAllNfoStockHistoricalDataPerYear env year
    else Resolved (fs env) in
  let path symbol := ((year ++ "/" ++ symbol) ++ ".json")%string in
  let written data :=
    fs_write data ((year ++ "/backtest-result") ++ ".json")%string = None
    /\ fs_write data (year ++ "/backtest-result.csv")%string = None in
  (forall data,
      source = Resolved data ->
      (forall symbol, In symbol (nfoStocks env) ->
         exists instrument, fs_read data (path symbol) = Json instrument) ->
      written data ->
      exists results,
        backtest.outcome (backtest.runBacktest env (Some year) shouldDownload)
        = Resolved results)
  /\ (forall results,
        backtest.outcome (backtest.runBacktest env (Some year) shouldDownload)
        = Resolved results ->
        exists data,
          source = Resolved data
          /\ (forall symbol, In symbol (nfoStocks env) ->
                (forall e, fs_read data (path symbol) <> ReadError e)
                /\ fs_read data (path symbol) <> Malformed)
          /\ written data).
Proof.
  intros source path written. split.
  - intros data Hd Hs [Hw1 Hw2]. apply RunFacts.fulfilled_iff.
    exists data. split; [exact Hd|]. split; [|split; assumption].
    intros symbol Hin. destruct (Hs symbol Hin) as [instrument Hi].
    exists instrument. unfold helpers.readFile. fold (path symbol).
    now rewrite Hi.
  - intros results Hrun.
    assert (H : exists r,
               backtest.outcome
                 (backtest.runBacktest env (Some year) shouldDownload)
               = Resolved r) by eauto.
    apply RunFacts.fulfilled_iff in H.
    destruct H as (data & Hd & Hread & Hw1 & Hw2).
    exists data. split; [exact Hd|]. split; [|split; assumption].
    intros symbol Hin. destruct (Hread symbol Hin) as [instrument Hi].
    unfold helpers.readFile in Hi. fold (path symbol) in Hi.
    destruct (fs_read data (path symbol)); try discriminate.
    split; [intros e|]; discriminate.
Qed.

(** X13, [runBacktest].  The two result files are written one after
    the other and nothing is undone: when the JSON file cannot be written
    the run is rejected with nothing written, and when the JSON file is
    written but the CSV file cannot be, the run is rejected with that
    error although the JSON file of the results stays on disk. *)
Theorem failed_write_rejects_run (env : Env) (year : string)
  (tradesPerStock : list (list Trade.t)) :
  Promise_all
    (map (fun symbol => backtest.runTest (fs env) year symbol) (nfoStocks env))
  = Resolved tradesPerStock ->
  let run := backtest.runBacktest env (Some year) false in
  let results := fst (backtest.computation (List.concat tradesPerStock)) in
  let json := ((year ++ "/backtest-result") ++ ".json")%string in
  (forall e, fs_write (fs env) json = Some e ->
             run = {| backtest.outcome := Rejected e; backtest.written := [] |})
  /\ (forall e, fs_write (fs env) json = None ->
                fs_write (fs env) (year ++ "/backtest-result.csv")%string = Some e ->
                run = {| backtest.outcome := Rejected e;
                         backtest.written := [(json, JsonData results)] |}).
Proof.
  intros Hscan run results json. unfold run.
  rewrite (RunFacts.runBacktest_scan _ _ _ Hscan), RunFacts.report_eq.
  fold json. split.
  - intros e ->. reflexivity.
  - intros e -> ->. reflexivity.
Qed.

Lemma failed_write_rejects_run_witness :
  exists results,
    backtest.runBacktest (Scenarios.env Scenarios.csv_locked ["AAA"%string])
      (Some "2018"%string) false
    = {| backtest.outcome := Rejected (OtherError "EACCES");
         backtest.written := [("2018/backtest-result.json"%string, JsonData results)] |}.
Proof.
  eexists.
  refine (proj2 (failed_write_rejects_run
                   (Scenarios.env Scenarios.csv_locked ["AAA"%string]) "2018"
                   [Spec.detector "AAA" (Instrument.ohlc Examples.rally)] _)
            (OtherError "EACCES") _ _).
  - vm_compute. reflexivity.
  - reflexivity.
  - reflexivity.
Defined.

(** X14, [runBacktest].  When no instrument of the universe has five
    bars, all the files being readable and the result files writable, the
    run is fulfilled with the rollup of zero candidates: a yearly total
    of 0, no month, no date and a CSV file with the header only. *)
Theorem short_series_zero_rollup (env : Env) (year : string) :
  (forall symbol, In symbol (nfoStocks env) ->
     exists instrument,
       helpers.readFile (fs env) (year ++ "/" ++ symbol)%string = Resolved instrument
       /\ (List.length (Instrument.ohlc instrument) < 5)%nat) ->
  fs_write (fs env) ((year ++ "/backtest-result") ++ ".json")%string = None ->
  fs_write (fs env) (year ++ "/backtest-result.csv")%string = None ->
  let zero := {| Results.yearlyPnl := 0; Results.monthlyPnl := [];
                 Results.trades := [] |} in
  backtest.runBacktest env (Some year) false
  = {| backtest.outcome := Resolved zero;
       backtest.written :=
         [(((year ++ "/backtest-result") ++ ".json")%string, JsonData zero);
          ((year ++ "/backtest-result.csv")%string,
           TextData [CsvText "Date,PnL%"])] |}.
Proof.
  intros Hshort Hw1 Hw2 zero.
  assert (Hscan : Promise_all
                    (map (fun symbol => backtest.runTest (fs env) year symbol)
                       (nfoStocks env))
                  = Resolved (map (fun _ => []) (nfoStocks env))).
  { apply RunFacts.Promise_all_map. intros symbol Hin.
    destruct (Hshort symbol Hin) as (instrument & Hread & Hlen).
    unfold backtest.runTest. rewrite Hread. cbn [bind].
    replace (Z.to_nat (Z.of_nat (List.length (Instrument.ohlc instrument)) - 4))
      with 0%nat by lia.
    reflexivity. }
  rewrite (RunFacts.runBacktest_scan _ _ _ Hscan), RunFacts.report_eq.
  rewrite RunFacts.concat_map_nil, Hw1, Hw2. reflexivity.
Qed.

Lemma short_series_zero_rollup_witness :
  backtest.outcome
    (backtest.runBacktest (Examples.env ["CCC"%string]) (Some "2018"%string) false)
  = Resolved {| Results.yearlyPnl := 0; Results.monthlyPnl := [];
                Results.trades := [] |}.
Proof.
  rewrite (short_series_zero_rollup (Examples.env ["CCC"%string]) "2018").
  - reflexivity.
  - intros symbol [<-|[]]. exists Examples.short. split; [reflexivity|cbn; lia].
  - reflexivity.
  - reflexivity.
Defined.

(** X15, [runBacktest].  Every trade a fulfilled run reports comes from
    the scan: it is filed under its own signal date, with one or two
    trades per date, and it is a candidate that [runTest] returned for an
    instrument of the universe, whose symbol it carries. *)
Theorem reported_trades_come_from_scan (env : Env) (year : string)
  (results : Results.t) :
  backtest.outcome (backtest.runBacktest env (Some year) false) = Resolved results ->
  forall date selected,
    In (date, selected) (Results.trades results) ->
    (1 <= List.length selected <= 2)%nat
    /\ forall t, In t selected ->
         Trade.date t = date
         /\ In (Trade.symbol t) (nfoStocks env)
         /\ exists allTrades,
              backtest.runTest (fs env) year (Trade.symbol t) = Resolved allTrades
              /\ In t allTrades.
Proof.
  intros Hrun date selected Hin.
  destruct (ScanFacts.runBacktest_Resolved _ _ _ Hrun)
    as (tradesPerStock & Hscan & -> & _).
  pose proof (ResultsFacts.computation_eq (List.concat tradesPerStock)) as E.
  cbv zeta in E. rewrite E in Hin. cbn [fst Results.trades] in Hin.
  apply in_map_iff in Hin. destruct Hin as (d & [= <- <-] & Hd).
  apply (Permutation_in _ (ResultsFacts.dates_Permutation _)) in Hd.
  split.
  - unfold backtest.topTwo, slice0. rewrite length_firstn, SortFacts.sort_length.
    pose proof (GroupFacts.groupByDate_nonempty _ _ Hd) as Hne.
    destruct (backtest.get_array _ d) as [|x l]; [contradiction|].
    cbn [List.length]. lia.
  - intros t Ht. apply RunFacts.topTwo_In in Ht. destruct Ht as [Ht Hdate].
    split; [assumption|].
    apply in_concat in Ht. destruct Ht as (ts & Hts & Ht).
    destruct (ScanFacts.Promise_all_map_In _ _ _ _ Hscan Hts)
      as (symbol & Hsym & Hrt).
    assert (Es : Trade.symbol t = symbol).
    { destruct (ScanFacts.runTest_Resolved _ _ _ _ Hrt) as (i & _ & ->).
      apply DetectorFacts.detector_In in Ht.
      destruct Ht as (d0 & d1 & d2 & d3 & d4 & _ & _ & ->). reflexivity. }
    rewrite Es. split; [assumption|]. now exists ts.
Qed.

Lemma reported_trades_come_from_scan_witness :
  exists results,
    backtest.outcome
      (backtest.runBacktest (Examples.env ["AAA"%string]) (Some "2018"%string) false)
    = Resolved results
    /\ forall date selected,
         In (date, selected) (Results.trades results) ->
         (1 <= List.length selected <= 2)%nat.
Proof.
  eexists. split; [vm_compute; reflexivity|].
  intros date selected Hin.
  refine (proj1 (reported_trades_come_from_scan (Examples.env ["AAA"%string])
                   "2018" _ _ date selected Hin)).
  vm_compute. reflexivity.
Defined.

(** What keeps the module variable [instruments] as it is. *)
Module MemoryFacts.
Import kite_helpers.

Lemma readFile_keeps (filename : string) (s : State) :
  instruments (snd (readFile filename s)) = instruments s.
Proof.
  unfold readFile. destruct (get (files s) _) as [[v0|]|]; reflexivity.
Qed.

Lemma downloadHistoricalData_keeps (w : World) (s : State) (v : Json.t)
  (symbol startDate endDate : string) :
  instruments s = Some v -> Json.truthy v = true ->
  instruments (snd (downloadHistoricalData w symbol startDate endDate s))
  = Some v.
Proof.
  intros Hc Ht. unfold downloadHistoricalData.
  unfold await at 1. rewrite (BrokerFacts.getInstruments_warm w s v Hc Ht).
  unfold await at 1. unfold lift at 1.
  destruct (Json.find v symbol) as [[instrument|]|e|e]; try exact Hc.
  unfold await, lift.
  destruct (KiteConnect.getHistoricalData _ _ _ _ _ _); try exact Hc.
  now rewrite BrokerFacts.writeFile_instruments.
Qed.

Lemma downloads_keeps (w : World) (symbols : list string)
  (startDate endDate : string) (v : Json.t) (s : State) :
  instruments s = Some v -> Json.truthy v = true ->
  instruments (snd (downloads w symbols startDate endDate s)) = Some v.
Proof.
  intros Hc Ht. revert s Hc.
  induction symbols as [|symbol rest IH]; intros s Hc; [exact Hc|].
  cbn [downloads].
  pose proof (downloadHistoricalData_keeps w s v symbol startDate endDate Hc Ht)
    as H1.
  destruct (downloadHistoricalData w symbol startDate endDate s) as [promise s1].
  cbn [snd] in H1. specialize (IH s1 H1).
  destruct (downloads w rest startDate endDate s1) as [promises s2].
  exact IH.
Qed.

Lemma perYear_keeps (w : World) (nfoStocks : list string) (year : string)
  (v : Json.t) (s : State) :
  instruments s = Some v -> Json.truthy v = true ->
  instruments (snd (downloadAllNfoStockHistoricalDataPerYear w nfoStocks year s))
  = Some v.
Proof.
  intros Hc Ht.
  unfold downloadAllNfoStockHistoricalDataPerYear,
    downloadAllNfoStockHistoricalData.
  destruct (year_range w year) as [startDate endDate].
  pose proof (downloads_keeps w nfoStocks startDate endDate v s Hc Ht) as H.
  destruct (downloads w nfoStocks startDate endDate s) as [promises s'].
  exact H.
Qed.

End MemoryFacts.

(** X16, [getInstruments].  Once [getInstruments] has been fulfilled
    with a truthy value, the module variable holds that value.  In every
    state where the variable holds it, whatever the files, the
    directories and the broker are, [getInstruments] is fulfilled with it
    from memory and leaves the state as it is, and [readFile],
    [writeFile], [downloadHistoricalData] and the downloads of a universe
    keep it in the variable.  Only
    [downloadInstruments] assigns the variable again: when its call of the
    broker is fulfilled, the variable holds the list the broker sent. *)
Theorem getInstruments_answers_from_memory (w : World) (s s' : State)
  (v : Json.t) :
  kite_helpers.getInstruments w s = (Resolved v, s') ->
  Json.truthy v = true ->
  instruments s' = Some v
  /\ (forall w' s2,
        instruments s2 = Some v ->
        kite_helpers.getInstruments w' s2 = (Resolved v, s2)
        /\ (forall filename,
              instruments (snd (kite_helpers.readFile filename s2)) = Some v)
        /\ (forall filename data,
              instruments (snd (kite_helpers.writeFile w' filename data s2))
              = Some v)
        /\ (forall symbol startDate endDate,
              instruments
                (snd (kite_helpers.downloadHistoricalData w' symbol startDate
                        endDate s2))
              = Some v)
        /\ (forall nfoStocks year,
              instruments
                (snd (kite_helpers.downloadAllNfoStockHistoricalDataPerYear w'
                        nfoStocks year s2))
              = Some v))
  /\ (forall w' s2 l,
        KiteConnect.getInstruments (kite w') "NSE" = Resolved l ->
        instruments (snd (kite_helpers.downloadInstruments w' s2))
        = Some (Json.Instruments l)).
Proof.
  intros H Ht. split; [now apply (BrokerFacts.getInstruments_cached w s)|].
  split.
  - intros w' s2 Hc.
    pose proof (BrokerFacts.getInstruments_warm w' s2 v Hc Ht) as Hwarm.
    split; [exact Hwarm|]. split; [|split; [|split]].
    + intros filename. now rewrite MemoryFacts.readFile_keeps.
    + intros filename data. now rewrite BrokerFacts.writeFile_instruments.
    + intros symbol startDate endDate.
      now apply MemoryFacts.downloadHistoricalData_keeps.
    + intros nfoStocks year. now apply MemoryFacts.perYear_keeps.
  - intros w' s2 l Hl. rewrite BrokerFacts.downloadInstruments_eq, Hl.
    cbv zeta. destruct (write_error w' _); reflexivity.
Qed.

Lemma getInstruments_answers_from_memory_witness :
  exists s',
    kite_helpers.getInstruments (Scenarios.world Scenarios.broker) Scenarios.fresh
    = (Resolved (Json.Instruments Scenarios.listing), s')
    /\ instruments s' = Some (Json.Instruments Scenarios.listing)
    /\ kite_helpers.getInstruments (Scenarios.world Scenarios.unreachable)
         Scenarios.logged_in
       = (Resolved (Json.Instruments Scenarios.listing), Scenarios.logged_in).
Proof.
  eexists. split; [reflexivity|].
  destruct (getInstruments_answers_from_memory (Scenarios.world Scenarios.broker)
              Scenarios.fresh _ (Json.Instruments Scenarios.listing)
              eq_refl eq_refl) as (H1 & H2 & _).
  split; [exact H1|].
  apply (H2 (Scenarios.world Scenarios.unreachable) Scenarios.logged_in).
  reflexivity.
Defined.

(** X17, [getInstruments] and [downloadInstruments].  The list that
    [downloadInstruments] saves is never read back: it is written to
    [instruments.json], while [getInstruments] reads [instrument.json].
    A process that starts without [instrument.json] asks the broker, and
    fails as the broker fails, whatever [instruments.json] holds; and a
    fulfilled [downloadInstruments] changes no file but
    [instruments.json]. *)
Theorem saved_instruments_are_not_read_back (w : World) (s : State) :
  instruments s = None ->
  get (files s) "instrument.json"%string = None ->
  (forall e,
      KiteConnect.getInstruments (kite w) "NSE" = Rejected e ->
      kite_helpers.getInstruments w s = (Rejected e, s))
  /\ (forall v s',
        kite_helpers.downloadInstruments w s = (Resolved v, s') ->
        get (files s') "instruments.json"%string = Some (JsonText v)
        /\ forall path, path <> "instruments.json"%string ->
                        get (files s') path = get (files s) path).
Proof.
  intros Hc Hf. split.
  - intros e He. rewrite (BrokerFacts.getInstruments_cold w s Hc Hf).
    unfold kite_helpers.await. rewrite BrokerFacts.downloadInstruments_eq, He.
    reflexivity.
  - intros v s'. rewrite BrokerFacts.downloadInstruments_eq.
    destruct (KiteConnect.getInstruments (kite w) "NSE"); try discriminate.
    cbv zeta. destruct (write_error w "instruments.json"%string); try discriminate.
    intros [= <- <-]. cbn [files]. split.
    + apply ObjectFacts.get_set_same.
    + intros path Hp. now apply ObjectFacts.get_set_other.
Qed.

Lemma saved_instruments_are_not_read_back_witness :
  get (files Scenarios.saved) "instruments.json"%string
  = Some (JsonText (Json.Instruments Scenarios.listing))
  /\ kite_helpers.getInstruments (Scenarios.world Scenarios.unreachable)
       Scenarios.saved
     = (Rejected (OtherError "offline"), Scenarios.saved).
Proof.
  split; [reflexivity|].
  apply (saved_instruments_are_not_read_back
           (Scenarios.world Scenarios.unreachable) Scenarios.saved);
    reflexivity.
Defined.

(** X18, [downloadInstruments].  The list is put in the module variable
    before it is saved: when the save fails, [downloadInstruments] is
    rejected with the error of the write and no file is changed, yet the
    list stays in memory and the next [getInstruments] is fulfilled with
    it. *)
Theorem failed_save_keeps_list_in_memory (w : World) (s : State)
  (l : list InstrumentInfo.t) (err : Error) :
  KiteConnect.getInstruments (kite w) "NSE" = Resolved l ->
  write_error w "instruments.json"%string = Some err ->
  exists s',
    kite_helpers.downloadInstruments w s = (Rejected err, s')
    /\ files s' = files s
    /\ forall w', kite_helpers.getInstruments w' s'
                  = (Resolved (Json.Instruments l), s').
Proof.
  intros Hl Hw. rewrite BrokerFacts.downloadInstruments_eq, Hl. cbv zeta.
  rewrite Hw. eexists. split; [reflexivity|]. split; [reflexivity|].
  intros w'. now apply BrokerFacts.getInstruments_warm.
Qed.

Lemma failed_save_keeps_list_in_memory_witness :
  exists s',
    kite_helpers.downloadInstruments (Scenarios.read_only Scenarios.broker)
      Scenarios.fresh
    = (Rejected (OtherError "EROFS"), s')
    /\ files s' = files Scenarios.fresh
    /\ forall w', kite_helpers.getInstruments w' s'
                  = (Resolved (Json.Instruments Scenarios.listing), s').
Proof.
  apply (failed_save_keeps_list_in_memory (Scenarios.read_only Scenarios.broker)
           Scenarios.fresh Scenarios.listing); reflexivity.
Defined.

(** X19, [downloadHistoricalData].  For a symbol that the list of
    instruments does not hold, the download is fulfilled, the error being
    only logged, and nothing is asked for nor written: the state is the
    one [getInstruments] leaves. *)
Theorem unknown_symbol_downloads_nothing (w : World) (s s1 : State)
  (l : list InstrumentInfo.t) (symbol startDate endDate : string) :
  kite_helpers.getInstruments w s = (Resolved (Json.Instruments l), s1) ->
  (forall i, In i l -> InstrumentInfo.tradingsymbol i <> symbol) ->
  kite_helpers.downloadHistoricalData w symbol startDate endDate s
  = (Resolved tt, s1).
Proof.
  intros Hl Hs. unfold kite_helpers.downloadHistoricalData.
  unfold kite_helpers.await at 1. rewrite Hl.
  unfold kite_helpers.await, kite_helpers.lift. cbn [Json.find].
  destruct (List.find _ l) as [i|] eqn:E; [|reflexivity].
  apply find_some in E. destruct E as [Hi E]. apply String.eqb_eq in E.
  now apply Hs in Hi.
Qed.

Lemma unknown_symbol_downloads_nothing_witness :
  exists s1,
    kite_helpers.downloadHistoricalData (Scenarios.world Scenarios.broker)
      "ZZZ" "2018-01-01 12:00:01" "2018-12-31 11:59:59" Scenarios.fresh
    = (Resolved tt, s1)
    /\ get (files s1) "2018/ZZZ.json"%string = None.
Proof.
  eexists. split.
  - apply (unknown_symbol_downloads_nothing (Scenarios.world Scenarios.broker)
             Scenarios.fresh _ Scenarios.listing).
    + reflexivity.
    + intros i [<-|[<-|[]]]; discriminate.
  - reflexivity.
Defined.

(** X20, [downloadHistoricalData] with [runTest].  For a listed symbol
    whose bars the broker sends on calendar days, the download writes
    [<year>/<symbol>.json], and [helpers.readFile] of [<year>/<symbol>], the
    name [runTest] reads, gives that series back: the bars the broker
    sent, as JSON carries them (unchanged when the prices are finite and
    none is [-0]), ordered from the most recent day to the oldest, which
    is the order [runTest] relies on; the scan of the instrument is then
    fulfilled. *)
Theorem downloaded_series_is_read_most_recent_first (w : World) (s s1 : State)
  (l : list InstrumentInfo.t) (symbol startDate endDate : string)
  (instrument : InstrumentInfo.t) (data : list Bar.t) :
  let year := moment_YYYY w endDate in
  kite_helpers.getInstruments w s = (Resolved (Json.Instruments l), s1) ->
  List.find (fun i => String.eqb (InstrumentInfo.tradingsymbol i) symbol) l
  = Some instrument ->
  KiteConnect.getHistoricalData (kite w)
    (InstrumentInfo.instrument_token instrument) "day" startDate endDate false
  = Resolved data ->
  write_error w ((year ++ "/" ++ symbol) ++ ".json")%string = None ->
  Forall (fun b => Moment.isValid (Bar.date b) = true) data ->
  exists s' ohlc,
    kite_helpers.downloadHistoricalData w symbol startDate endDate s
    = (Resolved tt, s')
    /\ helpers.readFile (kite_helpers.mount w s') (year ++ "/" ++ symbol)%string
       = Resolved {| Instrument.ohlc := ohlc |}
    /\ Permutation ohlc (map Json.reparse_bar data)
    /\ (Forall (fun b => BrokerFacts.carried (Bar.open b)
                         /\ BrokerFacts.carried (Bar.close b)) data ->
        Permutation ohlc data)
    /\ StronglySorted
         (fun newer older =>
            (Moment.rank (Bar.date older) <= Moment.rank (Bar.date newer))%Z)
         ohlc
    /\ exists allTrades,
         backtest.runTest (kite_helpers.mount w s') year symbol
         = Resolved allTrades.
Proof.
  intros year Hl Hfind Hdata Hw Hv.
  set (ohlc := map Json.reparse_bar (sort kite_helpers.byTime data)).
  assert (Hd : exists s',
             kite_helpers.downloadHistoricalData w symbol startDate endDate s
             = (Resolved tt, s')
             /\ get (files s') ((year ++ "/" ++ symbol) ++ ".json")%string
                = Some (JsonText (Json.Series instrument ohlc))).
  { unfold kite_helpers.downloadHistoricalData.
    unfold kite_helpers.await at 1. rewrite Hl.
    unfold kite_helpers.await at 1. unfold kite_helpers.lift at 1.
    cbn [Json.find]. rewrite Hfind.
    unfold kite_helpers.await, kite_helpers.lift. rewrite Hdata.
    unfold kite_helpers.writeFile. fold year. rewrite Hw.
    eexists. split; [reflexivity|]. cbn [files].
    apply ObjectFacts.get_set_same. }
  destruct Hd as (s' & Hrun & Hfile).
  assert (Hread : helpers.readFile (kite_helpers.mount w s')
                    (year ++ "/" ++ symbol)%string
                  = Resolved {| Instrument.ohlc := ohlc |}).
  { unfold helpers.readFile, kite_helpers.mount. cbn [fs_read].
    now rewrite Hfile. }
  exists s', ohlc. split; [assumption|]. split; [assumption|].
  split; [|split; [|split]].
  - unfold ohlc. apply Permutation_map, SortFacts.sort_Permutation.
  - intros Hfin. rewrite <- (BrokerFacts.reparse_bars_id data Hfin) at 1.
    unfold ohlc. apply Permutation_map, SortFacts.sort_Permutation.
  - now apply BrokerFacts.sort_recent_first.
  - eexists. apply (DetectorFacts.runTest_detector _ _ _ _ Hread).
Qed.

Lemma downloaded_series_is_read_most_recent_first_witness :
  exists s',
    kite_helpers.downloadHistoricalData (Scenarios.world Scenarios.broker)
      "AAA" "2018-01-01 12:00:01" "2018-12-31 11:59:59" Scenarios.fresh
    = (Resolved tt, s')
    /\ helpers.readFile (kite_helpers.mount (Scenarios.world Scenarios.broker) s')
         "2018/AAA"
       = Resolved Examples.rally.
Proof.
  destruct (downloaded_series_is_read_most_recent_first
              (Scenarios.world Scenarios.broker) Scenarios.fresh
              {| instruments := Some (Json.Instruments Scenarios.listing);
                 dirs := [];
                 files := [("instruments.json"%string,
                            JsonText (Json.Instruments Scenarios.listing))] |}
              Scenarios.listing "AAA" "2018-01-01 12:00:01" "2018-12-31 11:59:59"
              {| InstrumentInfo.tradingsymbol := "AAA";
                 InstrumentInfo.instrument_token := 1 |}
              (rev (Instrument.ohlc Examples.rally)))
    as (s' & ohlc & H1 & H2 & _).
  - reflexivity.
  - reflexivity.
  - reflexivity.
  - reflexivity.
  - repeat constructor.
  - exists s'. split; [exact H1|].
    vm_compute in H1. injection H1 as <-. vm_compute. reflexivity.
Defined.

(** X27, [getInstruments].  When the module variable is empty, a
    readable [instrument.json] is taken as the list without asking the
    broker, and a missing one is replaced by a download; but a malformed
    one is not: the [SyntaxError] of [JSON.parse] is thrown from the
    callback of [fs.readFile], where the [try] does not reach, so it
    escapes and nothing is downloaded. *)
Theorem getInstruments_reads_before_download (w : World) (s : State) :
  instruments s = None ->
  match get (files s) "instrument.json"%string with
  | Some (JsonText v) =>
      kite_helpers.getInstruments w s
      = (Resolved v,
         {| instruments := Some v; dirs := dirs s; files := files s |})
  | Some Garbled => kite_helpers.getInstruments w s = (Uncaught SyntaxError, s)
  | None =>
      kite_helpers.getInstruments w s
      = match kite_helpers.downloadInstruments w s with
        | (Resolved v, s') =>
            (Resolved v,
             {| instruments := Some v; dirs := dirs s'; files := files s' |})
        | failed => failed
        end
  end.
Proof.
  intros Hc. unfold kite_helpers.getInstruments. rewrite Hc.
  unfold kite_helpers.loadInstruments, kite_helpers.try_catch,
    kite_helpers.await, kite_helpers.readFile, kite_helpers.assign.
  cbv zeta. change ("instrument" ++ ".json")%string with "instrument.json"%string.
  destruct (get (files s) "instrument.json"%string) as [[v|]|]; reflexivity.
Qed.

Lemma getInstruments_reads_before_download_witness :
  kite_helpers.getInstruments (Scenarios.world Scenarios.unreachable)
    {| instruments := None; dirs := [];
       files := [("instrument.json"%string, Garbled)] |}
  = (Uncaught SyntaxError,
     {| instruments := None; dirs := [];
        files := [("instrument.json"%string, Garbled)] |}).
Proof.
  exact (getInstruments_reads_before_download
           (Scenarios.world Scenarios.unreachable)
           {| instruments := None; dirs := [];
              files := [("instrument.json"%string, Garbled)] |} eq_refl).
Defined.

(** X21, [writeFile].  Writing an object under a filename does not
    touch the module variable, and after a fulfilled write [readFile] of
    the same filename gives the value back, as JSON carries it.  No
    directory is removed and none is created for a filename without [/];
    when the filename is [dir/rest] with no [/] in [dir] and the write is
    fulfilled, the directory [dir] exists afterwards. *)
Theorem writeFile_then_readFile (w : World) (filename : string)
  (data : Json.t) (s : State) :
  let s' := snd (kite_helpers.writeFile w filename data s) in
  instruments s' = instruments s
  /\ (fst (kite_helpers.writeFile w filename data s) = Resolved tt ->
      kite_helpers.readFile filename s' = (Resolved (Json.reparse data), s'))
  /\ (forall dir rest,
        ~ In "/"%char (list_ascii_of_string dir) ->
        filename = (dir ++ "/" ++ rest)%string ->
        fst (kite_helpers.writeFile w filename data s) = Resolved tt ->
        In dir (dirs s'))
  /\ (forall dir, In dir (dirs s) -> In dir (dirs s'))
  /\ (~ In "/"%char (list_ascii_of_string filename) -> dirs s' = dirs s).
Proof.
  intros s'. subst s'. unfold kite_helpers.writeFile.
  set (ds := match kite_helpers.dirname filename with
             | Some dirname =>
                 if existsb (String.eqb dirname) (dirs s) then dirs s
                 else (dirs s ++ [dirname])%list
             | None => dirs s
             end).
  assert (Hds : forall dir, In dir (dirs s) -> In dir ds).
  { intros dir Hin. unfold ds. destruct (kite_helpers.dirname filename) as [d|];
      [|assumption].
    destruct (existsb _ _); [assumption|]. apply in_or_app. now left. }
  assert (Hnew : forall dir rest,
             ~ In "/"%char (list_ascii_of_string dir) ->
             filename = (dir ++ "/" ++ rest)%string -> In dir ds).
  { intros dir rest Hdir ->. unfold ds.
    rewrite (BrokerFacts.dirname_app dir rest Hdir).
    destruct (existsb (String.eqb dir) (dirs s)) eqn:E.
    - apply existsb_exists in E. destruct E as (d & Hd & E).
      apply String.eqb_eq in E. now subst.
    - apply in_or_app. right. now left. }
  assert (Hnone : ~ In "/"%char (list_ascii_of_string filename) -> ds = dirs s).
  { intros H. apply BrokerFacts.dirname_None in H. unfold ds. now rewrite H. }
  destruct (write_error w (filename ++ ".json")%string) as [err|];
    cbn [fst snd instruments files dirs].
  - split; [reflexivity|]. split; [discriminate|].
    split; [discriminate|]. split; assumption.
  - split; [reflexivity|]. split.
    { intros _. unfold kite_helpers.readFile. cbn [files].
      now rewrite ObjectFacts.get_set_same. }
    split; [intros dir rest Hd Hf _; now apply (Hnew dir rest)|].
    split; assumption.
Qed.

(** X22, [GET /login/callback].  Unless [status] is exactly
    ['success'] the answer is 401 and nothing happens: no session is
    asked for and the state is left as it is.  With that status, a
    rejected session is answered by 400 with its error, and a session
    followed by a download and a save of the instruments is answered by
    the success message; the list the broker sent is then in the module
    variable and in [instruments.json], and [getInstruments] is fulfilled
    with it in every state where the variable holds it, that is until a
    later [downloadInstruments] assigns the variable again. *)
Theorem login_callback_answers (w : World) (status request_token : option string)
  (s : State) :
  (status <> Some "success"%string ->
   index.login_callback w status request_token s = (Some index.Unauthorized, s))
  /\ (status = Some "success"%string ->
      forall err,
        KiteConnect.generateSession (kite w) request_token = Rejected err ->
        index.login_callback w status request_token s
        = (Some (index.BadRequest err), s))
  /\ (status = Some "success"%string ->
      forall session l,
        KiteConnect.generateSession (kite w) request_token = Resolved session ->
        KiteConnect.getInstruments (kite w) "NSE" = Resolved l ->
        write_error w "instruments.json"%string = None ->
        exists s',
          index.login_callback w status request_token s
          = (Some (index.Send
                     (Session.user_name session ++ " logged in successfully at "
                      ++ Session.login_time session)%string), s')
          /\ instruments s' = Some (Json.Instruments l)
          /\ get (files s') "instruments.json"%string
             = Some (JsonText (Json.Instruments l))
          /\ forall w' s2,
               instruments s2 = Some (Json.Instruments l) ->
               kite_helpers.getInstruments w' s2
               = (Resolved (Json.Instruments l), s2)).
Proof.
  unfold index.login_callback, kite_helpers.generateSession. split; [|split].
  - intros H. destruct status as [st|]; [|reflexivity].
    destruct (String.eqb st "success") eqn:E; [|reflexivity].
    apply String.eqb_eq in E. congruence.
  - intros -> err He. cbv zeta. rewrite String.eqb_refl. cbn [negb].
    now rewrite He.
  - intros -> session l Hs Hl Hw. cbv zeta. rewrite String.eqb_refl. cbn [negb].
    rewrite Hs, BrokerFacts.downloadInstruments_eq, Hl. cbv zeta.
    rewrite Hw. eexists. split; [reflexivity|]. cbn [instruments files].
    split; [reflexivity|]. split; [apply ObjectFacts.get_set_same|].
    intros w' s2 Hc. now apply BrokerFacts.getInstruments_warm.
Qed.

Lemma login_callback_answers_witness :
  index.login_callback (Scenarios.world Scenarios.broker) (Some "failure"%string)
    (Some "token"%string) Scenarios.fresh
  = (Some index.Unauthorized, Scenarios.fresh)
  /\ exists s',
       index.login_callback (Scenarios.world Scenarios.broker)
         (Some "success"%string) (Some "token"%string) Scenarios.fresh
       = (Some (index.Send "trader logged in successfully at Mon Jan 01 2018"), s')
       /\ instruments s' = Some (Json.Instruments Scenarios.listing).
Proof.
  split.
  - apply (login_callback_answers (Scenarios.world Scenarios.broker)
             (Some "failure"%string) (Some "token"%string) Scenarios.fresh).
    discriminate.
  - destruct (login_callback_answers (Scenarios.world Scenarios.broker)
                (Some "success"%string) (Some "token"%string) Scenarios.fresh)
      as (_ & _ & H).
    destruct (H eq_refl _ Scenarios.listing eq_refl eq_refl eq_refl)
      as (s' & H1 & H2 & _).
    exists s'. split; [exact H1|exact H2].
Defined.

(** X23, [GET /backtest].  [shouldDownload] is read as a boolean by
    [!!]: every non-empty value, ['false'] and ['0'] included, asks for the
    download, so that a failing download is answered by 400 with its
    error before any file is read; an empty or absent value asks for none,
    and an absent [year] is the year 2018. *)
Theorem backtest_route_download_flag (env : Env) (year : option string)
  (flag : string) :
  flag <> ""%string ->
  index.backtest_route env year (Some flag)
  = index.backtest_route env year (Some "yes"%string)
  /\ (forall err,
        downloadAllNfoStockHistoricalDataPerYear env
          (match year with Some y => y | None => "2018"%string end)
        = Rejected err ->
        index.backtest_route env year (Some flag)
        = Some (index.BadRequest err))
  /\ index.backtest_route env year (Some ""%string)
     = index.backtest_route env year None
  /\ index.backtest_route env None (Some flag)
     = index.backtest_route env (Some "2018"%string) (Some flag).
Proof.
  intros Hf.
  assert (Ht : index.truthy (Some flag) = true)
    by (destruct flag; [contradiction|reflexivity]).
  unfold index.backtest_route. rewrite Ht. cbn [index.truthy].
  split; [reflexivity|]. split; [|split; reflexivity].
  intros err He. unfold backtest.runBacktest. rewrite He. reflexivity.
Qed.

Lemma backtest_route_download_flag_witness :
  index.backtest_route (Examples.env ["AAA"%string]) None (Some "false"%string)
  = Some (index.BadRequest (OtherError "offline")).
Proof.
  refine (proj1 (proj2 (backtest_route_download_flag (Examples.env ["AAA"%string])
                          None "false" _)) _ _).
  - discriminate.
  - reflexivity.
Defined.

(** X24, [downloadAllNfoStockHistoricalDataPerYear] with [runBacktest].
    In a process that has the list of instruments in memory, when every
    symbol of the universe is listed, the broker sends its bars, every
    file can be written and [moment] reads the year back from the end
    date, a run that asks for the download is fulfilled: the download
    leaves under [<year>/<symbol>.json] a series that [runTest] reads, for
    every symbol of the universe. *)
Theorem download_then_backtest_is_fulfilled (w : World) (universe : list string)
  (s : State) (l : list InstrumentInfo.t) (year : string) :
  instruments s = Some (Json.Instruments l) ->
  moment_YYYY w (snd (year_range w year)) = year ->
  (forall symbol, In symbol universe ->
     exists instrument data,
       List.find (fun i => String.eqb (InstrumentInfo.tradingsymbol i) symbol) l
       = Some instrument
       /\ KiteConnect.getHistoricalData (kite w)
            (InstrumentInfo.instrument_token instrument) "day"
            (fst (year_range w year)) (snd (year_range w year)) false
          = Resolved data) ->
  (forall path, write_error w path = None) ->
  exists results,
    backtest.outcome (backtest.runBacktest (env_of w universe s) (Some year) true)
    = Resolved results.
Proof.
  intros Hc Hy Hsym Hw. apply RunFacts.fulfilled_iff.
  cbn [env_of downloadAllNfoStockHistoricalDataPerYear nfoStocks].
  unfold kite_helpers.downloadAllNfoStockHistoricalDataPerYear.
  destruct (year_range w year) as [startDate endDate]. cbn [fst snd] in *.
  unfold kite_helpers.downloadAllNfoStockHistoricalData.
  pose proof (DownloadFacts.downloads_all w universe startDate endDate l s
                Hc Hsym Hw) as H.
  cbv zeta in H. destruct H as (H1 & _ & H3).
  destruct (kite_helpers.downloads w universe startDate endDate s) as [ps s'].
  cbn [fst snd] in *. rewrite H1. cbn [bind].
  exists (kite_helpers.mount w s'). split; [reflexivity|]. split.
  - intros symbol Hin. apply DownloadFacts.mount_series.
    rewrite <- Hy. now apply H3.
  - split; apply Hw.
Qed.

Lemma download_then_backtest_is_fulfilled_witness :
  exists results,
    backtest.outcome
      (backtest.runBacktest
         (env_of (Scenarios.world Scenarios.broker) ["AAA"%string]
            Scenarios.logged_in)
         (Some "2018"%string) true)
    = Resolved results.
Proof.
  apply (download_then_backtest_is_fulfilled (Scenarios.world Scenarios.broker)
           ["AAA"%string] Scenarios.logged_in Scenarios.listing "2018").
  - reflexivity.
  - reflexivity.
  - intros symbol [<-|[]]. eexists. eexists. split; reflexivity.
  - reflexivity.
Defined.

(** X25, [downloadHistoricalData] with [runBacktest].  A symbol of the
    universe that the list of instruments does not hold is only logged by
    the download, which goes on and may well be fulfilled; the run that
    asked for the download is then not fulfilled when no file of that
    symbol was there before: the scan of the symbol fails on the missing
    file. *)
Theorem unlisted_symbol_fails_run_after_download (w : World)
  (universe : list string) (s : State) (l : list InstrumentInfo.t)
  (year symbol : string) :
  instruments s = Some (Json.Instruments l) ->
  moment_YYYY w (snd (year_range w year)) = year ->
  In symbol universe ->
  (forall i, In i l -> InstrumentInfo.tradingsymbol i <> symbol) ->
  get (files s) ((year ++ "/" ++ symbol) ++ ".json")%string = None ->
  forall results,
    backtest.outcome (backtest.runBacktest (env_of w universe s) (Some year) true)
    <> Resolved results.
Proof.
  intros Hc Hy Hin Hl Hf results Hrun.
  assert (H : exists r,
             backtest.outcome
               (backtest.runBacktest (env_of w universe s) (Some year) true)
             = Resolved r) by eauto.
  apply RunFacts.fulfilled_iff in H. destruct H as (data & Hd & Hread & _).
  cbn [env_of downloadAllNfoStockHistoricalDataPerYear nfoStocks] in Hd, Hread.
  unfold kite_helpers.downloadAllNfoStockHistoricalDataPerYear in Hd.
  destruct (year_range w year) as [startDate endDate]. cbn [snd] in Hy.
  unfold kite_helpers.downloadAllNfoStockHistoricalData in Hd.
  pose proof (DownloadFacts.downloads_absent w universe startDate endDate l s
                symbol Hc (DownloadFacts.listed_None _ _ Hl)) as Ha.
  rewrite Hy in Ha. specialize (Ha Hf).
  destruct (kite_helpers.downloads w universe startDate endDate s) as [ps s'].
  cbn [snd] in Ha.
  destruct (Promise_all ps) as [x|e|e]; cbn [bind] in Hd; try discriminate.
  injection Hd as <-.
  destruct (Hread symbol Hin) as [instrument Hi].
  rewrite (DownloadFacts.mount_absent w s' year symbol Ha) in Hi. discriminate.
Qed.

Lemma unlisted_symbol_fails_run_after_download_witness :
  fst (kite_helpers.downloadAllNfoStockHistoricalDataPerYear
         (Scenarios.world Scenarios.broker) ["AAA"; "ZZZ"]%string "2018"
         Scenarios.logged_in)
  = Resolved tt
  /\ forall results,
       backtest.outcome
         (backtest.runBacktest
            (env_of (Scenarios.world Scenarios.broker) ["AAA"; "ZZZ"]%string
               Scenarios.logged_in)
            (Some "2018"%string) true)
       <> Resolved results.
Proof.
  split; [reflexivity|].
  apply (unlisted_symbol_fails_run_after_download
           (Scenarios.world Scenarios.broker) ["AAA"; "ZZZ"]%string
           Scenarios.logged_in Scenarios.listing "2018" "ZZZ").
  - reflexivity.
  - reflexivity.
  - right. left. reflexivity.
  - intros i [<-|[<-|[]]]; discriminate.
  - reflexivity.
Defined.

(** X26, [downloadAllNfoStockHistoricalData].  A download that fails
    does not stop the others: the timers are all set before any download
    settles, so, in a process that has the list of instruments in
    memory, the series of every listed symbol of the universe that the
    broker sends and the disk accepts is written, whatever happens to the
    other symbols and whether or not the promise of the whole download is
    fulfilled. *)
Theorem failed_download_does_not_stop_the_others (w : World)
  (universe : list string) (startDate endDate : string) (s : State)
  (l : list InstrumentInfo.t) (symbol : string) (instrument : InstrumentInfo.t)
  (data : list Bar.t) :
  instruments s = Some (Json.Instruments l) ->
  In symbol universe ->
  List.find (fun i => String.eqb (InstrumentInfo.tradingsymbol i) symbol) l
  = Some instrument ->
  KiteConnect.getHistoricalData (kite w)
    (InstrumentInfo.instrument_token instrument) "day" startDate endDate false
  = Resolved data ->
  write_error w ((moment_YYYY w endDate ++ "/" ++ symbol) ++ ".json")%string = None ->
  exists instrument' ohlc,
    get (files (snd (kite_helpers.downloadAllNfoStockHistoricalData w universe
                       startDate endDate s)))
      ((moment_YYYY w endDate ++ "/" ++ symbol) ++ ".json")%string
    = Some (JsonText (Json.Series instrument' ohlc)).
Proof.
  intros Hc Hin Hl Hd Hw.
  unfold kite_helpers.downloadAllNfoStockHistoricalData.
  assert (H : DownloadFacts.series_at
                (snd (kite_helpers.downloads w universe startDate endDate s))
                (DownloadFacts.path (moment_YYYY w endDate) symbol)).
  { revert s Hc. induction universe as [|x rest IH]; intros s Hc; [contradiction|].
    rewrite DownloadFacts.downloads_cons. cbn [snd].
    pose proof (DownloadFacts.download_instruments w s l x startDate endDate Hc)
      as Hc'.
    assert (Hkept : forall symbols s0,
               instruments s0 = Some (Json.Instruments l) ->
               DownloadFacts.series_at s0
                 (DownloadFacts.path (moment_YYYY w endDate) symbol) ->
               DownloadFacts.series_at
                 (snd (kite_helpers.downloads w symbols startDate endDate s0))
                 (DownloadFacts.path (moment_YYYY w endDate) symbol)).
    { induction symbols as [|y ys IHy]; intros s0 Hc0 H0; [exact H0|].
      rewrite DownloadFacts.downloads_cons. cbn [snd]. apply IHy.
      - now apply DownloadFacts.download_instruments.
      - now apply (DownloadFacts.download_series_kept w s0 l). }
    destruct (string_dec x symbol) as [->|Hx].
    - apply Hkept; [assumption|].
      now apply (DownloadFacts.download_series_made w s l symbol startDate endDate
                   instrument data).
    - destruct Hin as [Hin|Hin]; [contradiction|]. now apply IH. }
  destruct (kite_helpers.downloads w universe startDate endDate s) as [ps s'].
  exact H.
Qed.

Lemma failed_download_does_not_stop_the_others_witness :
  fst (kite_helpers.downloadAllNfoStockHistoricalData
         (Scenarios.world Scenarios.broker) ["CCC"; "AAA"]%string
         "2018-01-01 12:00:01" "2018-12-31 11:59:59" Scenarios.logged_in)
  = Rejected (OtherError "no data")
  /\ exists instrument' ohlc,
       get (files (snd (kite_helpers.downloadAllNfoStockHistoricalData
                          (Scenarios.world Scenarios.broker) ["CCC"; "AAA"]%string
                          "2018-01-01 12:00:01" "2018-12-31 11:59:59"
                          Scenarios.logged_in)))
         "2018/AAA.json"%string
       = Some (JsonText (Json.Series instrument' ohlc)).
Proof.
  split; [reflexivity|].
  apply (failed_download_does_not_stop_the_others
           (Scenarios.world Scenarios.broker) ["CCC"; "AAA"]%string
           "2018-01-01 12:00:01" "2018-12-31 11:59:59" Scenarios.logged_in
           Scenarios.listing "AAA"
           {| InstrumentInfo.tradingsymbol := "AAA";
              InstrumentInfo.instrument_token := 1 |}
           (rev (Instrument.ohlc Examples.rally))).
  - reflexivity.
  - right. left. reflexivity.
  - reflexivity.
  - reflexivity.
  - reflexivity.
Defined.
